(** * Wikipedia page converter: rewriting, offline embedding and page assembly

    A shallow embedding of [wiki_converter.py].  The converter parses a page
    with BeautifulSoup, rewrites the parsed tree in place (head references,
    body clean-up, link interception, image sources), optionally embeds the
    referenced resources as data URIs, and assembles the final document
    around two fixed assets.

    What the program computes itself is modelled concretely: string tests
    and substitution, the attribute dictionary of a tag, the traversals of
    the tree, the font regular expression and the assembly template.  What
    it delegates to libraries (the HTML parser and serializer, [urljoin],
    Unicode case folding and stripping, HTTP and base64) is the [Runtime]
    interface below.  The program calls [urljoin] outside any [try], so the
    [ValueError] of [urljoin] ends the run wherever it is raised. *)

From Stdlib Require Import String Ascii List Bool Arith Lia.
Import ListNotations.
Open Scope list_scope.
Open Scope string_scope.

(** ** Python string primitives *)

Module PyStr.

(** [s.startswith(p)] *)
Definition startswith (s p : string) : bool := String.prefix p s.

(** [s[n:]] *)
Fixpoint drop (n : nat) (s : string) : string :=
  match n, s with
  | O, _ => s
  | S _, EmptyString => EmptyString
  | S n', String _ s' => drop n' s'
  end.

(** [s[:n]] *)
Fixpoint take (n : nat) (s : string) : string :=
  match n, s with
  | O, _ => EmptyString
  | S _, EmptyString => EmptyString
  | S n', String c s' => String c (take n' s')
  end.

(** [s.endswith(p)] *)
Definition endswith (s p : string) : bool :=
  Nat.leb (String.length p) (String.length s)
  && String.eqb (drop (String.length s - String.length p) s) p.

(** [needle in hay] *)
Fixpoint contains (needle hay : string) : bool :=
  String.prefix needle hay
  || match hay with
     | EmptyString => false
     | String _ hay' => contains needle hay'
     end.

(** [bool(s)]: a string is true when it is not empty. *)
Definition truthy (s : string) : bool :=
  match s with EmptyString => false | String _ _ => true end.

(** [s.replace(old, new)] for a non-empty [old]: the occurrences of [old]
    are found from the left and do not overlap.  [skip] counts the
    characters of an occurrence already replaced that are still to be
    passed over. *)
Fixpoint replace_from (old new : string) (skip : nat) (s : string) : string :=
  match s with
  | EmptyString => EmptyString
  | String c s' =>
      match skip with
      | S k => replace_from old new k s'
      | O =>
          if String.prefix old s
          then new ++ replace_from old new (String.length old - 1) s'
          else String c (replace_from old new 0 s')
      end
  end.

(** With an empty [old] Python inserts [new] before every character and at
    the end. *)
Fixpoint intersperse (new s : string) : string :=
  match s with
  | EmptyString => new
  | String c s' => new ++ String c (intersperse new s')
  end.

Definition replace (s old new : string) : string :=
  match old with
  | EmptyString => intersperse new s
  | String _ _ => replace_from old new 0 s
  end.

(** [''.join(parts)] *)
Definition join (parts : list string) : string := String.concat "" parts.

End PyStr.

(** ** Exceptions

    What the program can raise outside its [try] blocks: subscripting a
    dictionary at a missing key, calling a string method on an attribute
    value that is a list, and the [ValueError] of [urljoin] on a URL it
    cannot split. *)

Inductive exn : Type :=
| KeyError (key : string)
| AttributeError (name : string)
| ValueError.

Inductive result (A : Type) : Type :=
| Ok (a : A)
| Raise (e : exn).

Arguments Ok {A} a.
Arguments Raise {A} e.

Definition bind {A B : Type} (c : result A) (k : A -> result B) : result B :=
  match c with
  | Ok a => k a
  | Raise e => Raise e
  end.

Notation "x <- c ;; k" := (bind c (fun x => k))
  (at level 61, c at next level, right associativity).

(** [for x in xs: ...] with a body that may raise. *)
Fixpoint mapM {A B : Type} (f : A -> result B) (xs : list A) : result (list B) :=
  match xs with
  | [] => Ok []
  | x :: xs' => y <- f x ;; ys <- mapM f xs' ;; Ok (y :: ys)
  end.

(** ** Attribute dictionaries

    BeautifulSoup keeps the attributes of a tag in a dictionary from names to
    values.  A value is a string, or a list of tokens for the attributes
    HTML defines as lists ([class], [rel], ...).  The dictionary keeps its
    insertion order, which the serializer follows. *)

Inductive attrval : Type :=
| AStr (s : string)
| AList (tokens : list string).

Definition attr_dict : Type := list (string * attrval).

(** [d.get(k)] *)
Fixpoint dict_get (d : attr_dict) (k : string) : option attrval :=
  match d with
  | [] => None
  | (k', v) :: d' => if String.eqb k' k then Some v else dict_get d' k
  end.

(** [k in d] *)
Definition dict_has (d : attr_dict) (k : string) : bool :=
  match dict_get d k with Some _ => true | None => false end.

(** [d[k]] *)
Definition getitem (d : attr_dict) (k : string) : result attrval :=
  match dict_get d k with
  | Some v => Ok v
  | None => Raise (KeyError k)
  end.

(** [d[k] = v]: an existing key keeps its place, a new one goes last. *)
Fixpoint dict_set (d : attr_dict) (k : string) (v : attrval) : attr_dict :=
  match d with
  | [] => [(k, v)]
  | (k', v') :: d' =>
      if String.eqb k' k then (k', v) :: d' else (k', v') :: dict_set d' k v
  end.

Definition dict_remove (d : attr_dict) (k : string) : attr_dict :=
  filter (fun kv => negb (String.eqb (fst kv) k)) d.

(** [del d[k]] *)
Definition delitem (d : attr_dict) (k : string) : result attr_dict :=
  if dict_has d k then Ok (dict_remove d k) else Raise (KeyError k).

(** The receiver of a string method ([startswith], [lower]): an attribute
    value that is a list has no such method, and the call raises. *)
Definition str_of (v : attrval) : result string :=
  match v with
  | AStr s => Ok s
  | AList _ => Raise (AttributeError "str method of a list")
  end.

(** ** The parsed tree *)

Inductive strkind : Type :=
| Text | Comment | CData | ProcessingInstruction | Declaration | Doctype.

(** A page element is a string ([NavigableString] and its subclasses) or a
    tag.  The [BeautifulSoup] object itself is the tag that holds the whole
    document. *)
#[warnings="-register-all"]
Inductive node : Type :=
| Str (kind : strkind) (text : string)
| Tag (name : string) (attrs : attr_dict) (contents : list node).

Definition contents_of (n : node) : list node :=
  match n with
  | Str _ _ => []
  | Tag _ _ ks => ks
  end.

(** [tag.string]: the only child when it is a string, the [.string] of the
    only child when it is a tag, [None] otherwise. *)
Fixpoint tag_string (n : node) : option string :=
  match n with
  | Str _ s => Some s
  | Tag _ _ [k] => tag_string k
  | Tag _ _ _ => None
  end.

(** *** Search filters

    [find_all(name, attrs)] keeps the tags whose name is [name] and whose
    attributes pass every test of [attrs]: [True] asks for the attribute to
    be there, a string or a list of strings for its value to be one of them.
    A list value passes when one of its tokens does, or when the tokens
    joined by a blank do. *)

Inductive attr_test : Type :=
| Present
| OneOf (values : list string).

Record matcher : Type := Matcher {
  m_name : string;
  m_attrs : list (string * attr_test)
}.

Definition value_matches (v : option attrval) (t : attr_test) : bool :=
  match t, v with
  | Present, Some _ => true
  | Present, None => false
  | OneOf _, None => false
  | OneOf vs, Some (AStr s) => existsb (String.eqb s) vs
  | OneOf vs, Some (AList toks) =>
      existsb (fun tok => existsb (String.eqb tok) vs) toks
      || existsb (String.eqb (String.concat " " toks)) vs
  end.

Definition matches (m : matcher) (n : node) : bool :=
  match n with
  | Str _ _ => false
  | Tag nm a _ =>
      String.eqb nm (m_name m)
      && forallb (fun kt => value_matches (dict_get a (fst kt)) (snd kt)) (m_attrs m)
  end.

(** *** Positions

    A reference to an element of the tree is the list of child indices that
    leads to it from the root. *)

Definition path : Type := list nat.

Fixpoint node_at (p : path) (n : node) : option node :=
  match p with
  | [] => Some n
  | i :: p' =>
      match nth_error (contents_of n) i with
      | Some k => node_at p' k
      | None => None
      end
  end.

(** The node at position [p] of a list of siblings. *)
Definition forest_at (p : path) (ks : list node) : option node :=
  match p with
  | [] => None
  | i :: p' =>
      match nth_error ks i with
      | Some k => node_at p' k
      | None => None
      end
  end.

Fixpoint first_index (f : node -> option path) (ks : list node) (i : nat)
  : option path :=
  match ks with
  | [] => None
  | k :: ks' =>
      match f k with
      | Some p => Some (i :: p)
      | None => first_index f ks' (S i)
      end
  end.

(** The first node of the subtree of [n], [n] included, that passes [m], in
    document order. *)
Fixpoint first_path (m : matcher) (n : node) : option path :=
  if matches m n then Some []
  else match n with
       | Str _ _ => None
       | Tag _ _ ks => first_index (first_path m) ks 0
       end.

(** [n.find(name, attrs)]: the first descendant of [n] that passes. *)
Definition find_path (m : matcher) (n : node) : option path :=
  first_index (first_path m) (contents_of n) 0.

Definition find (m : matcher) (n : node) : option node :=
  match find_path m n with
  | Some p => node_at p n
  | None => None
  end.

(** ** Regular expressions

    A backtracking matcher for the fragment of Python's [re] the program
    uses: literals, character classes, greedy [?] and greedy [+] over a
    class, concatenation, and one capturing group.  Alternatives are tried
    in Python's order, the longer one first. *)

Module Re.

Inductive regex : Type :=
| Lit (s : string)
| Class (p : ascii -> bool)
| Opt (r : regex)
| Plus (p : ascii -> bool)
| Cat (r1 r2 : regex)
| Group (r : regex).

(** [[p]+] followed by the continuation [k]: as many characters as possible,
    giving them back one by one while [k] fails. *)
Fixpoint plus_class {A : Type} (p : ascii -> bool) (s : string)
  (k : string -> option A) : option A :=
  match s with
  | EmptyString => None
  | String c s' =>
      if p c
      then match plus_class p s' k with
           | Some a => Some a
           | None => k s'
           end
      else None
  end.

(** [rmatch r s cap k]: match [r] at the start of [s], then continue with
    [k] on what is left of [s] and the text the group has captured. *)
Fixpoint rmatch {A : Type} (r : regex) (s : string) (cap : option string)
  (k : string -> option string -> option A) : option A :=
  match r with
  | Lit l =>
      if String.prefix l s then k (PyStr.drop (String.length l) s) cap else None
  | Class p =>
      match s with
      | String c s' => if p c then k s' cap else None
      | EmptyString => None
      end
  | Opt r' =>
      match rmatch r' s cap k with
      | Some a => Some a
      | None => k s cap
      end
  | Plus p => plus_class p s (fun s' => k s' cap)
  | Cat r1 r2 => rmatch r1 s cap (fun s' cap' => rmatch r2 s' cap' k)
  | Group r' =>
      rmatch r' s cap
        (fun s' _ => k s' (Some (PyStr.take (String.length s - String.length s') s)))
  end.

(** A match of [r] at the start of [s]: the text of the group and the number
    of characters matched. *)
Definition match_here (r : regex) (s : string) : option (string * nat) :=
  rmatch r s None
    (fun s' cap =>
       match cap with
       | Some g => Some (g, String.length s - String.length s')
       | None => Some (EmptyString, String.length s - String.length s')
       end).

(** [re.findall(r, s)] for a pattern with one group that matches no empty
    text: the groups of the matches found from the left, which do not
    overlap.  [skip] counts the characters of the last match still to be
    passed over. *)
Fixpoint findall_from (r : regex) (skip : nat) (s : string) : list string :=
  match s with
  | EmptyString => []
  | String _ s' =>
      match skip with
      | S k => findall_from r k s'
      | O =>
          match match_here r s with
          | Some (g, n) => g :: findall_from r (n - 1) s'
          | None => findall_from r 0 s'
          end
      end
  end.

Definition findall (r : regex) (s : string) : list string := findall_from r 0 s.

(** What a pattern means: [sem r t cap cap'] when [r] matches the text [t]
    and turns the captured text [cap] into [cap']. *)
Inductive sem : regex -> string -> option string -> option string -> Prop :=
| sem_lit l cap : sem (Lit l) l cap cap
| sem_class (p : ascii -> bool) c cap :
    p c = true -> sem (Class p) (String c EmptyString) cap cap
| sem_opt_none r cap : sem (Opt r) EmptyString cap cap
| sem_opt_some r t cap cap' : sem r t cap cap' -> sem (Opt r) t cap cap'
| sem_plus (p : ascii -> bool) t cap :
    t <> EmptyString -> sem (Plus p) t cap cap
| sem_cat r1 r2 t1 t2 cap cap1 cap2 :
    sem r1 t1 cap cap1 -> sem r2 t2 cap1 cap2 ->
    sem (Cat r1 r2) (t1 ++ t2) cap cap2
| sem_group r t cap cap' : sem r t cap cap' -> sem (Group r) t cap (Some t).

End Re.

(** The double quote, as a character and as a string. *)
Definition dquote : ascii := ascii_of_nat 34.
Definition dq : string := String dquote EmptyString.

Definition is_quote (c : ascii) : bool :=
  Ascii.eqb c "'"%char || Ascii.eqb c dquote.

Definition one_of (cs : string) (c : ascii) : bool :=
  existsb (Ascii.eqb c) (list_ascii_of_string cs).

(** The pattern of the embedder (line 79), where Q stands for the class of
    the single and the double quote:
    [url\(Q?([^Q)]+\.[wot]f[f2]?)Q?\)] *)
Definition font_url_re : Re.regex :=
  Re.Cat (Re.Lit "url(")
 (Re.Cat (Re.Opt (Re.Class is_quote))
 (Re.Cat (Re.Group
            (Re.Cat (Re.Plus (fun c => negb (is_quote c || Ascii.eqb c ")"%char)))
            (Re.Cat (Re.Lit ".")
            (Re.Cat (Re.Class (one_of "wot"))
            (Re.Cat (Re.Lit "f")
                    (Re.Opt (Re.Class (one_of "f2"))))))))
 (Re.Cat (Re.Opt (Re.Class is_quote))
         (Re.Lit ")")))).

(** ** What the program asks of its libraries

    The parser accepts every text.  URL resolution raises [ValueError] on
    some URLs (an unclosed bracket in the host, for one), which is the
    [None] of [urljoin].  The network is the one thing that changes between
    two calls, so it is a state that [requests_get] takes and gives back. *)

Class Runtime : Type := {
  (** [BeautifulSoup(markup, 'html.parser')] *)
  parse : string -> node;
  (** [str(element)]: the markup of a tag or of the document, the text of a
      string *)
  py_str : node -> string;
  (** [tag.get_text()] *)
  get_text : node -> string;
  (** [urllib.parse.urljoin(base, url)], nothing when it raises
      [ValueError] *)
  urljoin : string -> string -> option string;
  (** [s.lower()] and [s.strip()], which follow the Unicode tables *)
  lower : string -> string;
  strip : string -> string;
  (** The state of the network, and [requests.get(url, ...)] followed by
      [raise_for_status()]: the content of the response, or nothing when an
      exception was raised; the network moves on either way. *)
  world : Type;
  requests_get : string -> world -> option string * world;
  (** [base64.b64encode(content).decode('utf-8')] *)
  b64encode : string -> string;
  (** [base64.b64decode(data).decode('utf-8')], nothing when it raises *)
  b64decode_utf8 : string -> option string
}.

(** ** Traversals

    A loop [for el in root.find_all(...)] visits the descendants of [root]
    that pass the filter, in document order, and works on each in place.
    The loops of the program either change the attributes of the element,
    remove it with its subtree, or replace it; each is a recursive pass over
    the children of [root].  An element that went with a removed ancestor
    is out of the tree and is not visited again. *)

(** Every tag of the subtree gets its attributes from [f]. *)
Fixpoint update_tags (f : node -> result attr_dict) (n : node) : result node :=
  match n with
  | Str _ _ => Ok n
  | Tag nm _ ks =>
      a' <- f n ;;
      ks' <- mapM (update_tags f) ks ;;
      Ok (Tag nm a' ks')
  end.

(** [for el in root.find_all(m): el.decompose()] on the children [ks] of
    [root]: a matching element goes with everything below it. *)
Fixpoint prune (m : matcher) (n : node) : node :=
  match n with
  | Str _ _ => n
  | Tag nm a ks =>
      Tag nm a (flat_map (fun k => if matches m k then [] else [prune m k]) ks)
  end.

Definition decompose_all (m : matcher) (ks : list node) : list node :=
  flat_map (fun k => if matches m k then [] else [prune m k]) ks.

(** A pass whose body either removes the element ([None]) or keeps it. *)
Fixpoint collectM {A B : Type} (f : A -> result (option B)) (xs : list A)
  : result (list B) :=
  match xs with
  | [] => Ok []
  | x :: xs' =>
      y <- f x ;;
      ys <- collectM f xs' ;;
      Ok (match y with Some b => b :: ys | None => ys end)
  end.

(** A pass that threads a state through the elements in document order. *)
Fixpoint mapS {S : Type} (f : node -> S -> node * S) (ks : list node) (w : S)
  : list node * S :=
  match ks with
  | [] => ([], w)
  | k :: ks' =>
      let '(k', w1) := f k w in
      let '(ks'', w2) := mapS f ks' w1 in
      (k' :: ks'', w2)
  end.

(** The same for a pass whose body may raise: the state it raised in is
    the state the exception leaves behind. *)
Fixpoint mapSE {S : Type} (f : node -> S -> result node * S) (ks : list node)
  (w : S) : result (list node) * S :=
  match ks with
  | [] => (Ok [], w)
  | k :: ks' =>
      match f k w with
      | (Ok k', w1) =>
          match mapSE f ks' w1 with
          | (Ok ks'', w2) => (Ok (k' :: ks''), w2)
          | (Raise e, w2) => (Raise e, w2)
          end
      | (Raise e, w1) => (Raise e, w1)
      end
  end.

Fixpoint update_nth {A : Type} (f : A -> A) (xs : list A) (i : nat) : list A :=
  match xs, i with
  | [], _ => []
  | x :: xs', O => f x :: xs'
  | x :: xs', S i' => x :: update_nth f xs' i'
  end.

(** The element at [p] replaced by [new] in the tree. *)
Fixpoint replace_at (p : path) (new : node) (n : node) : node :=
  match p with
  | [] => new
  | i :: p' =>
      match n with
      | Str _ _ => n
      | Tag nm a ks => Tag nm a (update_nth (replace_at p' new) ks i)
      end
  end.

(** The filters of the program. *)
Definition tag (nm : string) : matcher := Matcher nm [].
Definition h1_class : matcher := Matcher "h1" [("class", OneOf ["firstHeading"])].
Definition h1_id : matcher := Matcher "h1" [("id", OneOf ["firstHeading"])].
Definition stylesheet_link : matcher := Matcher "link" [("rel", OneOf ["stylesheet"])].
Definition edit_section : matcher := Matcher "span" [("class", OneOf ["mw-editsection"])].
Definition unwanted_div : matcher :=
  Matcher "div" [("class", OneOf ["navbox"; "printfooter"; "mw-authority-control"; "noprint"])].
Definition navigation_div : matcher := Matcher "div" [("role", OneOf ["navigation"])].
Definition edit_bracket : matcher :=
  Matcher "span" [("class", OneOf ["mw-editsection-bracket"])].
Definition anchor_with_href : matcher := Matcher "a" [("href", Present)].

Definition known_origin : string := "https://en.wikipedia.org".
Definition fallback_title : string := "Wikipedia Article".

(** The record [process_wikipedia_html] returns and [generate_html] reads. *)
Record page_data : Type := PageData {
  title : string;
  head_content : string;
  body_content : string;
  offline : bool
}.

(** The trees behind the record, before they are serialized. *)
Record rewritten : Type := Rewritten {
  r_title : string;
  r_head : option node;
  r_body : list node
}.

Definition attrs_of (n : node) : attr_dict :=
  match n with
  | Str _ _ => []
  | Tag _ a _ => a
  end.

(** The body [f] of a loop over [find_all(m)], as a function of every tag. *)
Definition on_matching (m : matcher) (f : attr_dict -> result attr_dict)
  (n : node) : result attr_dict :=
  if matches m n then f (attrs_of n) else Ok (attrs_of n).

(** [for el in ks-parent.find_all(m): f el], on the children [ks]. *)
Definition for_each_in (m : matcher) (f : attr_dict -> result attr_dict)
  (ks : list node) : result (list node) :=
  mapM (update_tags (on_matching m f)) ks.

(** [for el in root.find_all(m): f el] *)
Definition for_each (m : matcher) (f : attr_dict -> result attr_dict)
  (root : node) : result node :=
  match root with
  | Str _ _ => Ok root
  | Tag nm a ks => ks' <- for_each_in m f ks ;; Ok (Tag nm a ks')
  end.

Section Converter.

Context {RT : Runtime}.

(** *** download_resource (lines 15-26) *)

Definition download_resource (url : string) (w : world)
  : option string * world :=
  match requests_get url w with
  | (Some content, w') => (Some (b64encode content), w')
  | (None, w') => (None, w')
  end.

(** [download_resource(value)] for an attribute value: [requests] refuses
    what is not a string before it reaches the network, and the exception
    is caught. *)
Definition download_attr (v : attrval) (w : world) : option string * world :=
  match v with
  | AStr url => download_resource url w
  | AList _ => (None, w)
  end.

(** [if data:] for what [download_resource] returned *)
Definition downloaded (data : option string) : option string :=
  match data with
  | Some d => if PyStr.truthy d then Some d else None
  | None => None
  end.

(** *** process_wikipedia_html (lines 112-250) *)

(** Lines 118-123. *)
Definition select_title (soup : node) : option node :=
  match find h1_class soup with
  | Some t => Some t
  | None =>
      match find h1_id soup with
      | Some t => Some t
      | None => find (tag "h1") soup
      end
  end.

Definition title_text (soup : node) : string :=
  match select_title soup with
  | Some t => strip (get_text t)
  | None => fallback_title
  end.

(** A call of [urljoin], which the program makes outside any [try]. *)
Definition resolve (base url : string) : result string :=
  match urljoin base url with
  | Some joined => Ok joined
  | None => Raise ValueError
  end.

(** Lines 134-137, and again 144-147, 155-158 and 183-186. *)
Definition make_absolute (source_url url : string) : result string :=
  if PyStr.startswith url "/" then Ok (known_origin ++ url)
  else if negb (PyStr.startswith url "http") then resolve source_url url
  else Ok url.

(** The body of the three loops over the head (lines 131-138, 142-148,
    152-159), for the attribute [key]. *)
Definition absolutize_attr (source_url key : string) (a : attr_dict)
  : result attr_dict :=
  match dict_get a key with
  | Some v =>
      url <- str_of v ;;
      url' <- make_absolute source_url url ;;
      Ok (dict_set a key (AStr url'))
  | None => Ok a
  end.

(** Lines 130-159. *)
Definition head_passes (source_url : string) (head : node) : result node :=
  h1 <- for_each stylesheet_link (absolutize_attr source_url "href") head ;;
  h2 <- for_each (tag "link") (absolutize_attr source_url "href") h1 ;;
  for_each (tag "script") (absolutize_attr source_url "src") h2.

(** Lines 126-161: the head is rewritten where it stands in the tree.  The
    result is the rewritten head, if there is one, and the tree after the
    rewrite. *)
Definition rewrite_head (soup : node) (source_url : string)
  : result (option node * node) :=
  match find_path (tag "head") soup with
  | None => Ok (None, soup)
  | Some p =>
      match node_at p soup with
      | None => Ok (None, soup)
      | Some head =>
          head' <- head_passes source_url head ;;
          Ok (Some head', replace_at p head' soup)
      end
  end.

(** Lines 164-166. *)
Definition body_of (soup : node) : node :=
  match find (tag "body") soup with
  | Some body => body
  | None => soup
  end.

(** Lines 174-187: what becomes of one script of the body, [None] when it
    is removed. *)
Definition inline_tracking (s : option string) : bool :=
  match s with
  | Some text =>
      PyStr.truthy text
      && (PyStr.contains "analytics" (lower text)
          || PyStr.contains "tracker" (lower text))
  | None => false
  end.

Definition process_script (source_url : string) (n : node)
  : result (option attr_dict) :=
  src <- match dict_get (attrs_of n) "src" with
         | Some v => str_of v
         | None => Ok EmptyString
         end ;;
  if PyStr.contains "analytics" (lower src)
     || PyStr.contains "tracker" (lower src)
     || PyStr.contains "google" (lower src)
  then Ok None
  else if inline_tracking (tag_string n) then Ok None
  else if PyStr.truthy src
  then src' <- make_absolute source_url src ;;
       Ok (Some (dict_set (attrs_of n) "src" (AStr src')))
  else Ok (Some (attrs_of n)).

(** Lines 173-187. *)
Fixpoint scripts_pass (source_url : string) (n : node) : result (option node) :=
  match n with
  | Str _ _ => Ok (Some n)
  | Tag nm a ks =>
      v <- (if matches (tag "script") n
            then process_script source_url n
            else Ok (Some a)) ;;
      match v with
      | None => Ok None
      | Some a' =>
          ks' <- collectM (scripts_pass source_url) ks ;;
          Ok (Some (Tag nm a' ks'))
      end
  end.

(** Lines 168-203: the children of the body once the unwanted elements are
    gone, which is what the loop over the anchors walks. *)
Definition clean_body (source_url : string) (ks : list node)
  : result (list node) :=
  let ks1 := decompose_all (tag "noscript") ks in
  ks2 <- collectM (scripts_pass source_url) ks1 ;;
  let ks3 := decompose_all edit_section ks2 in
  let ks4 := decompose_all unwanted_div ks3 in
  let ks5 := decompose_all navigation_div ks4 in
  Ok (decompose_all edit_bracket ks5).

(** Lines 207-226: the body of the loop over the anchors. *)
Definition boundary_call (url category : string) : string :=
  "showBoundaryWarning('" ++ url ++ "', '" ++ category ++ "'); return false;".

(** The destination of an external link, line 220. *)
Definition external_url_of (href : string) : string :=
  if PyStr.startswith href "http" then href else "https:" ++ href.

Definition process_link (source_url : string) (a : attr_dict)
  : result attr_dict :=
  v <- getitem a "href" ;;
  href <- str_of v ;;
  if PyStr.startswith href "#" then Ok a
  else if PyStr.startswith href "/wiki/" then
    let wiki_url := known_origin ++ href in
    let a1 := dict_set a "data-boundary-url" (AStr wiki_url) in
    let a2 := dict_set a1 "onclick" (AStr (boundary_call wiki_url "wikipedia")) in
    delitem a2 "href"
  else if PyStr.startswith href "http://"
          || PyStr.startswith href "https://"
          || PyStr.startswith href "//" then
    let external_url := external_url_of href in
    let a1 := dict_set a "data-boundary-url" (AStr external_url) in
    let a2 := dict_set a1 "onclick" (AStr (boundary_call external_url "external")) in
    delitem a2 "href"
  else if negb (PyStr.startswith href "http") then
    href' <- resolve source_url href ;;
    Ok (dict_set a "href" (AStr href'))
  else Ok a.

(** Lines 229-235: the body of the loop over the images. *)
Definition process_img (source_url : string) (a : attr_dict)
  : result attr_dict :=
  match dict_get a "src" with
  | Some v =>
      src <- str_of v ;;
      if PyStr.startswith src "//" then Ok (dict_set a "src" (AStr ("https:" ++ src)))
      else if negb (PyStr.startswith src "http")
      then src' <- resolve source_url src ;;
           Ok (dict_set a "src" (AStr src'))
      else Ok a
  | None => Ok a
  end.

Definition rewrite_links (source_url : string) (ks : list node)
  : result (list node) :=
  for_each_in anchor_with_href (process_link source_url) ks.

Definition rewrite_images (source_url : string) (ks : list node)
  : result (list node) :=
  for_each_in (tag "img") (process_img source_url) ks.

(** The children of the body as the loop over the anchors finds them. *)
Definition body_before_links (soup : node) (source_url : string)
  : result (list node) :=
  hs <- rewrite_head soup source_url ;;
  clean_body source_url (contents_of (body_of (snd hs))).

(** Lines 115-238, on the parsed tree. *)
Definition process_tree (soup : node) (source_url : string) : result rewritten :=
  let title_text := title_text soup in
  hs <- rewrite_head soup source_url ;;
  ks <- clean_body source_url (contents_of (body_of (snd hs))) ;;
  ks1 <- rewrite_links source_url ks ;;
  ks2 <- rewrite_images source_url ks1 ;;
  Ok (Rewritten title_text (fst hs) ks2).

(** *** embed_offline_resources (lines 28-110) *)

(** Lines 36-49: a stylesheet link whose fetch and decoding succeed becomes
    a [style] element that holds the text.  The links are fetched in
    document order; a link below a replaced one is still fetched, and what
    becomes of it is lost with the element it was in. *)
Fixpoint embed_stylesheets (n : node) (w : world) : node * world :=
  match n with
  | Str _ _ => (n, w)
  | Tag nm a ks =>
      if matches stylesheet_link n then
        match dict_get a "href" with
        | Some href =>
            let '(css_data, w1) := download_attr href w in
            let '(ks', w2) := mapS embed_stylesheets ks w1 in
            match downloaded css_data with
            | Some data =>
                match b64decode_utf8 data with
                | Some css_content => (Tag "style" [] [Str Text css_content], w2)
                | None => (Tag nm a ks', w2)
                end
            | None => (Tag nm a ks', w2)
            end
        | None =>
            let '(ks', w1) := mapS embed_stylesheets ks w in
            (Tag nm a ks', w1)
        end
      else
        let '(ks', w1) := mapS embed_stylesheets ks w in
        (Tag nm a ks', w1)
  end.

(** Lines 60-69. *)
Definition image_media_type (src : string) : string :=
  if PyStr.endswith src ".jpg" || PyStr.endswith src ".jpeg" then "image/jpeg"
  else if PyStr.endswith src ".png" then "image/png"
  else if PyStr.endswith src ".gif" then "image/gif"
  else if PyStr.endswith src ".svg" then "image/svg+xml"
  else "image/jpeg".

(** Lines 53-71. *)
Fixpoint embed_images (n : node) (w : world) : node * world :=
  match n with
  | Str _ _ => (n, w)
  | Tag nm a ks =>
      let '(a', w1) :=
        if matches (tag "img") n then
          match dict_get a "src" with
          | Some (AStr src) =>
              let '(img_data, w1) := download_resource src w in
              match downloaded img_data with
              | Some data =>
                  (dict_set a "src"
                     (AStr ("data:" ++ image_media_type src ++ ";base64," ++ data)),
                   w1)
              | None => (a, w1)
              end
          | Some (AList _) => (a, w)
          | None => (a, w)
          end
        else (a, w) in
      let '(ks', w2) := mapS embed_images ks w1 in
      (Tag nm a' ks', w2)
  end.

(** Lines 92-101. *)
Definition font_media_type (font_url : string) : string :=
  if PyStr.endswith font_url ".woff2" then "font/woff2"
  else if PyStr.endswith font_url ".woff" then "font/woff"
  else if PyStr.endswith font_url ".ttf" then "font/ttf"
  else if PyStr.endswith font_url ".otf" then "font/otf"
  else "font/woff".

(** Lines 82-86. *)
Definition font_full_url (font_url : string) : result string :=
  if PyStr.startswith font_url "/" then Ok (known_origin ++ font_url)
  else if negb (PyStr.startswith font_url "http")
  then resolve known_origin font_url
  else Ok font_url.

(** Lines 104-106: the three quoting styles, one after the other. *)
Definition substitute_font (css_content font_url data_uri : string) : string :=
  let css1 :=
    PyStr.replace css_content ("url('" ++ font_url ++ "')") ("url('" ++ data_uri ++ "')") in
  let css2 :=
    PyStr.replace css1 ("url(" ++ dq ++ font_url ++ dq ++ ")")
                       ("url(" ++ dq ++ data_uri ++ dq ++ ")") in
  PyStr.replace css2 ("url(" ++ font_url ++ ")") ("url(" ++ data_uri ++ ")").

(** Lines 80-106: the loop over the font URLs found in one style sheet.
    The URL is resolved before the request is made; when [urljoin] raises,
    the loop and the run end there. *)
Fixpoint embed_font_urls (font_urls : list string) (css_content : string)
  (w : world) : result string * world :=
  match font_urls with
  | [] => (Ok css_content, w)
  | font_url :: rest =>
      if PyStr.startswith font_url "data:" then embed_font_urls rest css_content w
      else
        match font_full_url font_url with
        | Raise e => (Raise e, w)
        | Ok full_url =>
            let '(font_data, w1) := download_resource full_url w in
            match downloaded font_data with
            | Some data =>
                let data_uri :=
                  "data:" ++ font_media_type font_url ++ ";base64," ++ data in
                embed_font_urls rest (substitute_font css_content font_url data_uri) w1
            | None => embed_font_urls rest css_content w1
            end
        end
  end.

(** Lines 77-108, for the text of one style element. *)
Definition embed_fonts_css (css_content : string) (w : world)
  : result string * world :=
  embed_font_urls (Re.findall font_url_re css_content) css_content w.

(** Lines 75-108.  Setting [style.string] replaces the children of the
    element by the one new string.  A style element below another one is
    still visited, and what becomes of it is lost with the children of the
    outer one. *)
Fixpoint embed_fonts (n : node) (w : world) : result node * world :=
  match n with
  | Str _ _ => (Ok n, w)
  | Tag nm a ks =>
      match (if matches (tag "style") n then downloaded (tag_string n) else None) with
      | Some css_content =>
          match embed_fonts_css css_content w with
          | (Raise e, w1) => (Raise e, w1)
          | (Ok css', w1) =>
              match mapSE embed_fonts ks w1 with
              | (Raise e, w2) => (Raise e, w2)
              | (Ok _, w2) => (Ok (Tag nm a [Str Text css']), w2)
              end
          end
      | None =>
          match mapSE embed_fonts ks w with
          | (Raise e, w1) => (Raise e, w1)
          | (Ok ks', w1) => (Ok (Tag nm a ks'), w1)
          end
      end
  end.

(** A pass over the descendants of the root. *)
Definition below (f : node -> world -> node * world) (root : node) (w : world)
  : node * world :=
  match root with
  | Str _ _ => (root, w)
  | Tag nm a ks => let '(ks', w') := mapS f ks w in (Tag nm a ks', w')
  end.

Definition belowE (f : node -> world -> result node * world) (root : node)
  (w : world) : result node * world :=
  match root with
  | Str _ _ => (Ok root, w)
  | Tag nm a ks =>
      match mapSE f ks w with
      | (Ok ks', w') => (Ok (Tag nm a ks'), w')
      | (Raise e, w') => (Raise e, w')
      end
  end.

(** The three loops on the two parsed trees.  The first two raise nothing:
    every exception of a fetch or of the decoding is caught where it is
    raised (lines 24 and 48). *)
Definition embed_trees (soup body_soup : node) (w : world)
  : result (node * node) * world :=
  let '(soup1, w1) := below embed_stylesheets soup w in
  let '(body1, w2) := below embed_images body_soup w1 in
  match belowE embed_fonts soup1 w2 with
  | (Ok soup2, w3) => (Ok (soup2, body1), w3)
  | (Raise e, w3) => (Raise e, w3)
  end.

Definition embed_offline_resources (html_content body_content : string)
  (w : world) : result (string * string) * world :=
  match embed_trees (parse html_content) (parse body_content) w with
  | (Ok (soup, body_soup), w') => (Ok (py_str soup, py_str body_soup), w')
  | (Raise e, w') => (Raise e, w')
  end.

(** *** process_wikipedia_html, on the text *)

Definition head_markup (head : option node) : string :=
  match head with
  | Some h => py_str h
  | None => EmptyString
  end.

Definition process_wikipedia_html (html_content source_url : string)
  (offline : bool) (w : world) : result page_data * world :=
  match process_tree (parse html_content) source_url with
  | Raise e => (Raise e, w)
  | Ok r =>
      let head_content := head_markup (r_head r) in
      let body_content := PyStr.join (map py_str (r_body r)) in
      if offline then
        match embed_offline_resources head_content body_content w with
        | (Ok (head_content', body_content'), w') =>
            (Ok (PageData (r_title r) head_content' body_content' offline), w')
        | (Raise e, w') => (Raise e, w')
        end
      else (Ok (PageData (r_title r) head_content body_content offline), w)
  end.

End Converter.

(** ** generate_html (lines 252-475) *)

Definition nl : string := String (ascii_of_nat 10) EmptyString.

(** Lines 256-381: the interception style sheet. *)
Definition boundary_css : string :=
  String.concat nl [
    "    <style>";
    "    /* Boundary Modal */";
    "    .modal-overlay {";
    "        display: none;";
    "        position: fixed;";
    "        top: 0;";
    "        left: 0;";
    "        width: 100%;";
    "        height: 100%;";
    "        background: rgba(0, 0, 0, 0.85);";
    "        backdrop-filter: blur(5px);";
    "        z-index: 9999;";
    "        align-items: center;";
    "        justify-content: center;";
    "    }";
    "";
    "    .modal-overlay.active {";
    "        display: flex;";
    "    }";
    "";
    "    .boundary-modal {";
    "        background: linear-gradient(135deg, #1a1a2e 0%, #16213e 100%);";
    "        border: 2px solid #00ff41;";
    "        border-radius: 3px;";
    "        padding: 30px;";
    "        max-width: 500px;";
    "        box-shadow: 0 0 40px rgba(0, 255, 65, 0.3), inset 0 0 20px rgba(0, 255, 65, 0.1);";
    "        color: #00ff41;";
    "        font-family: 'Courier New', monospace;";
    "        animation: glitch 0.3s ease-in-out;";
    "    }";
    "";
    "    @keyframes glitch {";
    "        0%, 100% { transform: translate(0); }";
    "        20% { transform: translate(-2px, 2px); }";
    "        40% { transform: translate(-2px, -2px); }";
    "        60% { transform: translate(2px, 2px); }";
    "        80% { transform: translate(2px, -2px); }";
    "    }";
    "";
    "    .boundary-modal h2 {";
    "        color: #00ff41;";
    "        font-size: 24px;";
    "        margin: 0 0 20px 0;";
    "        text-align: center;";
    "        border: none;";
    "        font-family: 'Courier New', monospace;";
    "        text-shadow: 0 0 10px rgba(0, 255, 65, 0.7);";
    "        letter-spacing: 2px;";
    "    }";
    "";
    "    .boundary-modal p {";
    "        color: #00ff41;";
    "        font-size: 14px;";
    "        line-height: 1.8;";
    "        margin-bottom: 20px;";
    "        text-align: left;";
    "    }";
    "";
    "    .boundary-modal .warning {";
    "        background: rgba(255, 0, 0, 0.1);";
    "        border-left: 3px solid #ff0040;";
    "        padding: 10px;";
    "        margin: 15px 0;";
    "        color: #ff0040;";
    "        font-size: 13px;";
    "    }";
    "";
    "    .boundary-modal .link-display {";
    "        background: rgba(0, 0, 0, 0.5);";
    "        border: 1px solid #00ff41;";
    "        padding: 10px;";
    "        margin: 15px 0;";
    "        word-break: break-all;";
    "        font-size: 12px;";
    "        color: #0ff;";
    "    }";
    "";
    "    .modal-buttons {";
    "        display: flex;";
    "        gap: 15px;";
    "        justify-content: center;";
    "        margin-top: 25px;";
    "    }";
    "";
    "    .modal-btn {";
    "        padding: 10px 25px;";
    "        border: 2px solid #00ff41;";
    "        background: transparent;";
    "        color: #00ff41;";
    "        cursor: pointer;";
    "        font-family: 'Courier New', monospace;";
    "        font-size: 14px;";
    "        font-weight: bold;";
    "        transition: all 0.3s;";
    "        text-transform: uppercase;";
    "        letter-spacing: 1px;";
    "    }";
    "";
    "    .modal-btn:hover {";
    "        background: #00ff41;";
    "        color: #1a1a2e;";
    "        box-shadow: 0 0 20px rgba(0, 255, 65, 0.5);";
    "    }";
    "";
    "    .modal-btn.danger {";
    "        border-color: #ff0040;";
    "        color: #ff0040;";
    "    }";
    "";
    "    .modal-btn.danger:hover {";
    "        background: #ff0040;";
    "        color: #fff;";
    "        box-shadow: 0 0 20px rgba(255, 0, 64, 0.5);";
    "    }";
    "";
    "    .blink {";
    "        animation: blink 1s infinite;";
    "    }";
    "";
    "    @keyframes blink {";
    "        0%, 49% { opacity: 1; }";
    "        50%, 100% { opacity: 0; }";
    "    }";
    "    </style>";
    ""
  ].

(** Lines 384-402: the markup of the modal, the first part of [boundary_modal]. *)
Definition modal_markup : string :=
  String.concat nl [
    "";
    "    <!-- Boundary Warning Modal -->";
    "    <div class=" ++ dq ++ "modal-overlay" ++ dq ++ " id=" ++ dq ++ "boundaryModal" ++ dq ++ ">";
    "        <div class=" ++ dq ++ "boundary-modal" ++ dq ++ ">";
    "            <h2>⚠ REALITY BOUNDARY DETECTED ⚠</h2>";
    "            <p>You are attempting to exit this mirror and access <strong>another Wikipedia page</strong>.</p>";
    "            <div class=" ++ dq ++ "warning" ++ dq ++ ">";
    "                <span class=" ++ dq ++ "blink" ++ dq ++ ">▶</span> WARNING: Crossing between wiki-spaces may cause temporal displacement.";
    "            </div>";
    "            <p>Target destination:</p>";
    "            <div class=" ++ dq ++ "link-display" ++ dq ++ " id=" ++ dq ++ "targetLink" ++ dq ++ "></div>";
    "            <p style=" ++ dq ++ "font-size: 12px; color: #0ff;" ++ dq ++ ">This page contains references to other Wikipedia articles. Proceeding will navigate away from the current mirror.</p>";
    "            <div class=" ++ dq ++ "modal-buttons" ++ dq ++ ">";
    "                <button class=" ++ dq ++ "modal-btn" ++ dq ++ " onclick=" ++ dq ++ "closeModal()" ++ dq ++ ">STAY HERE</button>";
    "                <button class=" ++ dq ++ "modal-btn danger" ++ dq ++ " onclick=" ++ dq ++ "proceedToLink()" ++ dq ++ ">TRAVERSE BOUNDARY</button>";
    "            </div>";
    "        </div>";
    "    </div>";
    "";
    ""
  ].

(** Lines 403-462: the interception script, the rest of [boundary_modal].  The
    text is no f-string: its doubled braces stay doubled. *)
Definition interception_script : string :=
  String.concat nl [
    "    <script>";
    "        let pendingUrl = null;";
    "";
    "        function showBoundaryWarning(url, type) {{";
    "            pendingUrl = url;";
    "";
    "            if (type === 'wikipedia') {{";
    "                document.querySelector('.boundary-modal h2').textContent = '⚠ REALITY BOUNDARY DETECTED ⚠';";
    "                document.querySelector('.boundary-modal p:first-of-type').textContent = 'You are attempting to exit this mirror and access another Wikipedia page.';";
    "            }} else if (type === 'external') {{";
    "                document.querySelector('.boundary-modal h2').textContent = '⚠ EXTERNAL LINK WARNING ⚠';";
    "                document.querySelector('.boundary-modal p:first-of-type').textContent = 'You are attempting to access an external website outside this mirror.';";
    "            }}";
    "";
    "            document.getElementById('targetLink').textContent = url;";
    "            document.getElementById('boundaryModal').classList.add('active');";
    "        }}";
    "";
    "        function closeModal() {{";
    "            document.getElementById('boundaryModal').classList.remove('active');";
    "            pendingUrl = null;";
    "        }}";
    "";
    "        function proceedToLink() {{";
    "            if (pendingUrl) {{";
    "                window.open(pendingUrl, '_blank');";
    "                closeModal();";
    "            }}";
    "        }}";
    "";
    "        // Handle hash links";
    "        document.addEventListener('click', function(e) {{";
    "            const link = e.target.closest('a[href^=" ++ dq ++ "#" ++ dq ++ "]');";
    "            if (link) {{";
    "                e.preventDefault();";
    "                const target = link.getAttribute('href');";
    "                if (target && target !== '#') {{";
    "                    const element = document.querySelector(target);";
    "                    if (element) {{";
    "                        element.scrollIntoView({{ behavior: 'smooth' }});";
    "                    }}";
    "                }}";
    "            }}";
    "        }});";
    "";
    "        // Close modal on escape key";
    "        document.addEventListener('keydown', function(e) {{";
    "            if (e.key === 'Escape') {{";
    "                closeModal();";
    "            }}";
    "        }});";
    "";
    "        // Close modal on overlay click";
    "        document.getElementById('boundaryModal').addEventListener('click', function(e) {{";
    "            if (e.target === this) {{";
    "                closeModal();";
    "            }}";
    "        }});";
    "    </script>";
    ""
  ].

Definition boundary_modal : string := modal_markup ++ interception_script.

(** Line 465. *)
Definition head_with_css (data : page_data) : string :=
  PyStr.replace (head_content data) "</head>" (boundary_css ++ "</head>").

(** Lines 467-475. *)
Definition generate_html (data : page_data) : string :=
  "<!DOCTYPE html>" ++ nl
  ++ "<html lang=" ++ dq ++ "en" ++ dq ++ ">" ++ nl
  ++ head_with_css data ++ nl
  ++ "<body>" ++ nl
  ++ body_content data ++ boundary_modal ++ "</body>" ++ nl
  ++ "</html>" ++ nl.

(** ** What the parser guarantees

    With [html.parser] the values of [href] and [src] are strings (only the
    attributes HTML defines as lists are split), a [link] element has no
    children, and the content of [script] and [style] elements is raw text.
    The traversals above follow the program on such trees. *)

Definition str_valued (a : attr_dict) (k : string) : bool :=
  match dict_get a k with
  | Some (AList _) => false
  | _ => true
  end.

Definition is_str (n : node) : bool :=
  match n with
  | Str _ _ => true
  | Tag _ _ _ => false
  end.

Definition shape_ok (nm : string) (ks : list node) : bool :=
  (if String.eqb nm "link" then match ks with [] => true | _ => false end else true)
  && (if String.eqb nm "script" || String.eqb nm "style"
      then forallb is_str ks else true).

Fixpoint str_attrs (n : node) : bool :=
  match n with
  | Str _ _ => true
  | Tag _ a ks => str_valued a "href" && str_valued a "src" && forallb str_attrs ks
  end.

Fixpoint raw_shape (n : node) : bool :=
  match n with
  | Str _ _ => true
  | Tag nm _ ks => shape_ok nm ks && forallb raw_shape ks
  end.

Definition parser_typed (n : node) : bool := str_attrs n && raw_shape n.

(** The tree without its attributes. *)
Fixpoint names (n : node) : node :=
  match n with
  | Str k s => Str k s
  | Tag nm _ ks => Tag nm [] (map names ks)
  end.

(** ** The URLs [urljoin] accepts

    Whether a run of the rewriter returns depends on the URLs of the page:
    the loops call [urljoin] on an [href] or [src] that begins with none of
    the prefixes they know, and a later loop calls it on what an earlier one
    has put there.  No loop calls it on a URL that begins with [http].  A
    set [U] of URLs is closed under a source URL when resolving a member
    gives a member again, or a URL that begins with [http]. *)

Definition url_ok (U : string -> bool) (url : string) : bool :=
  U url || PyStr.startswith url "http".

Definition attr_url_ok (U : string -> bool) (a : attr_dict) (key : string) : bool :=
  match dict_get a key with
  | Some (AStr url) => url_ok U url
  | _ => true
  end.

(** Every [href] and [src] of the tree that is a string is in [U] or begins
    with [http]. *)
Fixpoint urls_in (U : string -> bool) (n : node) : bool :=
  match n with
  | Str _ _ => true
  | Tag _ a ks =>
      attr_url_ok U a "href" && attr_url_ok U a "src" && forallb (urls_in U) ks
  end.

Definition closed_under {RT : Runtime} (U : string -> bool) (source_url : string)
  : Prop :=
  forall url, U url = true ->
  exists joined, urljoin source_url url = Some joined /\ url_ok U joined = true.

(** The attributes of one tag are as the parser types them, and the URLs
    among them are in [U] or begin with [http]. *)
Definition key_ok (U : string -> bool) (a : attr_dict) (key : string) : bool :=
  match dict_get a key with
  | Some (AStr url) => url_ok U url
  | Some (AList _) => false
  | None => true
  end.

Definition attrs_ok (U : string -> bool) (a : attr_dict) : bool :=
  key_ok U a "href" && key_ok U a "src".

Fixpoint tree_ok (U : string -> bool) (n : node) : bool :=
  match n with
  | Str _ _ => true
  | Tag _ a ks => attrs_ok U a && forallb (tree_ok U) ks
  end.

(** How a step of the rewriter ends: it returns a value for which [post]
    holds, or, where that is allowed for, it raises the [ValueError] of
    [urljoin].  No other exception is among the outcomes. *)
Definition ends {A : Type} (allow : bool) (c : result A) (post : A -> Prop)
  : Prop :=
  (exists x, c = Ok x /\ post x) \/ (allow = true /\ c = Raise ValueError).

(** A loop body with such an outcome on the elements its filter lets
    through. *)
Definition safe_body (U : string -> bool) (allow : bool) (m : matcher)
  (f : attr_dict -> result attr_dict) : Prop :=
  forall nm a ks, matches m (Tag nm a ks) = true -> attrs_ok U a = true ->
  ends allow (f a) (fun a' => attrs_ok U a' = true).

(** ** The title by priority, in the words of the specification

    Document order on positions: an element comes before what is below it,
    and before its later siblings and what is below them.  The first
    element of a kind is one no other element of the kind comes before.
    The title is the text of the first [h1] of class [firstHeading]; when
    there is none, of the first [h1] whose id is [firstHeading]; when there
    is none either, of the first [h1]; and the literal when the document
    has no [h1]. *)





(** ** A small runtime and a sample page

    Stand-ins for the libraries, to run the definitions on examples: ASCII
    case folding and blanks, a serializer without escaping, a resolver for
    references below a base that ends in a slash, which raises on a host
    with an unclosed bracket as [urljoin] does, an identity coding, and a
    network that serves one style sheet and keeps the list of the requests
    it has seen. *)

Module Sample.

Definition ascii_lower (c : ascii) : ascii :=
  let n := nat_of_ascii c in
  if Nat.leb 65 n && Nat.leb n 90 then ascii_of_nat (n + 32) else c.

Fixpoint lower (s : string) : string :=
  match s with
  | EmptyString => EmptyString
  | String c s' => String (ascii_lower c) (lower s')
  end.

Definition is_blank (c : ascii) : bool :=
  let n := nat_of_ascii c in
  Nat.eqb n 32 || (Nat.leb 9 n && Nat.leb n 13).

Fixpoint lstrip (s : string) : string :=
  match s with
  | EmptyString => EmptyString
  | String c s' => if is_blank c then lstrip s' else s
  end.

Fixpoint rstrip (s : string) : string :=
  match s with
  | EmptyString => EmptyString
  | String c s' =>
      match rstrip s' with
      | EmptyString => if is_blank c then EmptyString else String c EmptyString
      | r => String c r
      end
  end.

Definition strip (s : string) : string := rstrip (lstrip s).

Fixpoint get_text (n : node) : string :=
  match n with
  | Str Text s => s
  | Str CData s => s
  | Str _ _ => EmptyString
  | Tag _ _ ks => String.concat "" (map get_text ks)
  end.

Definition attr_markup (kv : string * attrval) : string :=
  " " ++ fst kv ++ "=" ++ dq
  ++ match snd kv with
     | AStr s => s
     | AList toks => String.concat " " toks
     end
  ++ dq.

Fixpoint py_str (n : node) : string :=
  match n with
  | Str Comment s => "<!--" ++ s ++ "-->"
  | Str _ s => s
  | Tag nm a ks =>
      let inner := String.concat "" (map py_str ks) in
      if String.eqb nm "[document]" then inner
      else "<" ++ nm ++ String.concat "" (map attr_markup a) ++ ">"
           ++ inner ++ "</" ++ nm ++ ">"
  end.

(** [urljoin] raises [ValueError] (Invalid IPv6 URL) on a URL whose host
    opens a bracket that is not closed, [x://[] for one. *)
Definition urljoin (base url : string) : option string :=
  if PyStr.contains "//[" url && negb (PyStr.contains "]" url) then None
  else Some (base ++ url).

Definition page : node :=
  Tag "[document]" []
    [Tag "html" []
       [Tag "head" []
          [Tag "title" [] [Str Text "Test - Wikipedia"];
           Tag "link" [("rel", AList ["stylesheet"]); ("href", AStr "/w/load.css")] [];
           Tag "link" [("rel", AList ["stylesheet"]); ("href", AStr "//upload.wikimedia.org/x.css")] [];
           Tag "style" [] [Str Text "@font-face { src: url(fonts/a.woff2); }"]];
        Tag "body" [("class", AList ["mediawiki"; "ltr"])]
          [Tag "h1" [("id", AStr "firstHeading")] [Str Text " Test "];
           Tag "script" [("src", AStr "https://googletagmanager.com/x.js")] [];
           Tag "p" []
             [Tag "a" [("href", AStr "/wiki/Test"); ("title", AStr "Test")] [Str Text "internal"];
              Tag "a" [("href", AStr "https://other.example/")] [Str Text "external"];
              Tag "a" [("href", AStr "//cdn.example/x")] [Str Text "scheme-relative"];
              Tag "a" [("href", AStr "httpfoo.html")] [Str Text "odd"];
              Tag "a" [("href", AStr "#top")] [Str Text "top"];
              Tag "img" [("src", AStr "//upload.wikimedia.org/a.png")] []];
           Tag "div" [("class", AList ["navbox"])]
             [Tag "a" [("href", AStr "/wiki/Gone")] [Str Text "gone"]]]]].

(** A page without head, body or heading. *)
Definition bare_page : node :=
  Tag "[document]" [] [Tag "p" [] [Str Text "hi"]].

(** A head as the embedder parses it. *)
Definition head_page : node :=
  Tag "[document]" []
    [Tag "head" []
       [Tag "link" [("rel", AList ["stylesheet"]); ("href", AStr "https://en.wikipedia.org/w/missing.css")] [];
        Tag "link" [("rel", AList ["stylesheet"]); ("href", AStr "https://en.wikipedia.org/w/load.css")] []]].

(** A page without heading whose one anchor [urljoin] cannot resolve. *)
Definition unjoinable_link_page : node :=
  Tag "[document]" []
    [Tag "p" [] [Tag "a" [("href", AStr "x://[")] [Str Text "k"]]].

(** A page with a body whose one image [urljoin] cannot resolve. *)
Definition unjoinable_image_page : node :=
  Tag "[document]" []
    [Tag "body" [] [Tag "img" [("src", AStr "x://[")] []]].

(** A head with a stylesheet link whose fetch fails and a style sheet that
    names a font [urljoin] cannot resolve. *)
Definition unjoinable_font_head : node :=
  Tag "[document]" []
    [Tag "head" []
       [Tag "link" [("rel", AList ["stylesheet"]);
                    ("href", AStr "https://en.wikipedia.org/w/missing.css")] [];
        Tag "style" [] [Str Text "a{src:url(x://[.tf)}"]]].

(** A page with two headings: the second one has the class. *)
Definition titled_page : node :=
  Tag "[document]" []
    [Tag "body" []
       [Tag "h1" [] [Str Text "Contents"];
        Tag "div" []
          [Tag "h1" [("class", AList ["firstHeading"; "mw-first-heading"])]
             [Str Text " Test page "]];
        Tag "p" [] [Tag "a" [("href", AStr "notes.html")] [Str Text "notes"]]]].

Definition unjoinable_font_markup : string :=
  "<head><link rel='stylesheet' href='https://en.wikipedia.org/w/missing.css'>"
  ++ "<style>a{src:url(x://[.tf)}</style></head>".

Definition titled_markup : string :=
  "<body><h1>Contents</h1><div><h1 class='firstHeading mw-first-heading'>"
  ++ " Test page </h1></div><p><a href='notes.html'>notes</a></p></body>".

(** A parser that knows the markup of [bare_page], of [titled_page] and of
    the pages with a URL that does not resolve, the other pages by name, and
    takes the rest for text. *)
Definition parse (markup : string) : node :=
  if String.eqb markup "<p>hi</p>" then bare_page
  else if String.eqb markup "page" then page
  else if String.eqb markup "head" then head_page
  else if String.eqb markup titled_markup then titled_page
  else if String.eqb markup "<p><a href='x://['>k</a></p>" then unjoinable_link_page
  else if String.eqb markup "<body><img src='x://['></body>" then unjoinable_image_page
  else if String.eqb markup unjoinable_font_markup then unjoinable_font_head
  else if String.eqb markup "" then Tag "[document]" [] []
  else Tag "[document]" [] [Str Text markup].

Definition requests_get (url : string) (seen : list string)
  : option string * list string :=
  (if String.eqb url "https://en.wikipedia.org/w/load.css"
   then Some "body { margin: 0 }" else None,
   url :: seen).

Definition runtime : Runtime :=
  Build_Runtime parse py_str get_text urljoin lower strip
    (list string) requests_get (fun content => content) (fun data => Some data).

Definition source_url : string := "https://en.wikipedia.org/wiki/".

(** A style sheet that names one font in the three quoting styles. *)
Definition three_quotings : string :=
  "@font-face { src: url('fonts/a.woff2'), url(" ++ dq ++ "fonts/a.woff2" ++ dq
  ++ "), url(fonts/a.woff2); }".

(** A head with a scheme-relative stylesheet link and a scheme-relative
    prefetch link, and what the loops over the head make of it. *)
Definition scheme_relative_head : node :=
  Tag "head" []
    [Tag "link" [("rel", AList ["stylesheet"]);
                 ("href", AStr "//upload.wikimedia.org/x.css")] [];
     Tag "link" [("rel", AList ["dns-prefetch"]);
                 ("href", AStr "//meta.wikimedia.org")] []].

Definition scheme_relative_head_rewritten : node :=
  Tag "head" []
    [Tag "link" [("rel", AList ["stylesheet"]);
                 ("href", AStr "https://en.wikipedia.org//upload.wikimedia.org/x.css")] [];
     Tag "link" [("rel", AList ["dns-prefetch"]);
                 ("href", AStr "https://en.wikipedia.org//meta.wikimedia.org")] []].

(** The record of a page without head. *)
Definition headless_record : page_data :=
  PageData "Wikipedia Article" "" "<p>hi</p>" false.

(** The children of the body of [page] when the loop over the anchors
    starts: the tracking script and the navigation box are gone. *)
Definition cleaned : list node :=
  Eval vm_compute in
    match @body_before_links runtime page source_url with
    | Ok ks => ks
    | Raise _ => []
    end.

(** What the rewriter returns for [page]. *)
Definition page_rewritten : rewritten :=
  Eval vm_compute in
    match @process_tree runtime page source_url with
    | Ok r => r
    | Raise _ => Rewritten EmptyString None []
    end.

(** The URLs without a host that opens a bracket: the resolver accepts
    them. *)
Definition bracket_free (url : string) : bool :=
  negb (PyStr.contains "//[" url).

End Sample.

(** ** Further definitions *)

(** At most one quote, single or double. *)
Definition quote_or_nothing (q : string) : Prop :=
  q = EmptyString \/ q = "'" \/ q = dq.



(** A stylesheet response the embedder cannot use: the request failed, or
    the content is empty, or it does not decode. *)
Definition unusable_stylesheet {RT : Runtime} (css_data : option string) : Prop :=
  match downloaded css_data with
  | Some data => b64decode_utf8 data = None
  | None => True
  end.

Section MoreStages.

Context {RT : Runtime}.

(** The children of the body as the loop over the scripts finds them: the
    [noscript] elements are gone (lines 164-170). *)
Definition body_before_scripts (soup : node) (source_url : string)
  : result (list node) :=
  hs <- rewrite_head soup source_url ;;
  Ok (decompose_all (tag "noscript") (contents_of (body_of (snd hs)))).

(** The state of the network after the loop over the stylesheet links has
    dealt with the element itself, and before it goes below it. *)
Definition after_own_request (n : node) (w : world) : world :=
  match n with
  | Str _ _ => w
  | Tag _ a _ =>
      if matches stylesheet_link n then
        match dict_get a "href" with
        | Some href => snd (download_attr href w)
        | None => w
        end
      else w
  end.

(** The state of the network when the loop over the stylesheet links, begun
    in [w] on the siblings [ks], reaches the element at [p]: the state its
    request is made in, when it is a stylesheet link. *)
Fixpoint stylesheet_request_state (p : path) (ks : list node) (w : world)
  : option world :=
  match p with
  | [] => None
  | i :: p' =>
      match nth_error ks i with
      | None => None
      | Some k =>
          let w1 := snd (mapS embed_stylesheets (firstn i ks) w) in
          match p' with
          | [] => Some w1
          | _ :: _ =>
              stylesheet_request_state p' (contents_of k) (after_own_request k w1)
          end
      end
  end.



End MoreStages.

(** ** main (lines 477-535) *)

(** What a call into the world outside hands to [main]: a value, an
    exception [main] catches, or one it does not catch. *)
Inductive io (A : Type) : Type :=
| Got (a : A)
| Caught
| Uncaught.

Arguments Got {A} a.
Arguments Caught {A}.
Arguments Uncaught {A}.

(** The calls of [main] into the world outside.  [fetch_page] is lines
    500-502, where [main] catches the request exceptions; [read_file] is
    lines 510-511, where it catches the errors of the operating system;
    [write_file] is lines 527-528, where it catches nothing, and says
    whether the write went through. *)
Class Shell (RT : Runtime) : Type := {
  fetch_page : string -> world -> io string * world;
  read_file : string -> world -> io string * world;
  write_file : string -> string -> world -> bool * world
}.

(** How a run ends: [sys.exit], an exception nobody catches, or the
    document written to a file. *)
Inductive outcome : Type :=
| Exit (status : nat)
| Traceback
| Created (file html : string).

(** Line 490. *)
Definition output_file (argv : list string) : string :=
  match nth_error argv 2 with
  | Some name => name
  | None => "fake_wiki_page.html"
  end.

(** Line 491. *)
Definition offline_requested (argv : list string) : bool :=
  existsb (String.eqb "--offline") argv.

(** Line 494. *)
Definition is_url (input_source : string) : bool :=
  PyStr.startswith input_source "http://"
  || PyStr.startswith input_source "https://".

Section Main.

Context {RT : Runtime} {SH : Shell RT}.

(** Lines 494-518: the markup and the source URL that goes with it. *)
Definition load (input_source : string) (w : world)
  : io (string * string) * world :=
  if is_url input_source then
    let '(response, w1) := fetch_page input_source w in
    (match response with
     | Got text => Got (text, input_source)
     | Caught => Caught
     | Uncaught => Uncaught
     end, w1)
  else
    let '(content, w1) := read_file input_source w in
    (match content with
     | Got text => Got (text, "https://en.wikipedia.org")
     | Caught => Caught
     | Uncaught => Uncaught
     end, w1).

Definition main (argv : list string) (w : world) : outcome * world :=
  match argv with
  | _ :: input_source :: _ =>
      let '(loaded, w1) := load input_source w in
      match loaded with
      | Caught => (Exit 1, w1)
      | Uncaught => (Traceback, w1)
      | Got (html_content, source_url) =>
          let '(data, w2) :=
            process_wikipedia_html html_content source_url
              (offline_requested argv) w1 in
          match data with
          | Raise _ => (Traceback, w2)
          | Ok data =>
              let html := generate_html data in
              let '(written, w3) := write_file (output_file argv) html w2 in
              if written then (Created (output_file argv) html, w3)
              else (Traceback, w3)
          end
      end
  | _ => (Exit 1, w)
  end.

End Main.

(** ** More sample data *)

Module Cases.

(** A page without body element: a relative anchor with a class, and a
    script with a source. *)
Definition notes_page : node :=
  Tag "[document]" []
    [Tag "p" []
       [Tag "a" [("href", AStr "notes.html"); ("class", AList ["ref"])]
          [Str Text "notes"]];
     Tag "script" [("src", AStr "/w/site.js")] []].

Definition notes_before_scripts : list node :=
  Eval vm_compute in
    match @body_before_scripts Sample.runtime notes_page Sample.source_url with
    | Ok ks => ks
    | Raise _ => []
    end.

Definition notes_cleaned : list node :=
  Eval vm_compute in
    match @body_before_links Sample.runtime notes_page Sample.source_url with
    | Ok ks => ks
    | Raise _ => []
    end.

Definition notes_rewritten : rewritten :=
  Eval vm_compute in
    match @process_tree Sample.runtime notes_page Sample.source_url with
    | Ok r => r
    | Raise _ => Rewritten EmptyString None []
    end.

Definition notes_markup : string :=
  "<p><a href='notes.html' class='ref'>notes</a></p><script src='/w/site.js'></script>".

(** The head of [Sample.page]. *)
Definition page_head : node :=
  Eval vm_compute in
    match find (tag "head") Sample.page with
    | Some head => head
    | None => Str Text EmptyString
    end.

(** A head whose style sheet does not decode, and a body with a picture. *)
Definition binary_head : node :=
  Tag "[document]" []
    [Tag "head" []
       [Tag "link" [("rel", AList ["stylesheet"]);
                    ("href", AStr "https://en.wikipedia.org/w/binary.css")] []]].

Definition picture_body : node :=
  Tag "[document]" []
    [Tag "p" []
       [Tag "img" [("src", AStr "https://upload.wikimedia.org/a.png");
                   ("alt", AStr "a")] []]].

(** A head with a stylesheet link whose fetch succeeds, one whose fetch
    fails, and a style sheet that names a font. *)
Definition embed_head : node :=
  Tag "[document]" []
    [Tag "head" []
       [Tag "link" [("rel", AList ["stylesheet"]);
                    ("href", AStr "https://en.wikipedia.org/w/load.css")] [];
        Tag "link" [("rel", AList ["stylesheet"]);
                    ("href", AStr "https://en.wikipedia.org/w/missing.css")] [];
        Tag "style" [] [Str Text "@font-face { src: url(/fonts/q.off); }"]]].

Definition parse (markup : string) : node :=
  if String.eqb markup "binary" then binary_head
  else if String.eqb markup "picture" then picture_body
  else if String.eqb markup "embed head" then embed_head
  else if String.eqb markup notes_markup then notes_page
  else Sample.parse markup.

Definition requests_get (url : string) (seen : list string)
  : option string * list string :=
  (if String.eqb url "https://en.wikipedia.org/w/binary.css" then Some "BAD"
   else if String.eqb url "https://en.wikipedia.org/w/load.css"
        then Some "body { margin: 0 }"
   else if String.eqb url "https://upload.wikimedia.org/a.png" then Some "iVBORw0KGgo="
   else if String.eqb url "https://en.wikipedia.org/fonts/q.off" then Some "d09GRg=="
   else None,
   url :: seen).

Definition b64decode_utf8 (data : string) : option string :=
  if String.eqb data "BAD" then None else Some data.

Definition runtime : Runtime :=
  Build_Runtime parse Sample.py_str Sample.get_text Sample.urljoin Sample.lower
    Sample.strip (list string) requests_get (fun content => content)
    b64decode_utf8.

(** What the embedder makes of [binary_head] and [picture_body], and of
    [embed_head] and [picture_body]. *)
Definition picture_embedded : node * node :=
  Eval vm_compute in
    match fst (@embed_trees runtime binary_head picture_body []) with
    | Ok trees => trees
    | Raise _ => (binary_head, picture_body)
    end.



(** A shell with one page on the network and one file on the disk. *)
Definition shell : Shell Sample.runtime :=
  Build_Shell Sample.runtime
    (fun url seen =>
       (if String.eqb url "https://en.wikipedia.org/wiki/Test" then Got "page"
        else Caught, url :: seen))
    (fun path seen =>
       (if String.eqb path "saved.html" then Got "<p>hi</p>" else Caught, seen))
    (fun _ _ seen => (true, seen)).

End Cases.

(** * Properties *)

Example replace_all_occurrences : PyStr.replace "aXbXc" "X" "YY" = "aYYbYYc".
Proof. reflexivity. Qed.

Example replace_does_not_overlap : PyStr.replace "aaa" "aa" "b" = "ba".
Proof. reflexivity. Qed.

Example replace_empty_pattern : PyStr.replace "abc" "" "-" = "-a-b-c-".
Proof. reflexivity. Qed.

Example endswith_extension : PyStr.endswith "fonts/a.woff2" ".woff2" = true.
Proof. reflexivity. Qed.

(** ** Strings *)

Lemma prefix_app (p t : string) : String.prefix p (p ++ t) = true.
Proof.
  induction p as [|c p IH]; simpl.
  - destruct t; reflexivity.
  - destruct (ascii_dec c c) as [_|ne]; [exact IH | congruence].
Qed.

Lemma prefix_split (p s : string) :
  String.prefix p s = true -> exists t, s = p ++ t.
Proof.
  revert s; induction p as [|c p IH]; intros s H.
  - exists s; reflexivity.
  - destruct s as [|d s]; simpl in H; [discriminate|].
    destruct (ascii_dec c d) as [e|ne]; [|discriminate].
    destruct (IH s H) as [t ->]. subst d. exists t; reflexivity.
Qed.

Lemma startswith_split (s p : string) :
  PyStr.startswith s p = true -> exists t, s = p ++ t.
Proof. apply prefix_split. Qed.

Lemma append_assoc (a b c : string) : (a ++ b) ++ c = a ++ (b ++ c).
Proof. induction a as [|x a IH]; simpl; [reflexivity | now rewrite IH]. Qed.

Lemma contains_prefix (needle rest : string) :
  PyStr.contains needle (needle ++ rest) = true.
Proof.
  destruct needle as [|c needle]; simpl.
  - destruct rest; reflexivity.
  - destruct (ascii_dec c c) as [_|ne]; [|congruence].
    now rewrite prefix_app.
Qed.

Lemma contains_app (needle before rest : string) :
  PyStr.contains needle rest = true ->
  PyStr.contains needle (before ++ rest) = true.
Proof.
  intros H. induction before as [|c before IH]; simpl.
  - exact H.
  - fold (PyStr.contains needle (before ++ rest)). rewrite IH.
    apply orb_true_r.
Qed.

(** ** Dictionaries *)

Lemma dict_get_set_same (d : attr_dict) (k : string) (v : attrval) :
  dict_get (dict_set d k v) k = Some v.
Proof.
  induction d as [|[k' v'] d IH]; simpl.
  - now rewrite String.eqb_refl.
  - destruct (String.eqb k' k) eqn:E; simpl; rewrite E; [reflexivity | exact IH].
Qed.

Lemma dict_get_set_other (d : attr_dict) (k k' : string) (v : attrval) :
  String.eqb k k' = false ->
  dict_get (dict_set d k v) k' = dict_get d k'.
Proof.
  intros ne. induction d as [|[k0 v0] d IH]; simpl.
  - now rewrite ne.
  - destruct (String.eqb k0 k) eqn:E; simpl.
    + apply String.eqb_eq in E; subst k0. now rewrite ne.
    + now rewrite IH.
Qed.

Lemma dict_get_remove_same (d : attr_dict) (k : string) :
  dict_get (dict_remove d k) k = None.
Proof.
  induction d as [|[k0 v0] d IH]; simpl; [reflexivity|].
  destruct (String.eqb k0 k) eqn:E; simpl; [exact IH | now rewrite E].
Qed.

Lemma dict_get_remove_other (d : attr_dict) (k k' : string) :
  String.eqb k k' = false ->
  dict_get (dict_remove d k) k' = dict_get d k'.
Proof.
  intros ne. induction d as [|[k0 v0] d IH]; simpl; [reflexivity|].
  destruct (String.eqb k0 k) eqn:E; simpl.
  - apply String.eqb_eq in E; subst k0. now rewrite ne.
  - now rewrite IH.
Qed.

Lemma dict_has_set_other (d : attr_dict) (k k' : string) (v : attrval) :
  String.eqb k k' = false ->
  dict_has (dict_set d k v) k' = dict_has d k'.
Proof. intros ne. unfold dict_has. now rewrite dict_get_set_other. Qed.

(** ** Trees *)

Lemma node_induction (P : node -> Prop) :
  (forall k s, P (Str k s)) ->
  (forall nm a ks, Forall P ks -> P (Tag nm a ks)) ->
  forall n, P n.
Proof.
  intros HS HT. fix IH 1. intros [k s|nm a ks].
  - apply HS.
  - apply HT. induction ks as [|k ks IHks]; constructor.
    + apply IH.
    + exact IHks.
Qed.

Lemma mapM_nth {A B : Type} (f : A -> result B) (xs : list A) (ys : list B)
  (i : nat) (x : A) :
  mapM f xs = Ok ys -> nth_error xs i = Some x ->
  exists y, nth_error ys i = Some y /\ f x = Ok y.
Proof.
  revert ys i. induction xs as [|x0 xs IH]; intros ys i Hm Hn.
  - destruct i; discriminate.
  - simpl in Hm. destruct (f x0) as [y0|e] eqn:E0; [|discriminate].
    simpl in Hm. destruct (mapM f xs) as [ys0|e] eqn:E1; [|discriminate].
    simpl in Hm. injection Hm as <-.
    destruct i as [|i]; simpl in *.
    + injection Hn as <-. exists y0. split; [reflexivity | exact E0].
    + apply (IH ys0 i eq_refl Hn).
Qed.

Lemma update_tags_at (f : node -> result attr_dict) (p : path) :
  forall n n', update_tags f n = Ok n' ->
  forall nm a cs, node_at p n = Some (Tag nm a cs) ->
  exists a' cs', node_at p n' = Some (Tag nm a' cs')
                 /\ f (Tag nm a cs) = Ok a'.
Proof.
  induction p as [|i p IH]; intros n n' Hu nm a cs Hat.
  - simpl in Hat. injection Hat as ->. simpl in Hu.
    destruct (f (Tag nm a cs)) as [a'|e] eqn:Ef; [|discriminate].
    simpl in Hu.
    destruct (mapM (update_tags f) cs) as [cs'|e]; [|discriminate].
    simpl in Hu. injection Hu as <-.
    exists a', cs'. split; reflexivity.
  - destruct n as [k s|nm0 a0 ks]; simpl in Hat.
    + destruct i; discriminate.
    + destruct (nth_error ks i) as [k|] eqn:En; [|discriminate].
      simpl in Hu.
      destruct (f (Tag nm0 a0 ks)) as [a0'|e]; [|discriminate].
      simpl in Hu.
      destruct (mapM (update_tags f) ks) as [ks'|e] eqn:Em; [|discriminate].
      simpl in Hu. injection Hu as <-.
      destruct (mapM_nth _ _ _ _ _ Em En) as [k' [En' Hk]].
      destruct (IH k k' Hk nm a cs Hat) as [a' [cs' [H1 H2]]].
      exists a', cs'. split; [|exact H2].
      simpl. now rewrite En'.
Qed.

(** A loop over [find_all(m)] leaves every element in its place and gives
    it the attributes its body computes. *)
Lemma for_each_in_at (m : matcher) (f : attr_dict -> result attr_dict)
  (ks ks' : list node) (p : path) (nm : string) (a : attr_dict) (cs : list node) :
  for_each_in m f ks = Ok ks' ->
  forest_at p ks = Some (Tag nm a cs) ->
  exists a' cs', forest_at p ks' = Some (Tag nm a' cs')
                 /\ on_matching m f (Tag nm a cs) = Ok a'.
Proof.
  intros Hf Hat. destruct p as [|i p]; [discriminate|].
  simpl in Hat. destruct (nth_error ks i) as [k|] eqn:En; [|discriminate].
  destruct (mapM_nth _ _ _ _ _ Hf En) as [k' [En' Hk]].
  destruct (update_tags_at _ p k k' Hk nm a cs Hat) as [a' [cs' [H1 H2]]].
  exists a', cs'. split; [|exact H2]. simpl. now rewrite En'.
Qed.

(** ** The three kinds of anchor *)

Section Anchors.

Context {RT : Runtime}.

Lemma delitem_href_after_marker (a : attr_dict) (v1 v2 v : attrval) :
  dict_get a "href" = Some v ->
  delitem (dict_set (dict_set a "data-boundary-url" v1) "onclick" v2) "href"
  = Ok (dict_remove (dict_set (dict_set a "data-boundary-url" v1) "onclick" v2) "href").
Proof.
  intros H. unfold delitem.
  rewrite dict_has_set_other by reflexivity.
  rewrite dict_has_set_other by reflexivity.
  unfold dict_has. now rewrite H.
Qed.

Lemma marker_attrs (a : attr_dict) (url call : string) :
  let a' := dict_remove (dict_set (dict_set a "data-boundary-url" (AStr url))
                                  "onclick" (AStr call)) "href" in
  dict_get a' "href" = None
  /\ dict_get a' "data-boundary-url" = Some (AStr url)
  /\ dict_get a' "onclick" = Some (AStr call).
Proof.
  cbv zeta. split; [apply dict_get_remove_same|]. split.
  - rewrite dict_get_remove_other by reflexivity.
    rewrite dict_get_set_other by reflexivity.
    apply dict_get_set_same.
  - rewrite dict_get_remove_other by reflexivity.
    apply dict_get_set_same.
Qed.

Lemma process_link_wiki (source_url : string) (a : attr_dict) (href : string) :
  dict_get a "href" = Some (AStr href) ->
  PyStr.startswith href "/wiki/" = true ->
  process_link source_url a
  = Ok (dict_remove
          (dict_set (dict_set a "data-boundary-url" (AStr (known_origin ++ href)))
                    "onclick" (AStr (boundary_call (known_origin ++ href) "wikipedia")))
          "href").
Proof.
  intros Hh Hw. unfold process_link, getitem. rewrite Hh. simpl.
  destruct (startswith_split _ _ Hw) as [t Ht].
  assert (Hhash : PyStr.startswith href "#" = false) by (subst href; reflexivity).
  rewrite Hhash, Hw. now apply delitem_href_after_marker with (v := AStr href).
Qed.

Lemma process_link_external (source_url : string) (a : attr_dict) (href : string) :
  dict_get a "href" = Some (AStr href) ->
  PyStr.startswith href "http://" || PyStr.startswith href "https://"
    || PyStr.startswith href "//" = true ->
  process_link source_url a
  = Ok (dict_remove
          (dict_set (dict_set a "data-boundary-url" (AStr (external_url_of href)))
                    "onclick" (AStr (boundary_call (external_url_of href) "external")))
          "href").
Proof.
  intros Hh He. unfold process_link, getitem. rewrite Hh. simpl.
  assert (Hhash : PyStr.startswith href "#" = false
                  /\ PyStr.startswith href "/wiki/" = false).
  { apply orb_true_iff in He. destruct He as [He|He];
      [apply orb_true_iff in He; destruct He as [He|He]|];
      destruct (startswith_split _ _ He) as [t ->]; split; reflexivity. }
  destruct Hhash as [-> ->]. rewrite He.
  now apply delitem_href_after_marker with (v := AStr href).
Qed.

Lemma external_url_scheme (href : string) :
  PyStr.startswith href "http://" || PyStr.startswith href "https://"
    || PyStr.startswith href "//" = true ->
  (PyStr.startswith href "//" = true -> external_url_of href = "https:" ++ href)
  /\ (PyStr.startswith href "//" = false -> external_url_of href = href)
  /\ PyStr.startswith (external_url_of href) "http://"
     || PyStr.startswith (external_url_of href) "https://" = true.
Proof.
  intros He.
  apply orb_true_iff in He. destruct He as [He|He];
    [apply orb_true_iff in He; destruct He as [He|He]|];
    destruct (startswith_split _ _ He) as [t ->].
  - assert (Hx : external_url_of ("http://" ++ t) = "http://" ++ t) by reflexivity.
    rewrite Hx. split; [intros Hs; discriminate Hs|]. split; [reflexivity|].
    unfold PyStr.startswith. now rewrite prefix_app.
  - assert (Hx : external_url_of ("https://" ++ t) = "https://" ++ t) by reflexivity.
    rewrite Hx. split; [intros Hs; discriminate Hs|]. split; [reflexivity|].
    unfold PyStr.startswith. rewrite prefix_app. apply orb_true_r.
  - assert (Hx : external_url_of ("//" ++ t) = "https://" ++ t) by reflexivity.
    rewrite Hx. split; [reflexivity|]. split.
    + intros Hs. unfold PyStr.startswith in Hs. rewrite prefix_app in Hs.
      discriminate Hs.
    + unfold PyStr.startswith. rewrite prefix_app. apply orb_true_r.
Qed.

Lemma process_link_http_prefixed (source_url : string) (a : attr_dict) (href : string) :
  dict_get a "href" = Some (AStr href) ->
  PyStr.startswith href "http" = true ->
  PyStr.startswith href "http://" = false ->
  PyStr.startswith href "https://" = false ->
  process_link source_url a = Ok a.
Proof.
  intros Hh Hp H1 H2. unfold process_link, getitem. rewrite Hh. simpl.
  assert (Hothers : PyStr.startswith href "#" = false
                    /\ PyStr.startswith href "/wiki/" = false
                    /\ PyStr.startswith href "//" = false).
  { destruct (startswith_split _ _ Hp) as [t ->]. repeat split; reflexivity. }
  destruct Hothers as [-> [-> ->]]. rewrite H1, H2, Hp. reflexivity.
Qed.

End Anchors.

(** ** When the rewriter returns, and what it can raise

    One induction over the loops of the rewriter, for a set [U] of URLs and
    a flag [allow].  With the flag off and [U] closed under the source URL
    it shows that the rewriter returns on a page whose URLs are in [U];
    with the flag on and every URL in [U] it shows that the only exception
    of the rewriter on a tree of the parser is the [ValueError] of
    [urljoin]. *)

Lemma forallb_nth {A : Type} (P : A -> bool) (xs : list A) (i : nat) (x : A) :
  forallb P xs = true -> nth_error xs i = Some x -> P x = true.
Proof.
  revert i. induction xs as [|x0 xs IH]; intros i H Hn.
  - destruct i; discriminate.
  - simpl in H. apply andb_true_iff in H. destruct H as [H0 H1].
    destruct i as [|i]; simpl in Hn.
    + now injection Hn as <-.
    + now apply (IH i).
Qed.

Lemma forallb_update_nth {A : Type} (P : A -> bool) (f : A -> A) (xs : list A) (i : nat) :
  (forall x, P x = true -> P (f x) = true) ->
  forallb P xs = true -> forallb P (update_nth f xs i) = true.
Proof.
  intros Hf. revert i. induction xs as [|x xs IH]; intros i H; [destruct i; exact H|].
  simpl in H. apply andb_true_iff in H. destruct H as [H0 H1].
  destruct i as [|i]; simpl; apply andb_true_iff; split; auto.
Qed.

Lemma find_at (m : matcher) (n k : node) :
  find m n = Some k -> exists p, find_path m n = Some p /\ node_at p n = Some k.
Proof.
  unfold find. destruct (find_path m n) as [p|]; [|discriminate].
  intros H. now exists p.
Qed.

Lemma matches_attr (nm0 key : string) (test : attr_test) (nm : string)
  (a : attr_dict) (ks : list node) :
  matches (Matcher nm0 [(key, test)]) (Tag nm a ks) = true ->
  nm = nm0 /\ value_matches (dict_get a key) test = true.
Proof.
  simpl. rewrite !andb_true_iff. intros [E [V _]].
  apply String.eqb_eq in E. now split.
Qed.

Lemma ends_ok {A : Type} (allow : bool) (x : A) (P : A -> Prop) :
  P x -> ends allow (Ok x) P.
Proof. intros H. left. now exists x. Qed.

Lemma ends_bind {A B : Type} (allow : bool) (c : result A) (k : A -> result B)
  (P : A -> Prop) (Q : B -> Prop) :
  ends allow c P -> (forall x, P x -> ends allow (k x) Q) ->
  ends allow (bind c k) Q.
Proof.
  intros [[x [-> Hx]]|[Ha ->]] Hk.
  - simpl. now apply Hk.
  - right. now split.
Qed.

Lemma ends_weaken {A : Type} (allow : bool) (c : result A) (P Q : A -> Prop) :
  ends allow c P -> (forall x, P x -> Q x) -> ends allow c Q.
Proof.
  intros [[x [-> Hx]]|[Ha ->]] H.
  - left. exists x. split; [reflexivity | now apply H].
  - right. now split.
Qed.

(** With the flag off the step returns. *)
Lemma ends_returns {A : Type} (c : result A) (P : A -> Prop) :
  ends false c P -> exists x, c = Ok x /\ P x.
Proof. intros [H|[H _]]; [exact H | discriminate]. Qed.

Section Invariant.

Variable U : string -> bool.

Lemma key_ok_get (a : attr_dict) (key : string) (v : attrval) :
  key_ok U a key = true -> dict_get a key = Some v ->
  exists s, v = AStr s /\ url_ok U s = true.
Proof.
  unfold key_ok. intros H G. rewrite G in H.
  destruct v as [s|l]; [now exists s | discriminate].
Qed.

Lemma key_ok_set (a : attr_dict) (k k' s : string) :
  key_ok U (dict_set a k (AStr s)) k'
  = if String.eqb k k' then url_ok U s else key_ok U a k'.
Proof.
  unfold key_ok. destruct (String.eqb k k') eqn:E.
  - apply String.eqb_eq in E; subst k'. now rewrite dict_get_set_same.
  - now rewrite dict_get_set_other.
Qed.

Lemma key_ok_remove (a : attr_dict) (k k' : string) :
  key_ok U (dict_remove a k) k' = if String.eqb k k' then true else key_ok U a k'.
Proof.
  unfold key_ok. destruct (String.eqb k k') eqn:E.
  - apply String.eqb_eq in E; subst k'. now rewrite dict_get_remove_same.
  - now rewrite dict_get_remove_other.
Qed.

Lemma attrs_ok_keys (a : attr_dict) :
  attrs_ok U a = true <-> key_ok U a "href" = true /\ key_ok U a "src" = true.
Proof. unfold attrs_ok. apply andb_true_iff. Qed.

(** Setting [href] or [src] to a URL that is in [U] or begins with [http]. *)
Lemma attrs_ok_set_url (a : attr_dict) (key s : string) :
  attrs_ok U a = true -> url_ok U s = true ->
  attrs_ok U (dict_set a key (AStr s)) = true.
Proof.
  intros Ha Hs. apply attrs_ok_keys in Ha. destruct Ha as [H1 H2].
  apply attrs_ok_keys. rewrite !key_ok_set.
  split; [destruct (String.eqb key "href") | destruct (String.eqb key "src")];
    assumption.
Qed.

(** Setting another attribute. *)
Lemma attrs_ok_set_other (a : attr_dict) (key s : string) :
  String.eqb key "href" = false -> String.eqb key "src" = false ->
  attrs_ok U a = true -> attrs_ok U (dict_set a key (AStr s)) = true.
Proof.
  intros E1 E2 Ha. apply attrs_ok_keys in Ha. destruct Ha as [H1 H2].
  apply attrs_ok_keys. rewrite !key_ok_set, E1, E2. now split.
Qed.

Lemma attrs_ok_remove (a : attr_dict) (key : string) :
  attrs_ok U a = true -> attrs_ok U (dict_remove a key) = true.
Proof.
  intros Ha. apply attrs_ok_keys in Ha. destruct Ha as [H1 H2].
  apply attrs_ok_keys. rewrite !key_ok_remove.
  split; [destruct (String.eqb key "href") | destruct (String.eqb key "src")];
    auto.
Qed.

Lemma tree_ok_tag (nm : string) (a : attr_dict) (ks : list node) :
  tree_ok U (Tag nm a ks) = true
  <-> attrs_ok U a = true /\ forallb (tree_ok U) ks = true.
Proof. simpl. apply andb_true_iff. Qed.

Lemma tree_ok_at (p : path) :
  forall n k, tree_ok U n = true -> node_at p n = Some k -> tree_ok U k = true.
Proof.
  induction p as [|i p IH]; intros n k H Hat; simpl in Hat.
  - now injection Hat as <-.
  - destruct (nth_error (contents_of n) i) as [c|] eqn:En; [|discriminate].
    apply (IH c k); [|exact Hat].
    destruct n as [kd s|nm a ks]; simpl in En.
    + destruct i; discriminate.
    + apply tree_ok_tag in H. destruct H as [_ H].
      now apply (forallb_nth _ _ _ _ H En).
Qed.

Lemma tree_ok_replace_at (p : path) (new : node) :
  tree_ok U new = true ->
  forall n, tree_ok U n = true -> tree_ok U (replace_at p new n) = true.
Proof.
  intros Hnew. induction p as [|i p IH]; intros n H; simpl; [exact Hnew|].
  destruct n as [kd s|nm a ks]; [exact H|].
  apply tree_ok_tag in H. destruct H as [Ha Hk].
  apply tree_ok_tag. split; [exact Ha|].
  now apply forallb_update_nth.
Qed.

Lemma tree_ok_prune (m : matcher) (n : node) :
  tree_ok U n = true -> tree_ok U (prune m n) = true.
Proof.
  induction n as [kd s|nm a ks IH] using node_induction; intros H; [exact H|].
  apply tree_ok_tag in H. destruct H as [Ha Hk].
  simpl prune. apply tree_ok_tag. split; [exact Ha|].
  induction IH as [|k ks Hk0 _ IHks]; [reflexivity|].
  simpl in Hk. apply andb_true_iff in Hk. destruct Hk as [H0 H1].
  simpl. destruct (matches m k); simpl.
  - now apply IHks.
  - rewrite (Hk0 H0). now apply IHks.
Qed.

Lemma tree_ok_decompose_all (m : matcher) (ks : list node) :
  forallb (tree_ok U) ks = true -> forallb (tree_ok U) (decompose_all m ks) = true.
Proof.
  unfold decompose_all. induction ks as [|k ks IH]; intros H; [reflexivity|].
  simpl in H. apply andb_true_iff in H. destruct H as [H0 H1].
  simpl. destruct (matches m k); simpl.
  - now apply IH.
  - rewrite (tree_ok_prune m k H0). now apply IH.
Qed.

(** A tree of the parser whose URLs are in [U] or begin with [http]. *)
Lemma tree_ok_of (n : node) :
  str_attrs n = true -> urls_in U n = true -> tree_ok U n = true.
Proof.
  induction n as [kd s|nm a ks IH] using node_induction; intros Hs Hu;
    [reflexivity|].
  simpl in Hs, Hu. apply andb_true_iff in Hs. destruct Hs as [Hs Hsk].
  apply andb_true_iff in Hs. destruct Hs as [Hs1 Hs2].
  apply andb_true_iff in Hu. destruct Hu as [Hu Huk].
  apply andb_true_iff in Hu. destruct Hu as [Hu1 Hu2].
  apply tree_ok_tag. split.
  - apply attrs_ok_keys. unfold key_ok, str_valued, attr_url_ok in *.
    split.
    + destruct (dict_get a "href") as [[u|l]|]; [exact Hu1 | discriminate | reflexivity].
    + destruct (dict_get a "src") as [[u|l]|]; [exact Hu2 | discriminate | reflexivity].
  - clear Hs1 Hs2 Hu1 Hu2. induction IH as [|k ks Hk _ IHks]; [reflexivity|].
    simpl in Hsk, Huk. apply andb_true_iff in Hsk. destruct Hsk as [S0 S1].
    apply andb_true_iff in Huk. destruct Huk as [U0 U1].
    simpl. rewrite (Hk S0 U0). now apply IHks.
Qed.

Variable allow : bool.

Lemma mapM_outcome (g : node -> result node) (ks : list node) :
  Forall (fun k => tree_ok U k = true ->
                   ends allow (g k) (fun k' => tree_ok U k' = true)) ks ->
  forallb (tree_ok U) ks = true ->
  ends allow (mapM g ks) (fun ks' => forallb (tree_ok U) ks' = true).
Proof.
  induction 1 as [|k ks Hk _ IH]; intros H.
  - now apply ends_ok.
  - simpl in H. apply andb_true_iff in H. destruct H as [H0 H1].
    cbn [mapM]. apply (ends_bind allow _ _ _ _ (Hk H0)). intros k' T0.
    apply (ends_bind allow _ _ _ _ (IH H1)). intros ks' T1.
    apply ends_ok. simpl. now rewrite T0, T1.
Qed.

Lemma update_tags_outcome (f : node -> result attr_dict) :
  (forall nm a ks, attrs_ok U a = true ->
     ends allow (f (Tag nm a ks)) (fun a' => attrs_ok U a' = true)) ->
  forall n, tree_ok U n = true ->
  ends allow (update_tags f n) (fun n' => tree_ok U n' = true).
Proof.
  intros Hf. induction n as [kd s|nm a ks IH] using node_induction; intros H.
  - now apply ends_ok.
  - apply tree_ok_tag in H. destruct H as [Ha Hk].
    cbn [update_tags]. apply (ends_bind allow _ _ _ _ (Hf nm a ks Ha)).
    intros a' Ha'.
    apply (ends_bind allow _ _ _ _ (mapM_outcome _ ks IH Hk)). intros ks' Hk'.
    apply ends_ok. now apply tree_ok_tag.
Qed.

Lemma for_each_in_outcome (m : matcher) (f : attr_dict -> result attr_dict)
  (ks : list node) :
  safe_body U allow m f -> forallb (tree_ok U) ks = true ->
  ends allow (for_each_in m f ks) (fun ks' => forallb (tree_ok U) ks' = true).
Proof.
  intros Hs H. unfold for_each_in. apply mapM_outcome; [|exact H].
  apply Forall_forall. intros k _. apply update_tags_outcome.
  intros nm a cs Ha. unfold on_matching.
  destruct (matches m (Tag nm a cs)) eqn:E.
  - apply (Hs nm a cs E Ha).
  - now apply ends_ok.
Qed.

Lemma for_each_outcome (m : matcher) (f : attr_dict -> result attr_dict)
  (root : node) :
  safe_body U allow m f -> tree_ok U root = true ->
  ends allow (for_each m f root) (fun root' => tree_ok U root' = true).
Proof.
  intros Hs H. destruct root as [kd s|nm a ks].
  - now apply ends_ok.
  - apply tree_ok_tag in H. destruct H as [Ha Hk]. cbn [for_each].
    apply (ends_bind allow _ _ _ _ (for_each_in_outcome m f ks Hs Hk)).
    intros ks' Hk'. apply ends_ok. now apply tree_ok_tag.
Qed.

Lemma collectM_outcome (g : node -> result (option node)) (ks : list node) :
  Forall (fun k => tree_ok U k = true ->
            ends allow (g k)
              (fun v => forall k', v = Some k' -> tree_ok U k' = true)) ks ->
  forallb (tree_ok U) ks = true ->
  ends allow (collectM g ks) (fun ks' => forallb (tree_ok U) ks' = true).
Proof.
  induction 1 as [|k ks Hk _ IH]; intros H.
  - now apply ends_ok.
  - simpl in H. apply andb_true_iff in H. destruct H as [H0 H1].
    cbn [collectM]. apply (ends_bind allow _ _ _ _ (Hk H0)). intros v T0.
    apply (ends_bind allow _ _ _ _ (IH H1)). intros ks' T1.
    apply ends_ok. destruct v as [k'|]; [|exact T1].
    simpl. now rewrite (T0 k' eq_refl), T1.
Qed.

End Invariant.

Section Totality.

Context {RT : Runtime}.

Variable U : string -> bool.
Variable allow : bool.
Variable source_url : string.

(** What is known of [urljoin] on the URLs of [U]. *)
Hypothesis resolves :
  forall url, U url = true ->
  ends allow (resolve source_url url) (fun joined => url_ok U joined = true).

Lemma resolve_outcome (url : string) :
  url_ok U url = true -> PyStr.startswith url "http" = false ->
  ends allow (resolve source_url url) (fun joined => url_ok U joined = true).
Proof.
  intros H E. apply resolves. unfold url_ok in H. now rewrite E, orb_false_r in H.
Qed.

Lemma make_absolute_outcome (url : string) :
  url_ok U url = true ->
  ends allow (make_absolute source_url url) (fun u => url_ok U u = true).
Proof.
  intros H. unfold make_absolute.
  destruct (PyStr.startswith url "/").
  - apply ends_ok. unfold url_ok. apply orb_true_iff. now right.
  - destruct (PyStr.startswith url "http") eqn:E; simpl.
    + now apply ends_ok.
    + now apply resolve_outcome.
Qed.

Lemma safe_absolutize (m : matcher) (key : string) :
  key = "href" \/ key = "src" ->
  safe_body U allow m (absolutize_attr source_url key).
Proof.
  intros Hkey nm a ks _ Ha. unfold absolutize_attr.
  destruct (dict_get a key) as [v|] eqn:G; [|now apply ends_ok].
  assert (Hs : exists s, v = AStr s /\ url_ok U s = true).
  { apply attrs_ok_keys in Ha. destruct Ha as [H1 H2].
    destruct Hkey as [-> | ->];
      [exact (key_ok_get U a "href" v H1 G) | exact (key_ok_get U a "src" v H2 G)]. }
  destruct Hs as [s [-> Hs]]. cbn [str_of bind].
  apply (ends_bind allow _ _ _ _ (make_absolute_outcome s Hs)).
  intros u Hu. apply ends_ok. now apply attrs_ok_set_url.
Qed.

Lemma attrs_ok_marker (a : attr_dict) (url call : string) :
  attrs_ok U a = true ->
  attrs_ok U (dict_remove (dict_set (dict_set a "data-boundary-url" (AStr url))
                                    "onclick" (AStr call)) "href") = true.
Proof.
  intros Ha. apply attrs_ok_remove.
  apply attrs_ok_set_other; [reflexivity | reflexivity|].
  now apply attrs_ok_set_other.
Qed.

Lemma safe_process_link : safe_body U allow anchor_with_href (process_link source_url).
Proof.
  intros nm a ks Hm Ha.
  apply matches_attr in Hm. destruct Hm as [_ Hv].
  destruct (dict_get a "href") as [v|] eqn:G; [|discriminate].
  destruct (key_ok_get U a "href" v (proj1 (proj1 (attrs_ok_keys U a) Ha)) G)
    as [href [-> Hu]].
  unfold process_link, getitem. rewrite G. cbn [bind str_of].
  destruct (PyStr.startswith href "#"); [now apply ends_ok|].
  destruct (PyStr.startswith href "/wiki/").
  { rewrite (delitem_href_after_marker a _ _ _ G).
    apply ends_ok. now apply attrs_ok_marker. }
  destruct (PyStr.startswith href "http://" || PyStr.startswith href "https://"
            || PyStr.startswith href "//").
  { rewrite (delitem_href_after_marker a _ _ _ G).
    apply ends_ok. now apply attrs_ok_marker. }
  destruct (PyStr.startswith href "http") eqn:E; simpl.
  - now apply ends_ok.
  - apply (ends_bind allow _ _ _ _ (resolve_outcome href Hu E)).
    intros u Hu'. apply ends_ok. now apply attrs_ok_set_url.
Qed.

Lemma safe_process_img : safe_body U allow (tag "img") (process_img source_url).
Proof.
  intros nm a ks _ Ha. unfold process_img.
  destruct (dict_get a "src") as [v|] eqn:G; [|now apply ends_ok].
  destruct (key_ok_get U a "src" v (proj2 (proj1 (attrs_ok_keys U a) Ha)) G)
    as [src [-> Hu]].
  cbn [bind str_of].
  destruct (PyStr.startswith src "//").
  { apply ends_ok. apply attrs_ok_set_url; [exact Ha|].
    unfold url_ok. apply orb_true_iff. now right. }
  destruct (PyStr.startswith src "http") eqn:E; simpl.
  - now apply ends_ok.
  - apply (ends_bind allow _ _ _ _ (resolve_outcome src Hu E)).
    intros u Hu'. apply ends_ok. now apply attrs_ok_set_url.
Qed.

Lemma process_script_outcome (nm : string) (a : attr_dict) (ks : list node) :
  attrs_ok U a = true ->
  ends allow (process_script source_url (Tag nm a ks))
    (fun v => forall a', v = Some a' -> attrs_ok U a' = true).
Proof.
  intros Ha. unfold process_script. cbn [attrs_of].
  assert (Hsrc : exists src,
             match dict_get a "src" with
             | Some v => str_of v
             | None => Ok EmptyString
             end = Ok src
             /\ (PyStr.truthy src = true -> url_ok U src = true)).
  { destruct (dict_get a "src") as [v|] eqn:G.
    - destruct (key_ok_get U a "src" v (proj2 (proj1 (attrs_ok_keys U a) Ha)) G)
        as [src [-> Hu]].
      exists src. now split.
    - exists EmptyString. split; [reflexivity | discriminate]. }
  destruct Hsrc as [src [-> Hu]]. cbn [bind].
  destruct (PyStr.contains "analytics" (lower src)
            || PyStr.contains "tracker" (lower src)
            || PyStr.contains "google" (lower src)).
  { apply ends_ok. discriminate. }
  destruct (inline_tracking _).
  { apply ends_ok. discriminate. }
  destruct (PyStr.truthy src).
  - apply (ends_bind allow _ _ _ _ (make_absolute_outcome src (Hu eq_refl))).
    intros u Hu'. apply ends_ok. intros a' E. injection E as <-.
    now apply attrs_ok_set_url.
  - apply ends_ok. intros a' E. now injection E as <-.
Qed.

Lemma scripts_pass_outcome (n : node) :
  tree_ok U n = true ->
  ends allow (scripts_pass source_url n)
    (fun v => forall n', v = Some n' -> tree_ok U n' = true).
Proof.
  induction n as [kd s|nm a ks IH] using node_induction; intros H.
  - apply ends_ok. intros n' E. now injection E as <-.
  - apply tree_ok_tag in H. destruct H as [Ha Hk].
    assert (Hv : ends allow
               (if matches (tag "script") (Tag nm a ks)
                then process_script source_url (Tag nm a ks)
                else Ok (Some a))
               (fun v => forall a', v = Some a' -> attrs_ok U a' = true)).
    { destruct (matches (tag "script") (Tag nm a ks)).
      - now apply process_script_outcome.
      - apply ends_ok. intros a' E. now injection E as <-. }
    cbn [scripts_pass]. apply (ends_bind allow _ _ _ _ Hv). intros v Hv'.
    destruct v as [a'|]; [|apply ends_ok; discriminate].
    apply (ends_bind allow _ _ _ _ (collectM_outcome U allow _ ks IH Hk)).
    intros ks' Hk'. apply ends_ok. intros n' E. injection E as <-.
    apply tree_ok_tag. split; [now apply Hv' | exact Hk'].
Qed.

Lemma clean_body_outcome (ks : list node) :
  forallb (tree_ok U) ks = true ->
  ends allow (clean_body source_url ks)
    (fun ks' => forallb (tree_ok U) ks' = true).
Proof.
  intros H. unfold clean_body.
  apply (ends_bind allow _ _
           (fun ks2 => forallb (tree_ok U) ks2 = true)).
  - apply collectM_outcome; [|now apply tree_ok_decompose_all].
    apply Forall_forall. intros k _. apply scripts_pass_outcome.
  - intros ks2 H2. apply ends_ok. now repeat apply tree_ok_decompose_all.
Qed.

Lemma head_passes_outcome (head : node) :
  tree_ok U head = true ->
  ends allow (head_passes source_url head) (fun head' => tree_ok U head' = true).
Proof.
  intros H. unfold head_passes.
  apply (ends_bind allow _ _ (fun h => tree_ok U h = true)).
  { apply for_each_outcome; [apply safe_absolutize; now left | exact H]. }
  intros h1 H1.
  apply (ends_bind allow _ _ (fun h => tree_ok U h = true)).
  { apply for_each_outcome; [apply safe_absolutize; now left | exact H1]. }
  intros h2 H2.
  apply for_each_outcome; [apply safe_absolutize; now right | exact H2].
Qed.

Lemma rewrite_head_outcome (soup : node) :
  tree_ok U soup = true ->
  ends allow (rewrite_head soup source_url)
    (fun hs => tree_ok U (snd hs) = true).
Proof.
  intros H. unfold rewrite_head.
  destruct (find_path (tag "head") soup) as [p|]; [|now apply ends_ok].
  destruct (node_at p soup) as [head|] eqn:Eh; [|now apply ends_ok].
  apply (ends_bind allow _ _ (fun h => tree_ok U h = true)).
  { apply head_passes_outcome. now apply (tree_ok_at U p soup). }
  intros head' H'. apply ends_ok. simpl. now apply tree_ok_replace_at.
Qed.

Lemma tree_ok_body_of (soup : node) :
  tree_ok U soup = true -> forallb (tree_ok U) (contents_of (body_of soup)) = true.
Proof.
  intros H. unfold body_of.
  assert (Hb : tree_ok U match find (tag "body") soup with
                         | Some body => body
                         | None => soup
                         end = true).
  { destruct (find (tag "body") soup) as [b|] eqn:E; [|exact H].
    destruct (find_at _ _ _ E) as [p [_ Hat]]. now apply (tree_ok_at U p soup). }
  destruct (match find (tag "body") soup with Some body => body | None => soup end)
    as [kd s|nm a ks]; [reflexivity|].
  now apply tree_ok_tag in Hb.
Qed.

Lemma process_tree_outcome (soup : node) :
  tree_ok U soup = true ->
  ends allow (process_tree soup source_url) (fun _ => True).
Proof.
  intros H. unfold process_tree.
  apply (ends_bind allow _ _ _ _ (rewrite_head_outcome soup H)). intros hs Hs.
  apply (ends_bind allow _ _ _ _
           (clean_body_outcome _ (tree_ok_body_of _ Hs))).
  intros ks Hk.
  apply (ends_bind allow _ _ (fun ks1 => forallb (tree_ok U) ks1 = true)).
  { unfold rewrite_links. now apply for_each_in_outcome; [apply safe_process_link|]. }
  intros ks1 H1.
  apply (ends_bind allow _ _ (fun ks2 => forallb (tree_ok U) ks2 = true)).
  { unfold rewrite_images. now apply for_each_in_outcome; [apply safe_process_img|]. }
  intros ks2 H2. now apply ends_ok.
Qed.

End Totality.

Section Returns.

Context {RT : Runtime}.

(** On a tree of the parser whose URLs are in a set closed under the
    source URL, the rewriter returns. *)
Lemma closed_resolves (U : string -> bool) (source_url : string) :
  closed_under U source_url ->
  forall url, U url = true ->
  ends false (resolve source_url url) (fun joined => url_ok U joined = true).
Proof.
  intros Hc url Hurl. destruct (Hc url Hurl) as [joined [E J]].
  left. exists joined. unfold resolve. now rewrite E.
Qed.

Lemma any_resolves (source_url url : string) :
  ends true (resolve source_url url)
    (fun joined => url_ok (fun _ => true) joined = true).
Proof.
  unfold resolve. destruct (urljoin source_url url) as [joined|].
  - left. now exists joined.
  - right. now split.
Qed.

Lemma urls_in_any (n : node) : urls_in (fun _ => true) n = true.
Proof.
  induction n as [kd s|nm a ks IH] using node_induction; [reflexivity|].
  simpl. unfold attr_url_ok.
  destruct (dict_get a "href") as [[u|l]|]; destruct (dict_get a "src") as [[v|l']|];
    simpl; induction IH as [|k ks Hk _ IHks]; simpl; try reflexivity;
    now rewrite Hk.
Qed.

Lemma process_tree_total (U : string -> bool) (soup : node) (source_url : string) :
  str_attrs soup = true -> urls_in U soup = true -> closed_under U source_url ->
  exists r, process_tree soup source_url = Ok r.
Proof.
  intros Hs Hu Hc.
  destruct (ends_returns _ _
              (process_tree_outcome U false source_url
                 (closed_resolves U source_url Hc) soup (tree_ok_of U soup Hs Hu)))
    as [r [Hr _]].
  now exists r.
Qed.

(** On a tree of the parser the rewriter returns or raises the
    [ValueError] of [urljoin], and nothing else. *)
Lemma process_tree_raises_only (soup : node) (source_url : string) :
  str_attrs soup = true ->
  (exists r, process_tree soup source_url = Ok r)
  \/ process_tree soup source_url = Raise ValueError.
Proof.
  intros Hs.
  destruct (process_tree_outcome (fun _ => true) true source_url
              (fun url _ => any_resolves source_url url) soup
              (tree_ok_of _ soup Hs (urls_in_any soup)))
    as [[r [Hr _]]|[_ Hr]]; [left; now exists r | now right].
Qed.

End Returns.

(** ** Anchors through the whole rewriter *)

Lemma parser_typed_str (n : node) : parser_typed n = true -> str_attrs n = true.
Proof. unfold parser_typed. intros H. now apply andb_true_iff in H. Qed.

Section Links.

Context {RT : Runtime}.

(** The stages of a run of the rewriter that returns. *)
Lemma process_tree_inv (soup : node) (source_url : string) (r : rewritten) :
  process_tree soup source_url = Ok r ->
  exists hs ks ks1,
    rewrite_head soup source_url = Ok hs
    /\ body_before_links soup source_url = Ok ks
    /\ rewrite_links source_url ks = Ok ks1
    /\ rewrite_images source_url ks1 = Ok (r_body r)
    /\ r_head r = fst hs
    /\ r_title r = title_text soup.
Proof.
  unfold process_tree, body_before_links. intros H.
  destruct (rewrite_head soup source_url) as [hs|e]; [|discriminate].
  cbn [bind] in *.
  destruct (clean_body _ _) as [ks|e]; [|discriminate]. cbn [bind] in H.
  destruct (rewrite_links _ _) as [ks1|e] eqn:E1; [|discriminate]. cbn [bind] in H.
  destruct (rewrite_images _ _) as [ks2|e] eqn:E2; [|discriminate]. cbn [bind] in H.
  injection H as <-. exists hs, ks, ks1. simpl. now repeat split.
Qed.

(** An anchor that the loop over the anchors finds at [p] is at [p] in the
    body the rewriter returns, with the attributes [process_link] gives
    it: the loop over the images leaves anchors alone. *)
Lemma anchor_through_rewriter (soup : node) (source_url : string)
  (ks : list node) (p : path) (a : attr_dict) (cs : list node) (v : attrval)
  (r : rewritten) :
  body_before_links soup source_url = Ok ks ->
  forest_at p ks = Some (Tag "a" a cs) ->
  dict_get a "href" = Some v ->
  process_tree soup source_url = Ok r ->
  exists a' cs',
    forest_at p (r_body r) = Some (Tag "a" a' cs')
    /\ process_link source_url a = Ok a'.
Proof.
  intros Hb Hat Hh Hp.
  destruct (process_tree_inv soup source_url r Hp)
    as [hs [ks0 [ks1 [_ [Hb0 [E1 [E2 _]]]]]]].
  rewrite Hb in Hb0. injection Hb0 as <-.
  destruct (for_each_in_at _ _ _ _ _ _ _ _ E1 Hat) as [a1 [cs1 [Hat1 Hl]]].
  destruct (for_each_in_at _ _ _ _ _ _ _ _ E2 Hat1) as [a2 [cs2 [Hat2 Hi]]].
  unfold on_matching in Hl, Hi.
  assert (Hm : matches anchor_with_href (Tag "a" a cs) = true).
  { simpl. now rewrite Hh. }
  rewrite Hm in Hl. simpl in Hi. injection Hi as <-.
  exists a1, cs2. split; [exact Hat2 | exact Hl].
Qed.

(** C1.  An anchor of the body whose href begins with [/wiki/] is, in the
    body of every run of the rewriter that returns, without href, with the
    boundary destination [https://en.wikipedia.org] followed by the
    original href, and with an onclick that calls [showBoundaryWarning]
    with that destination and the category [wikipedia]. *)
Theorem wiki_link_intercepted (soup : node) (source_url : string)
  (ks : list node) (p : path) (a : attr_dict) (cs : list node) (href : string)
  (r : rewritten) :
  body_before_links soup source_url = Ok ks ->
  forest_at p ks = Some (Tag "a" a cs) ->
  dict_get a "href" = Some (AStr href) ->
  PyStr.startswith href "/wiki/" = true ->
  process_tree soup source_url = Ok r ->
  exists a' cs',
    forest_at p (r_body r) = Some (Tag "a" a' cs')
    /\ dict_get a' "href" = None
    /\ dict_get a' "data-boundary-url"
       = Some (AStr ("https://en.wikipedia.org" ++ href))
    /\ dict_get a' "onclick"
       = Some (AStr ("showBoundaryWarning('" ++ "https://en.wikipedia.org" ++ href
                     ++ "', 'wikipedia'); return false;")).
Proof.
  intros Hb Hat Hh Hw Hp.
  destruct (anchor_through_rewriter soup source_url ks p a cs _ r Hb Hat Hh Hp)
    as [a' [cs' [Hat' Hl]]].
  rewrite (process_link_wiki source_url a href Hh Hw) in Hl. injection Hl as <-.
  eexists _, cs'. split; [exact Hat'|].
  destruct (marker_attrs a (known_origin ++ href)
              (boundary_call (known_origin ++ href) "wikipedia")) as [M1 [M2 M3]].
  split; [exact M1|]. split; [exact M2|].
  etransitivity; [exact M3|].
  unfold boundary_call, known_origin. now rewrite !append_assoc.
Qed.

(** C2.  An anchor of the body whose href begins with [http://], [https://]
    or [//] is, in the body of every run of the rewriter that returns,
    without href, with a boundary destination that is the href itself, or
    the href after [https:] when it is scheme-relative, so that the
    destination begins with [http://] or [https://], and with an onclick
    that calls [showBoundaryWarning] with that destination and the category
    [external]. *)
Theorem external_link_intercepted (soup : node) (source_url : string)
  (ks : list node) (p : path) (a : attr_dict) (cs : list node) (href : string)
  (r : rewritten) :
  body_before_links soup source_url = Ok ks ->
  forest_at p ks = Some (Tag "a" a cs) ->
  dict_get a "href" = Some (AStr href) ->
  PyStr.startswith href "http://" || PyStr.startswith href "https://"
    || PyStr.startswith href "//" = true ->
  process_tree soup source_url = Ok r ->
  exists a' cs' dest,
    forest_at p (r_body r) = Some (Tag "a" a' cs')
    /\ dict_get a' "href" = None
    /\ dict_get a' "data-boundary-url" = Some (AStr dest)
    /\ dict_get a' "onclick"
       = Some (AStr ("showBoundaryWarning('" ++ dest
                     ++ "', 'external'); return false;"))
    /\ (PyStr.startswith href "//" = true -> dest = "https:" ++ href)
    /\ (PyStr.startswith href "//" = false -> dest = href)
    /\ PyStr.startswith dest "http://" || PyStr.startswith dest "https://" = true.
Proof.
  intros Hb Hat Hh He Hp.
  destruct (anchor_through_rewriter soup source_url ks p a cs _ r Hb Hat Hh Hp)
    as [a' [cs' [Hat' Hl]]].
  rewrite (process_link_external source_url a href Hh He) in Hl. injection Hl as <-.
  eexists _, cs', (external_url_of href).
  split; [exact Hat'|].
  destruct (marker_attrs a (external_url_of href)
              (boundary_call (external_url_of href) "external")) as [M1 [M2 M3]].
  split; [exact M1|]. split; [exact M2|].
  split; [etransitivity; [exact M3 | reflexivity]|].
  now apply external_url_scheme.
Qed.

(** C9.  An anchor of the body whose href begins with [http] without being
    an [http://] or [https://] URL keeps all its attributes: the href is
    neither removed, nor marked, nor resolved. *)
Theorem http_prefixed_link_unchanged (soup : node) (source_url : string)
  (ks : list node) (p : path) (a : attr_dict) (cs : list node) (href : string)
  (r : rewritten) :
  body_before_links soup source_url = Ok ks ->
  forest_at p ks = Some (Tag "a" a cs) ->
  dict_get a "href" = Some (AStr href) ->
  PyStr.startswith href "http" = true ->
  PyStr.startswith href "http://" = false ->
  PyStr.startswith href "https://" = false ->
  process_tree soup source_url = Ok r ->
  exists cs', forest_at p (r_body r) = Some (Tag "a" a cs').
Proof.
  intros Hb Hat Hh Hp1 Hp2 Hp3 Hp.
  destruct (anchor_through_rewriter soup source_url ks p a cs _ r Hb Hat Hh Hp)
    as [a' [cs' [Hat' Hl]]].
  rewrite (process_link_http_prefixed source_url a href Hh Hp1 Hp2 Hp3) in Hl.
  injection Hl as <-.
  now exists cs'.
Qed.

End Links.

(** ** Searching the tree *)









(** ** Document order *)










(** ** The title *)

Section Title.

Context {RT : Runtime}.


(** What [process_wikipedia_html] returns without the offline flag when the
    rewriter returns [r]. *)
Lemma process_wikipedia_html_online (html source_url : string) (w : world)
  (r : rewritten) :
  process_tree (parse html) source_url = Ok r ->
  process_wikipedia_html html source_url false w
  = (Ok (PageData (r_title r) (head_markup (r_head r))
           (PyStr.join (map py_str (r_body r))) false), w).
Proof. intros H. unfold process_wikipedia_html. now rewrite H. Qed.



End Title.

(** ** The names of the tree

    The loops over the head change attributes only: the tree keeps its
    elements and their names ([names]), and a search by name finds after
    the loops what it found before. *)

Lemma mapM_names (g : node -> result node) (ks : list node) :
  Forall (fun k => forall k', g k = Ok k' -> names k' = names k) ks ->
  forall ks', mapM g ks = Ok ks' -> map names ks' = map names ks.
Proof.
  induction 1 as [|k ks Hk _ IH]; intros ks' H; simpl in H.
  - now injection H as <-.
  - destruct (g k) as [k'|e] eqn:E; [|discriminate]. cbn [bind] in H.
    destruct (mapM g ks) as [ks0|e]; [|discriminate]. cbn [bind] in H.
    injection H as <-. simpl. now rewrite (Hk k' eq_refl), (IH ks0 eq_refl).
Qed.

Lemma names_update_tags (f : node -> result attr_dict) (n : node) :
  forall n', update_tags f n = Ok n' -> names n' = names n.
Proof.
  induction n as [kd s|nm a ks IH] using node_induction; intros n' H; simpl in H.
  - now injection H as <-.
  - destruct (f (Tag nm a ks)) as [a'|e]; [|discriminate]. cbn [bind] in H.
    destruct (mapM (update_tags f) ks) as [ks'|e] eqn:E; [|discriminate].
    cbn [bind] in H. injection H as <-. simpl.
    now rewrite (mapM_names _ ks IH ks' E).
Qed.

Lemma names_for_each (m : matcher) (f : attr_dict -> result attr_dict)
  (root root' : node) :
  for_each m f root = Ok root' -> names root' = names root.
Proof.
  destruct root as [kd s|nm a ks]; simpl; intros H.
  - now injection H as <-.
  - destruct (for_each_in m f ks) as [ks'|e] eqn:E; [|discriminate].
    cbn [bind] in H. injection H as <-. simpl. f_equal.
    apply (mapM_names (update_tags (on_matching m f))); [|exact E].
    apply Forall_forall. intros k _. apply names_update_tags.
Qed.






(** ** Missing head, missing body *)

Section Degrade.

Context {RT : Runtime}.

Lemma names_head_passes (source_url : string) (head head' : node) :
  head_passes source_url head = Ok head' -> names head' = names head.
Proof.
  unfold head_passes. intros H.
  destruct (for_each stylesheet_link _ head) as [h1|e] eqn:E1; [|discriminate].
  cbn [bind] in H.
  destruct (for_each (tag "link") _ h1) as [h2|e] eqn:E2; [|discriminate].
  cbn [bind] in H.
  rewrite (names_for_each _ _ _ _ H), (names_for_each _ _ _ _ E2).
  apply (names_for_each _ _ _ _ E1).
Qed.




End Degrade.

(** ** The embedder *)

Lemma mapS_nth {S : Type} (f : node -> S -> node * S) (ks : list node) :
  forall (w : S) (i : nat) (k : node),
  nth_error ks i = Some k ->
  exists wi, nth_error (fst (mapS f ks w)) i = Some (fst (f k wi)).
Proof.
  induction ks as [|k0 ks IH]; intros w i k H.
  - destruct i; discriminate.
  - simpl. destruct (f k0 w) as [k0' w1] eqn:E0.
    destruct (mapS f ks w1) as [ks' w2] eqn:E1.
    destruct i as [|i]; simpl in *.
    + injection H as <-. exists w. now rewrite E0.
    + destruct (IH w1 i k H) as [wi Hwi]. exists wi. now rewrite E1 in Hwi.
Qed.

Lemma mapS_strings {S : Type} (f : node -> S -> node * S) (ks : list node) :
  (forall kd s w, f (Str kd s) w = (Str kd s, w)) ->
  forallb is_str ks = true ->
  forall w, mapS f ks w = (ks, w).
Proof.
  intros Hf. induction ks as [|k ks IH]; intros H w; [reflexivity|].
  simpl in H. apply andb_true_iff in H. destruct H as [H0 H1].
  destruct k as [kd s|nm a cs]; [|discriminate].
  simpl. now rewrite Hf, (IH H1).
Qed.

Lemma shape_ok_mapS {S : Type} (f : node -> S -> node * S) (nm : string)
  (ks : list node) (w : S) :
  (forall kd s w, f (Str kd s) w = (Str kd s, w)) ->
  shape_ok nm ks = true -> shape_ok nm (fst (mapS f ks w)) = true.
Proof.
  intros Hf H. unfold shape_ok in *.
  apply andb_true_iff in H. destruct H as [H1 H2]. apply andb_true_iff. split.
  - destruct (String.eqb nm "link"); [|reflexivity].
    destruct ks; [reflexivity | discriminate].
  - destruct (String.eqb nm "script" || String.eqb nm "style"); [|reflexivity].
    now rewrite (mapS_strings f ks Hf H2 w).
Qed.

Lemma raw_shape_tag (nm : string) (a : attr_dict) (ks : list node) :
  raw_shape (Tag nm a ks) = true
  <-> shape_ok nm ks = true /\ forallb raw_shape ks = true.
Proof. simpl. now rewrite andb_true_iff. Qed.

Lemma mapS_raw_shape {S : Type} (f : node -> S -> node * S) (ks : list node) :
  Forall (fun k => forall w, raw_shape k = true -> raw_shape (fst (f k w)) = true) ks ->
  forall w, forallb raw_shape ks = true ->
  forallb raw_shape (fst (mapS f ks w)) = true.
Proof.
  induction 1 as [|k ks Hk _ IH]; intros w H; [reflexivity|].
  simpl in H. apply andb_true_iff in H. destruct H as [H0 H1].
  simpl. destruct (f k w) as [k' w1] eqn:E0.
  destruct (mapS f ks w1) as [ks' w2] eqn:E1. simpl.
  specialize (Hk w H0). rewrite E0 in Hk. simpl in Hk. rewrite Hk.
  specialize (IH w1 H1). now rewrite E1 in IH.
Qed.

(** A link element has no children, so no path goes through one; a style
    element holds strings only, so no path to a tag goes through one. *)
Lemma link_has_no_child (a : attr_dict) (ks : list node) (i : nat) (k : node) :
  shape_ok "link" ks = true -> nth_error ks i = Some k -> False.
Proof.
  unfold shape_ok. simpl. destruct ks; [destruct i|]; discriminate.
Qed.

Lemma style_child_is_string (ks : list node) (i : nat) (k : node) (q : path)
  (nm : string) (a : attr_dict) (cs : list node) :
  shape_ok "style" ks = true -> nth_error ks i = Some k ->
  node_at q k = Some (Tag nm a cs) -> False.
Proof.
  unfold shape_ok. simpl. intros H Hn Hat.
  pose proof (forallb_nth _ _ _ _ H Hn) as Hs.
  destruct k as [kd s|nm' a' cs']; [|discriminate].
  destruct q as [|j q]; simpl in Hat; [discriminate|].
  destruct j; discriminate.
Qed.

(** The state a pass meets an element in is the state the pass leaves
    after the elements before it. *)
Lemma mapS_nth_state {S : Type} (f : node -> S -> node * S) (ks : list node) :
  forall (w : S) (i : nat) (k : node),
  nth_error ks i = Some k ->
  nth_error (fst (mapS f ks w)) i
  = Some (fst (f k (snd (mapS f (firstn i ks) w)))).
Proof.
  induction ks as [|k0 ks IH]; intros w i k H.
  - destruct i; discriminate.
  - destruct i as [|i]; simpl in H.
    + injection H as <-. simpl. destruct (f k0 w) as [k0' w1].
      now destruct (mapS f ks w1) as [ks' w2].
    + specialize (IH (snd (f k0 w)) i k H). simpl.
      destruct (f k0 w) as [k0' w1]. simpl in IH.
      destruct (mapS f ks w1) as [ks' w2].
      destruct (mapS f (firstn i ks) w1) as [ks1 w3]. exact IH.
Qed.

Lemma mapSE_nth {S : Type} (f : node -> S -> result node * S) (ks : list node) :
  forall (w w' : S) (ks' : list node) (i : nat) (k : node),
  mapSE f ks w = (Ok ks', w') -> nth_error ks i = Some k ->
  exists wi wi' k', f k wi = (Ok k', wi') /\ nth_error ks' i = Some k'.
Proof.
  induction ks as [|k0 ks IH]; intros w w' ks' i k H Hn.
  - destruct i; discriminate.
  - simpl in H. destruct (f k0 w) as [[k0'|e] w1] eqn:E0; [|discriminate].
    destruct (mapSE f ks w1) as [[ks0|e] w2] eqn:E1; [|discriminate].
    injection H as <- <-.
    destruct i as [|i]; simpl in Hn.
    + injection Hn as <-. now exists w, w1, k0'.
    + exact (IH w1 w2 ks0 i k E1 Hn).
Qed.

Lemma mapSE_raises {S : Type} (f : node -> S -> result node * S) (ks : list node) :
  Forall (fun k => forall w e w', f k w = (Raise e, w') -> e = ValueError) ks ->
  forall w e w', mapSE f ks w = (Raise e, w') -> e = ValueError.
Proof.
  induction 1 as [|k ks Hk _ IH]; intros w e w' H; [discriminate|].
  simpl in H. destruct (f k w) as [[k'|e0] w1] eqn:E0.
  - destruct (mapSE f ks w1) as [[ks0|e1] w2] eqn:E1; [discriminate|].
    injection H as <- _. exact (IH w1 e1 w2 E1).
  - injection H as <- _. exact (Hk w e0 w1 E0).
Qed.


Lemma forest_at_children (p : path) (n : node) :
  p <> [] -> node_at p n = forest_at p (contents_of n).
Proof. destruct p as [|i q]; [congruence | reflexivity]. Qed.

Section Embedder.

Context {RT : Runtime}.

Lemma embed_stylesheets_str (kd : strkind) (s : string) (w : world) :
  embed_stylesheets (Str kd s) w = (Str kd s, w).
Proof. reflexivity. Qed.

Lemma raw_shape_embed_stylesheets (n : node) :
  forall w, raw_shape n = true -> raw_shape (fst (embed_stylesheets n w)) = true.
Proof.
  induction n as [kd s|nm a ks IH] using node_induction; intros w H; [exact H|].
  apply raw_shape_tag in H. destruct H as [Hs Hk].
  assert (Hkeep : forall w0,
             raw_shape (Tag nm a (fst (mapS embed_stylesheets ks w0))) = true).
  { intros w0. apply raw_shape_tag. split.
    - now apply shape_ok_mapS; [apply embed_stylesheets_str|].
    - now apply mapS_raw_shape. }
  cbn [embed_stylesheets].
  destruct (matches stylesheet_link (Tag nm a ks)).
  - destruct (dict_get a "href") as [href|].
    + destruct (download_attr href w) as [css_data w1].
      specialize (Hkeep w1).
      destruct (mapS embed_stylesheets ks w1) as [ks' w2].
      destruct (downloaded css_data) as [data|]; [|exact Hkeep].
      destruct (b64decode_utf8 data); [reflexivity | exact Hkeep].
    + specialize (Hkeep w).
      now destruct (mapS embed_stylesheets ks w) as [ks' w1].
  - specialize (Hkeep w).
    now destruct (mapS embed_stylesheets ks w) as [ks' w1].
Qed.

Lemma raw_shape_mapS_stylesheets (ks : list node) (w : world) :
  forallb raw_shape ks = true ->
  forallb raw_shape (fst (mapS embed_stylesheets ks w)) = true.
Proof.
  intros H. apply mapS_raw_shape; [|exact H]. apply Forall_forall.
  intros k _ w0. apply raw_shape_embed_stylesheets.
Qed.

Lemma matches_stylesheet_name (nm : string) (a : attr_dict) (ks : list node) :
  matches stylesheet_link (Tag nm a ks) = true -> nm = "link".
Proof. intros H. now apply matches_attr in H. Qed.

Lemma matches_style_name (nm : string) (a : attr_dict) (ks : list node) :
  matches (tag "style") (Tag nm a ks) = true -> nm = "style".
Proof.
  simpl. rewrite andb_true_r. apply String.eqb_eq.
Qed.

(** An element that is no stylesheet link keeps its name and attributes in
    the first loop, which goes on below it in the state it met it in. *)
Lemma embed_stylesheets_other (nm : string) (a : attr_dict) (ks : list node)
  (w : world) :
  matches stylesheet_link (Tag nm a ks) = false ->
  fst (embed_stylesheets (Tag nm a ks) w)
  = Tag nm a (fst (mapS embed_stylesheets ks w))
  /\ after_own_request (Tag nm a ks) w = w.
Proof.
  intros E. cbn [embed_stylesheets]. unfold after_own_request. rewrite E.
  now destruct (mapS embed_stylesheets ks w) as [ks' w1].
Qed.

(** What the first loop leaves in the place of a stylesheet link, given the
    state of the network its request is made in. *)
Lemma stylesheets_at_link (a : attr_dict) (href : string) (p : path) :
  matches stylesheet_link (Tag "link" a []) = true ->
  dict_get a "href" = Some (AStr href) ->
  forall ks w w0,
  forallb raw_shape ks = true ->
  forest_at p ks = Some (Tag "link" a []) ->
  stylesheet_request_state p ks w = Some w0 ->
  forest_at p (fst (mapS embed_stylesheets ks w))
  = Some (match downloaded (fst (download_resource href w0)) with
          | Some data =>
              match b64decode_utf8 data with
              | Some css_content => Tag "style" [] [Str Text css_content]
              | None => Tag "link" a []
              end
          | None => Tag "link" a []
          end).
Proof.
  intros Hm Hh. induction p as [|i p IH]; intros ks w w0 Hr Hat Hst;
    [discriminate|].
  simpl in Hat. cbn [stylesheet_request_state] in Hst.
  destruct (nth_error ks i) as [k|] eqn:En; [|discriminate].
  cbn [forest_at]. rewrite (mapS_nth_state embed_stylesheets ks w i k En).
  set (w1 := snd (mapS embed_stylesheets (firstn i ks) w)) in *.
  pose proof (forallb_nth _ _ _ _ Hr En) as Hk.
  destruct p as [|j q].
  - simpl in Hat. injection Hat as ->. injection Hst as <-.
    cbn [node_at embed_stylesheets]. rewrite Hm, Hh. cbn [download_attr].
    destruct (download_resource href w1) as [d w2]. cbn [mapS fst].
    destruct (downloaded d) as [data|]; [|reflexivity].
    now destruct (b64decode_utf8 data).
  - destruct k as [kd s|nm0 a0 ks0]; [simpl in Hat; destruct j; discriminate|].
    apply raw_shape_tag in Hk. destruct Hk as [Hs Hk0].
    destruct (matches stylesheet_link (Tag nm0 a0 ks0)) eqn:E.
    + apply matches_stylesheet_name in E. subst nm0. simpl in Hat.
      destruct (nth_error ks0 j) as [c|] eqn:Ec; [|discriminate].
      destruct (link_has_no_child a0 ks0 j c Hs Ec).
    + destruct (embed_stylesheets_other nm0 a0 ks0 w1 E) as [-> Hw].
      rewrite Hw in Hst.
      exact (IH ks0 w1 w0 Hk0 Hat Hst).
Qed.


(** The loop over the images does at a position what it does to the element
    there, in the state of the network it meets it in. *)
Lemma embed_images_at (p : path) :
  forall n w k, node_at p n = Some k ->
  exists wi, node_at p (fst (embed_images n w)) = Some (fst (embed_images k wi)).
Proof.
  induction p as [|i q IH]; intros n w k H.
  - simpl in H. injection H as ->. now exists w.
  - destruct n as [kd s|nm a ks]; [simpl in H; destruct i; discriminate|].
    simpl in H. destruct (nth_error ks i) as [c|] eqn:En; [|discriminate].
    cbn [embed_images].
    destruct (if matches (tag "img") (Tag nm a ks) then _ else _) as [a' w1].
    destruct (mapS_nth embed_images ks w1 i c En) as [w2 Hn].
    destruct (IH c w2 k H) as [wi Hwi]. exists wi.
    destruct (mapS embed_images ks w1) as [ks' w3]. simpl in *. now rewrite Hn.
Qed.

(** What the second loop makes of an image, given the state of the network
    its request is made in. *)
Lemma images_at_img (a : attr_dict) (cs : list node) (src : string) (p : path)
  (ks : list node) (w : world) :
  forest_at p ks = Some (Tag "img" a cs) ->
  dict_get a "src" = Some (AStr src) ->
  exists wq cs',
    forest_at p (fst (mapS embed_images ks w))
    = Some (Tag "img"
              match downloaded (fst (download_resource src wq)) with
              | Some data =>
                  dict_set a "src"
                    (AStr ("data:" ++ image_media_type src ++ ";base64," ++ data))
              | None => a
              end cs').
Proof.
  intros Hat Hs. destruct p as [|i q]; [discriminate|]. simpl in Hat.
  destruct (nth_error ks i) as [k|] eqn:En; [|discriminate].
  destruct (mapS_nth embed_images ks w i k En) as [w1 Hn].
  destruct (embed_images_at q k w1 _ Hat) as [wq Hk].
  exists wq. cbn [forest_at]. rewrite Hn, Hk. cbn [embed_images].
  change (matches (tag "img") (Tag "img" a cs)) with true. cbv iota.
  rewrite Hs. destruct (download_resource src wq) as [d w2]. cbn [fst].
  destruct (downloaded d) as [data|];
    destruct (mapS embed_images cs w2) as [cs' w3]; now exists cs'.
Qed.

(** *** The loop over the fonts *)

Lemma resolve_raises (base url : string) (e : exn) :
  resolve base url = Raise e -> e = ValueError.
Proof.
  unfold resolve. destruct (urljoin base url); [discriminate|].
  intros H. now injection H as <-.
Qed.

Lemma font_full_url_raises (font_url : string) (e : exn) :
  font_full_url font_url = Raise e -> e = ValueError.
Proof.
  unfold font_full_url. destruct (PyStr.startswith font_url "/"); [discriminate|].
  destruct (negb (PyStr.startswith font_url "http")); [|discriminate].
  apply resolve_raises.
Qed.

Lemma embed_font_urls_raises (font_urls : list string) :
  forall css w e w', embed_font_urls font_urls css w = (Raise e, w') -> e = ValueError.
Proof.
  induction font_urls as [|u rest IH]; intros css w e w' H; [discriminate|].
  cbn [embed_font_urls] in H.
  destruct (PyStr.startswith u "data:"); [exact (IH _ _ _ _ H)|].
  destruct (font_full_url u) as [full|e0] eqn:E.
  - destruct (download_resource full w) as [d w1].
    destruct (downloaded d); exact (IH _ _ _ _ H).
  - injection H as <- _. exact (font_full_url_raises u e0 E).
Qed.


Lemma embed_fonts_raises (n : node) :
  forall w e w', embed_fonts n w = (Raise e, w') -> e = ValueError.
Proof.
  induction n as [kd s|nm a ks IH] using node_induction; intros w e w' H;
    [discriminate|].
  cbn [embed_fonts] in H.
  destruct (if matches (tag "style") (Tag nm a ks)
            then downloaded (tag_string (Tag nm a ks)) else None) as [css|].
  - unfold embed_fonts_css in H.
    destruct (embed_font_urls _ css w) as [[css'|e0] w1] eqn:E.
    + destruct (mapSE embed_fonts ks w1) as [[ks'|e1] w2] eqn:E1; [discriminate|].
      injection H as <- _. exact (mapSE_raises _ ks IH _ _ _ E1).
    + injection H as <- _. exact (embed_font_urls_raises _ _ _ _ _ E).
  - destruct (mapSE embed_fonts ks w) as [[ks'|e1] w1] eqn:E1; [discriminate|].
    injection H as <- _. exact (mapSE_raises _ ks IH _ _ _ E1).
Qed.


(** The third loop changes the text of style elements and nothing else:
    a link stays as it is, a style element that holds one string holds one
    string afterwards, the one the loop over its font URLs returns. *)
Lemma fonts_at_link (a : attr_dict) (p : path) :
  forall ks ks' w w',
  forallb raw_shape ks = true ->
  mapSE embed_fonts ks w = (Ok ks', w') ->
  forest_at p ks = Some (Tag "link" a []) ->
  forest_at p ks' = Some (Tag "link" a []).
Proof.
  induction p as [|i p IH]; intros ks ks' w w' Hr Hf Hat; [discriminate|].
  simpl in Hat. destruct (nth_error ks i) as [k|] eqn:En; [|discriminate].
  destruct (mapSE_nth _ _ _ _ _ _ _ Hf En) as [wi [wi' [k' [Ek En']]]].
  cbn [forest_at]. rewrite En'.
  pose proof (forallb_nth _ _ _ _ Hr En) as Hk.
  destruct p as [|j q].
  - simpl in Hat. injection Hat as ->. simpl in Ek. now injection Ek as <- _.
  - destruct k as [kd s|nm0 a0 ks0]; [simpl in Hat; destruct j; discriminate|].
    apply raw_shape_tag in Hk. destruct Hk as [Hs Hk0].
    simpl in Hat. destruct (nth_error ks0 j) as [c|] eqn:Ec; [|discriminate].
    cbn [embed_fonts] in Ek.
    destruct (matches (tag "style") (Tag nm0 a0 ks0)) eqn:E.
    + apply matches_style_name in E. subst nm0.
      destruct (style_child_is_string ks0 j c q _ _ _ Hs Ec Hat).
    + destruct (mapSE embed_fonts ks0 wi) as [[ks0'|e] w2] eqn:E0; [|discriminate].
      injection Ek as <- _.
      apply (IH ks0 ks0' wi w2 Hk0 E0). simpl. now rewrite Ec.
Qed.


End Embedder.

Section EmbedderRun.

Context {RT : Runtime}.

Lemma below_contents (f : node -> world -> node * world) (root : node) (w : world) :
  contents_of (fst (below f root w)) = fst (mapS f (contents_of root) w).
Proof.
  destruct root as [kd s|nm a ks]; [reflexivity|]. unfold below. simpl.
  now destruct (mapS f ks w).
Qed.

Lemma belowE_contents (f : node -> world -> result node * world) (root root' : node)
  (w w' : world) :
  belowE f root w = (Ok root', w') ->
  mapSE f (contents_of root) w = (Ok (contents_of root'), w').
Proof.
  destruct root as [kd s|nm a ks]; simpl; intros H.
  - now injection H as <- <-.
  - destruct (mapSE f ks w) as [[ks'|e] w1]; [|discriminate].
    now injection H as <- <-.
Qed.

Lemma raw_shape_contents (root : node) :
  raw_shape root = true -> forallb raw_shape (contents_of root) = true.
Proof.
  destruct root as [kd s|nm a ks]; [reflexivity|]. intros H.
  now apply raw_shape_tag in H.
Qed.

Lemma request_state_nonempty (p : path) (ks : list node) (w w0 : world) :
  stylesheet_request_state p ks w = Some w0 -> p <> [].
Proof. destruct p; [discriminate | discriminate]. Qed.

(** The stages of a run of the embedder that returns. *)
Lemma embed_trees_inv (soup body_soup soup' body' : node) (w w' : world) :
  embed_trees soup body_soup w = (Ok (soup', body'), w') ->
  exists w1 w2,
    body' = fst (below embed_images body_soup w1)
    /\ mapSE embed_fonts (fst (mapS embed_stylesheets (contents_of soup) w)) w2
       = (Ok (contents_of soup'), w').
Proof.
  unfold embed_trees. intros H.
  pose proof (below_contents embed_stylesheets soup w) as Hc.
  destruct (below embed_stylesheets soup w) as [soup1 w1]. simpl in Hc.
  destruct (below embed_images body_soup w1) as [body1 w2] eqn:Eb.
  destruct (belowE embed_fonts soup1 w2) as [[soup2|e] w3] eqn:Ef; [|discriminate].
  injection H as <- <- <-. exists w1, w2. split; [now rewrite Eb|].
  rewrite <- Hc. now apply belowE_contents.
Qed.

Lemma embed_offline_resources_inv (html_content body_content head' body' : string)
  (w w' : world) :
  embed_offline_resources html_content body_content w = (Ok (head', body'), w') ->
  exists soup' bsoup',
    embed_trees (parse html_content) (parse body_content) w = (Ok (soup', bsoup'), w')
    /\ head' = py_str soup' /\ body' = py_str bsoup'.
Proof.
  unfold embed_offline_resources. intros H.
  destruct (embed_trees _ _ w) as [[[soup' bsoup']|e] w1]; [|discriminate].
  injection H as <- <- <-. now exists soup', bsoup'.
Qed.

(** The embedder raises nothing but the [ValueError] of line 86. *)
Lemma embed_trees_raises (soup body_soup : node) (w w' : world) (e : exn) :
  embed_trees soup body_soup w = (Raise e, w') -> e = ValueError.
Proof.
  unfold embed_trees. intros H.
  destruct (below embed_stylesheets soup w) as [soup1 w1].
  destruct (below embed_images body_soup w1) as [body1 w2].
  destruct (belowE embed_fonts soup1 w2) as [[soup2|e0] w3] eqn:Ef; [discriminate|].
  injection H as <- _. destruct soup1 as [kd s|nm a ks]; [discriminate|].
  simpl in Ef. destruct (mapSE embed_fonts ks w2) as [[ks'|e1] w4] eqn:Em;
    [discriminate|].
  injection Ef as <- _.
  apply (mapSE_raises embed_fonts ks) with (w := w2) (w' := w4); [|exact Em].
  apply Forall_forall. intros k _. apply embed_fonts_raises.
Qed.

Lemma embed_offline_resources_raises (html_content body_content : string)
  (w w' : world) (e : exn) :
  embed_offline_resources html_content body_content w = (Raise e, w') ->
  e = ValueError.
Proof.
  unfold embed_offline_resources. intros H.
  destruct (embed_trees _ _ w) as [[[soup' bsoup']|e0] w1] eqn:E; [discriminate|].
  injection H as <- _. exact (embed_trees_raises _ _ _ _ _ E).
Qed.



End EmbedderRun.

(** ** Missing head, missing body, and when the run returns *)

Section Completes.

Context {RT : Runtime}.

(** X21.  On a tree as the parser types it, no subscript of an attribute
    dictionary and no string method raises in a run, with or without the
    offline flag: there is no [KeyError] and no [AttributeError], and what a
    run raises is the [ValueError] of [urljoin]. *)
Theorem process_wikipedia_html_raises (html source_url : string) (offline : bool)
  (w w' : world) (e : exn) :
  parser_typed (parse html) = true ->
  process_wikipedia_html html source_url offline w = (Raise e, w') ->
  e = ValueError.
Proof.
  intros Ht. unfold process_wikipedia_html.
  destruct (process_tree_raises_only (parse html) source_url (parser_typed_str _ Ht))
    as [[r ->]| ->].
  - destruct offline; [|discriminate].
    destruct (embed_offline_resources _ _ w) as [[[h b]|e0] w1] eqn:E; [discriminate|].
    intros H. injection H as <- _. exact (embed_offline_resources_raises _ _ _ _ _ E).
  - intros H. now injection H as <- _.
Qed.


End Completes.

(** ** The font pattern *)

Lemma length_app (a b : string) :
  String.length (a ++ b) = String.length a + String.length b.
Proof. induction a as [|c a IH]; simpl; [reflexivity | now rewrite IH]. Qed.

Lemma drop_length_app (l s : string) : PyStr.drop (String.length l) (l ++ s) = s.
Proof. induction l as [|c l IH]; simpl; [reflexivity | exact IH]. Qed.

Lemma take_length_app (t r : string) : PyStr.take (String.length t) (t ++ r) = t.
Proof.
  induction t as [|c t IH]; simpl; [now destruct r | now rewrite IH].
Qed.

Lemma plus_class_inv {A : Type} (p : ascii -> bool) (s : string)
  (k : string -> option A) (a : A) :
  Re.plus_class p s k = Some a ->
  exists t s', s = t ++ s' /\ t <> EmptyString /\ k s' = Some a.
Proof.
  revert a. induction s as [|c s IH]; intros a; simpl; [discriminate|].
  destruct (p c); [|discriminate].
  destruct (Re.plus_class p s k) as [a'|] eqn:E.
  - intros H. injection H as <-. destruct (IH a' eq_refl) as [t [s' [-> [_ Hk]]]].
    exists (String c t), s'. repeat split; [discriminate | exact Hk].
  - intros H. exists (String c EmptyString), s. repeat split; [discriminate | exact H].
Qed.

(** The matcher finds only what the pattern means. *)
Lemma rmatch_sound {A : Type} (r : Re.regex) :
  forall (s : string) (cap : option string)
         (k : string -> option string -> option A) (a : A),
  Re.rmatch r s cap k = Some a ->
  exists t s' cap', s = t ++ s' /\ Re.sem r t cap cap' /\ k s' cap' = Some a.
Proof.
  induction r as [l|p|r IH|p|r1 IH1 r2 IH2|r IH]; intros s cap k a H;
    cbn [Re.rmatch] in H.
  - destruct (String.prefix l s) eqn:E; [|discriminate].
    destruct (prefix_split _ _ E) as [s' ->]. rewrite drop_length_app in H.
    exists l, s', cap. repeat split; [constructor | exact H].
  - destruct s as [|c s']; [discriminate|].
    destruct (p c) eqn:E; [|discriminate].
    exists (String c EmptyString), s', cap. repeat split; [now constructor | exact H].
  - destruct (Re.rmatch r s cap k) as [a'|] eqn:E.
    + injection H as <-. destruct (IH _ _ _ _ E) as [t [s' [cap' [-> [Hs Hk]]]]].
      exists t, s', cap'. repeat split; [now apply Re.sem_opt_some | exact Hk].
    + exists EmptyString, s, cap. repeat split; [constructor | exact H].
  - destruct (plus_class_inv _ _ _ _ H) as [t [s' [-> [Hne Hk]]]].
    exists t, s', cap. repeat split; [now constructor | exact Hk].
  - destruct (IH1 _ _ _ _ H) as [t1 [s1 [cap1 [-> [Hs1 H1]]]]].
    destruct (IH2 _ _ _ _ H1) as [t2 [s2 [cap2 [-> [Hs2 H2]]]]].
    exists (t1 ++ t2), s2, cap2. rewrite append_assoc.
    repeat split; [now apply Re.sem_cat with cap1 | exact H2].
  - destruct (IH _ _ _ _ H) as [t [s' [cap' [-> [Hs Hk]]]]].
    rewrite length_app, Nat.add_sub, take_length_app in Hk.
    exists t, s', (Some t). repeat split; [now apply Re.sem_group with cap' | exact Hk].
Qed.

Lemma one_of_wot (c : ascii) :
  one_of "wot" c = true -> c = "w"%char \/ c = "o"%char \/ c = "t"%char.
Proof.
  unfold one_of. cbn [list_ascii_of_string existsb].
  rewrite !orb_true_iff, !Ascii.eqb_eq. intuition discriminate.
Qed.

Lemma one_of_f2 (c : ascii) :
  one_of "f2" c = true -> c = "f"%char \/ c = "2"%char.
Proof.
  unfold one_of. cbn [list_ascii_of_string existsb].
  rewrite !orb_true_iff, !Ascii.eqb_eq. intuition discriminate.
Qed.

Ltac inv H := inversion H; subst; clear H.

Ltac open_sem :=
  repeat match goal with
    | H : Re.sem (Re.Cat _ _) _ _ _ |- _ => inv H
    | H : Re.sem (Re.Lit _) _ _ _ |- _ => inv H
    | H : Re.sem (Re.Group _) _ _ _ |- _ => inv H
    | H : Re.sem (Re.Class _) _ _ _ |- _ => inv H
    | H : Re.sem (Re.Plus _) _ _ _ |- _ => inv H
    | H : Re.sem (Re.Opt _) _ _ _ |- _ => inv H
    end.

Lemma font_url_sem (t : string) (cap : option string) :
  Re.sem font_url_re t None cap ->
  exists x c e, cap = Some (x ++ "." ++ String c ("f" ++ e))
                /\ (c = "w"%char \/ c = "o"%char \/ c = "t"%char)
                /\ (e = "" \/ e = "f" \/ e = "2").
Proof.
  unfold font_url_re. intros H. open_sem.
  all: match goal with
       | |- exists _ _ _, Some (?x ++ "." ++ String ?c "" ++ "f" ++ ?e) = _ /\ _ =>
           exists x, c, e
       end; (split; [reflexivity|]); (split; [now apply one_of_wot|]).
  all: try (now left).
  all: match goal with
       | Hc : one_of "f2" ?c = true |- _ => destruct (one_of_f2 c Hc) as [-> | ->]
       end; auto.
Qed.

Lemma match_here_font_url (s g : string) (n : nat) :
  Re.match_here font_url_re s = Some (g, n) ->
  exists x c e, g = x ++ "." ++ String c ("f" ++ e)
                /\ (c = "w"%char \/ c = "o"%char \/ c = "t"%char)
                /\ (e = "" \/ e = "f" \/ e = "2").
Proof.
  unfold Re.match_here. intros H.
  destruct (rmatch_sound _ _ _ _ _ H) as [t [s' [cap [-> [Hs Hk]]]]].
  destruct (font_url_sem t cap Hs) as [x [c [e [-> [Hc He]]]]].
  injection Hk as <- _. now exists x, c, e.
Qed.

Lemma findall_from_sound (r : Re.regex) (s : string) :
  forall skip g, In g (Re.findall_from r skip s) ->
  exists s0 n, Re.match_here r s0 = Some (g, n).
Proof.
  induction s as [|c s IH]; intros skip g H; simpl in H; [contradiction|].
  destruct skip as [|k]; [|now apply (IH k)].
  destruct (Re.match_here r (String c s)) as [[g0 n]|] eqn:E.
  - destruct H as [<- | H]; [now exists (String c s), n | now apply (IH (n - 1))].
  - now apply (IH 0).
Qed.

Lemma drop_app_le (n : nat) (x t : string) :
  n <= String.length x -> PyStr.drop n (x ++ t) = PyStr.drop n x ++ t.
Proof.
  revert n. induction x as [|c x IH]; intros n H.
  - simpl in H. assert (n = 0) by lia. subst. reflexivity.
  - destruct n as [|n]; [reflexivity|]. simpl. apply IH. simpl in H. lia.
Qed.

(** A string that ends with [p] and with a shorter [t]: [p] ends with [t]. *)
Lemma endswith_app_tail (x t p : string) :
  PyStr.endswith (x ++ t) p = true ->
  String.length t <= String.length p ->
  PyStr.endswith p t = true.
Proof.
  unfold PyStr.endswith. rewrite !andb_true_iff, !Nat.leb_le, !String.eqb_eq, length_app.
  intros [Hl Hd] Ht. split; [exact Ht|].
  rewrite drop_app_le in Hd by lia.
  rewrite <- Hd at 2. rewrite <- Hd at 1. rewrite length_app.
  replace (String.length (PyStr.drop (String.length x + String.length t - String.length p) x) + String.length t - String.length t)
    with (String.length (PyStr.drop (String.length x + String.length t - String.length p) x)) by lia.
  apply drop_length_app.
Qed.

(** No URL the pattern finds has one of the four font extensions: what it
    finds ends in a dot, one of [w], [o], [t], an [f], and at most one more
    [f] or [2]. *)
Lemma font_files_never_found (css url : string) :
  In url (Re.findall font_url_re css) ->
  PyStr.endswith url ".woff2" = false /\ PyStr.endswith url ".woff" = false
  /\ PyStr.endswith url ".ttf" = false /\ PyStr.endswith url ".otf" = false.
Proof.
  intros H. destruct (findall_from_sound _ _ _ _ H) as [s0 [n Hm]].
  destruct (match_here_font_url _ _ _ Hm) as [x [c [e [-> [Hc He]]]]].
  assert (Hno : forall p, String.length p >= 4 ->
            PyStr.endswith p ("." ++ String c ("f" ++ e)) = false ->
            PyStr.endswith (x ++ "." ++ String c ("f" ++ e)) p = false).
  { intros p Hp Hf. destruct (PyStr.endswith (x ++ "." ++ String c ("f" ++ e)) p) eqn:E;
      [|reflexivity].
    apply endswith_app_tail in E; [congruence|].
    destruct He as [-> | [-> | ->]]; simpl; lia. }
  repeat split; apply Hno; try (simpl; lia);
    destruct Hc as [-> | [-> | ->]]; destruct He as [-> | [-> | ->]]; reflexivity.
Qed.

(** So the media type of every font the embedder fetches is the default. *)
Lemma found_fonts_get_default_type (css url : string) :
  In url (Re.findall font_url_re css) -> font_media_type url = "font/woff".
Proof.
  intros H. destruct (font_files_never_found css url H) as [H1 [H2 [H3 H4]]].
  unfold font_media_type. now rewrite H1, H2, H3, H4.
Qed.


Example font_pattern_matches :
  Re.findall font_url_re "a{src:url(q.off)} b{src:url('r.tff')} c{src:url(s.wf2)}"
  = ["q.off"; "r.tff"; "s.wf2"].
Proof. vm_compute. reflexivity. Qed.

Example font_pattern_misses_font_files :
  Re.findall font_url_re "url(a.woff) url(a.woff2) url(a.ttf) url(a.otf)" = [].
Proof. vm_compute. reflexivity. Qed.

(** C3, on the code.  The pattern finds no font URL in a style sheet that
    names [fonts/a.woff2] in the three quoting styles: whatever the network
    would answer, the embedder asks for nothing and leaves the three
    references as they are. *)
Theorem woff2_references_not_embedded {RT : Runtime} (w : world) :
  PyStr.contains "url('fonts/a.woff2')" Sample.three_quotings = true
  /\ PyStr.contains ("url(" ++ dq ++ "fonts/a.woff2" ++ dq ++ ")") Sample.three_quotings = true
  /\ PyStr.contains "url(fonts/a.woff2)" Sample.three_quotings = true
  /\ Re.findall font_url_re Sample.three_quotings = []
  /\ embed_fonts_css Sample.three_quotings w = (Ok Sample.three_quotings, w)
  /\ embed_fonts (Tag "style" [] [Str Text Sample.three_quotings]) w
     = (Ok (Tag "style" [] [Str Text Sample.three_quotings]), w).
Proof.
  assert (Hf : Re.findall font_url_re Sample.three_quotings = [])
    by (vm_compute; reflexivity).
  assert (He : embed_fonts_css Sample.three_quotings w = (Ok Sample.three_quotings, w))
    by (unfold embed_fonts_css; now rewrite Hf).
  repeat split; try exact Hf; try exact He; try (vm_compute; reflexivity).
Qed.

(** ** Scheme-relative references in the head *)

Lemma make_absolute_scheme_relative {RT : Runtime} (source_url url : string) :
  PyStr.startswith url "//" = true ->
  make_absolute source_url url = Ok ("https://en.wikipedia.org" ++ url).
Proof.
  intros H. destruct (startswith_split _ _ H) as [t ->]. reflexivity.
Qed.

Lemma process_img_scheme_relative {RT : Runtime} (source_url src : string)
  (a : attr_dict) :
  dict_get a "src" = Some (AStr src) ->
  PyStr.startswith src "//" = true ->
  process_img source_url a = Ok (dict_set a "src" (AStr ("https:" ++ src))).
Proof.
  intros G H. unfold process_img. rewrite G. cbn [str_of bind]. now rewrite H.
Qed.

(** C4, on the code.  The loops over the head take a scheme-relative href
    for a path of the known origin: the link to
    [//upload.wikimedia.org/x.css] gets the origin in front, not [https:],
    for a stylesheet link and for any other link.  The loop over the images
    of the body puts [https:] in front of the same reference. *)
Theorem scheme_relative_head_link_gets_origin {RT : Runtime} (source_url : string) :
  head_passes source_url Sample.scheme_relative_head
  = Ok Sample.scheme_relative_head_rewritten
  /\ "https://en.wikipedia.org//upload.wikimedia.org/x.css"
     <> "https:" ++ "//upload.wikimedia.org/x.css"
  /\ process_img source_url [("src", AStr "//upload.wikimedia.org/x.css")]
     = Ok [("src", AStr ("https:" ++ "//upload.wikimedia.org/x.css"))].
Proof.
  split; [reflexivity|]. split; [discriminate | reflexivity].
Qed.

(** ** The assembled document *)

Lemma prefix_app_l (p s rest : string) :
  String.prefix p s = true -> String.prefix p (s ++ rest) = true.
Proof.
  intros H. destruct (prefix_split _ _ H) as [t ->].
  rewrite append_assoc. apply prefix_app.
Qed.

Lemma contains_app_l (needle s rest : string) :
  PyStr.contains needle s = true -> PyStr.contains needle (s ++ rest) = true.
Proof.
  induction s as [|c s IH]; intros H.
  - simpl in H. rewrite orb_false_r in H.
    destruct needle; [|discriminate]. destruct rest; reflexivity.
  - cbn [PyStr.contains] in H. apply orb_true_iff in H.
    change (String c s ++ rest) with (String c (s ++ rest)).
    cbn [PyStr.contains]. apply orb_true_iff. destruct H as [H|H].
    + left. now apply (prefix_app_l needle (String c s) rest).
    + right. now apply IH.
Qed.

Lemma replace_from_contains (old new s : string) :
  PyStr.contains old s = true -> old <> EmptyString ->
  PyStr.contains new (PyStr.replace_from old new 0 s) = true.
Proof.
  intros H Hne. induction s as [|c s IH].
  - simpl in H. rewrite orb_false_r in H. destruct old; [congruence | discriminate].
  - cbn [PyStr.contains] in H. cbn [PyStr.replace_from].
    destruct (String.prefix old (String c s)).
    + apply contains_prefix.
    + simpl in H. apply (contains_app new (String c EmptyString)). now apply IH.
Qed.

(** The modal and the script are in every assembled document. *)
Lemma modal_and_script_present (d : page_data) :
  PyStr.contains modal_markup (generate_html d) = true
  /\ PyStr.contains interception_script (generate_html d) = true.
Proof.
  unfold generate_html, boundary_modal. split.
  - do 13 apply contains_app. rewrite append_assoc. apply contains_prefix.
  - do 13 apply contains_app. rewrite append_assoc.
    apply contains_app. apply contains_prefix.
Qed.

(** The style sheet is in the assembled document when the head fragment has
    a closing head tag to put it before. *)
Lemma stylesheet_present_with_head (d : page_data) :
  PyStr.contains "</head>" (head_content d) = true ->
  PyStr.contains boundary_css (generate_html d) = true.
Proof.
  intros H. unfold generate_html, head_with_css.
  do 8 apply contains_app. apply contains_app_l.
  assert (Hn : PyStr.contains (boundary_css ++ "</head>")
                 (PyStr.replace (head_content d) "</head>" (boundary_css ++ "</head>"))
               = true).
  { apply replace_from_contains; [exact H | discriminate]. }
  revert Hn.
  generalize (PyStr.replace (head_content d) "</head>" (boundary_css ++ "</head>")).
  generalize boundary_css. intros css s.
  induction s as [|c s IH]; intros Hn.
  - simpl in Hn. rewrite orb_false_r in Hn. destruct css; discriminate.
  - cbn [PyStr.contains] in *. apply orb_true_iff in Hn. apply orb_true_iff.
    destruct Hn as [Hn|Hn].
    + left. destruct (prefix_split _ _ Hn) as [t Ht]. rewrite Ht.
      rewrite append_assoc. apply prefix_app.
    + right. now apply IH.
Qed.

(** C5, on the code.  For the record of a page without head the assembled
    document has the modal and the script, and not the style sheet: the
    style sheet goes in before a closing head tag, and the empty head
    fragment has none. *)
Theorem stylesheet_missing_without_head :
  PyStr.contains boundary_css (generate_html Sample.headless_record) = false
  /\ PyStr.contains modal_markup (generate_html Sample.headless_record) = true
  /\ PyStr.contains interception_script (generate_html Sample.headless_record) = true
  /\ fst (@process_wikipedia_html Sample.runtime "<p>hi</p>" Sample.source_url false [])
     = Ok Sample.headless_record.
Proof.
  split; [vm_compute; reflexivity|].
  split; [exact (proj1 (modal_and_script_present Sample.headless_record))|].
  split; [exact (proj2 (modal_and_script_present Sample.headless_record))|].
  vm_compute. reflexivity.
Qed.

(** * Further properties of the rewriter *)

(** ** The other anchors, and what interception keeps *)

Section MoreLinks.

Context {RT : Runtime}.

Lemma process_link_hash (source_url : string) (a : attr_dict) (href : string) :
  dict_get a "href" = Some (AStr href) ->
  PyStr.startswith href "#" = true ->
  process_link source_url a = Ok a.
Proof.
  intros Hh Hs. unfold process_link, getitem. rewrite Hh. cbn [bind str_of].
  now rewrite Hs.
Qed.

Lemma http_prefix_of_scheme (href : string) :
  PyStr.startswith href "http" = false ->
  PyStr.startswith href "http://" = false /\ PyStr.startswith href "https://" = false.
Proof.
  intros H. split.
  - destruct (PyStr.startswith href "http://") eqn:E; [|reflexivity].
    destruct (startswith_split _ _ E) as [t ->]. discriminate H.
  - destruct (PyStr.startswith href "https://") eqn:E; [|reflexivity].
    destruct (startswith_split _ _ E) as [t ->]. discriminate H.
Qed.

Lemma process_link_relative (source_url : string) (a : attr_dict) (href : string) :
  dict_get a "href" = Some (AStr href) ->
  PyStr.startswith href "#" = false ->
  PyStr.startswith href "/wiki/" = false ->
  PyStr.startswith href "//" = false ->
  PyStr.startswith href "http" = false ->
  process_link source_url a
  = match urljoin source_url href with
    | Some joined => Ok (dict_set a "href" (AStr joined))
    | None => Raise ValueError
    end.
Proof.
  intros Hh H1 H2 H3 H4. unfold process_link, getitem. rewrite Hh.
  cbn [bind str_of]. destruct (http_prefix_of_scheme href H4) as [H5 H6].
  rewrite H1, H2, H3, H4, H5, H6. cbn [orb negb]. unfold resolve.
  now destruct (urljoin source_url href).
Qed.

(** A run on a tree of the parser that does not return raises the
    [ValueError] of [urljoin]. *)
Lemma process_tree_not_ok (soup : node) (source_url : string) :
  parser_typed soup = true ->
  (forall r, process_tree soup source_url <> Ok r) ->
  process_tree soup source_url = Raise ValueError.
Proof.
  intros Ht Hno.
  destruct (process_tree_raises_only soup source_url (parser_typed_str _ Ht))
    as [[r Hr]|H]; [destruct (Hno r Hr) | exact H].
Qed.

(** X1.  An anchor of the body whose href begins with [#] comes out of the
    rewriter with the attributes it had: the href stays and no boundary
    marker is added. *)
Theorem fragment_link_unchanged (soup : node) (source_url : string)
  (ks : list node) (p : path) (a : attr_dict) (cs : list node) (href : string)
  (r : rewritten) :
  body_before_links soup source_url = Ok ks ->
  forest_at p ks = Some (Tag "a" a cs) ->
  dict_get a "href" = Some (AStr href) ->
  PyStr.startswith href "#" = true ->
  process_tree soup source_url = Ok r ->
  exists cs', forest_at p (r_body r) = Some (Tag "a" a cs').
Proof.
  intros Hb Hat Hh Hs Hp.
  destruct (anchor_through_rewriter soup source_url ks p a cs _ r Hb Hat Hh Hp)
    as [a' [cs' [Hat' Hl]]].
  rewrite (process_link_hash source_url a href Hh Hs) in Hl. injection Hl as <-.
  now exists cs'.
Qed.

(** X2.  An anchor of the body whose href begins with none of [#],
    [/wiki/], [//] and [http] is resolved with [urljoin] under the source
    URL.  In the body of a run that returns it keeps a real href, the one
    [urljoin] returned, and its other attributes, so it gets no boundary
    marker.  When [urljoin] raises on the href, the run on a tree of the
    parser raises [ValueError] and returns nothing. *)
Theorem relative_link_resolved (soup : node) (source_url : string)
  (ks : list node) (p : path) (a : attr_dict) (cs : list node) (href : string) :
  body_before_links soup source_url = Ok ks ->
  forest_at p ks = Some (Tag "a" a cs) ->
  dict_get a "href" = Some (AStr href) ->
  PyStr.startswith href "#" = false ->
  PyStr.startswith href "/wiki/" = false ->
  PyStr.startswith href "//" = false ->
  PyStr.startswith href "http" = false ->
  (forall r, process_tree soup source_url = Ok r ->
     exists joined a' cs',
       urljoin source_url href = Some joined
       /\ forest_at p (r_body r) = Some (Tag "a" a' cs')
       /\ dict_get a' "href" = Some (AStr joined)
       /\ forall k, k <> "href" -> dict_get a' k = dict_get a k)
  /\ (parser_typed soup = true -> urljoin source_url href = None ->
      process_tree soup source_url = Raise ValueError).
Proof.
  intros Hb Hat Hh H1 H2 H3 H4.
  assert (Hok : forall r, process_tree soup source_url = Ok r ->
            exists joined a' cs',
              urljoin source_url href = Some joined
              /\ forest_at p (r_body r) = Some (Tag "a" a' cs')
              /\ dict_get a' "href" = Some (AStr joined)
              /\ forall k, k <> "href" -> dict_get a' k = dict_get a k).
  { intros r Hp.
    destruct (anchor_through_rewriter soup source_url ks p a cs _ r Hb Hat Hh Hp)
      as [a' [cs' [Hat' Hl]]].
    rewrite (process_link_relative source_url a href Hh H1 H2 H3 H4) in Hl.
    destruct (urljoin source_url href) as [joined|]; [|discriminate].
    injection Hl as <-. eexists joined, _, cs'. split; [reflexivity|].
    split; [exact Hat'|]. split; [apply dict_get_set_same|].
    intros k Hk. apply dict_get_set_other. apply String.eqb_neq. congruence. }
  split; [exact Hok|].
  intros Ht Hnone. apply process_tree_not_ok; [exact Ht|].
  intros r Hr. destruct (Hok r Hr) as [joined [_ [_ [E _]]]]. congruence.
Qed.

(** X3.  Interception touches three attributes only: an anchor whose href
    begins with [/wiki/], [http://], [https://] or [//] comes out with every
    attribute other than [href], [data-boundary-url] and [onclick] as it
    was. *)
Theorem interception_keeps_other_attributes (soup : node) (source_url : string)
  (ks : list node) (p : path) (a : attr_dict) (cs : list node) (href : string)
  (r : rewritten) :
  body_before_links soup source_url = Ok ks ->
  forest_at p ks = Some (Tag "a" a cs) ->
  dict_get a "href" = Some (AStr href) ->
  PyStr.startswith href "/wiki/" || PyStr.startswith href "http://"
    || PyStr.startswith href "https://" || PyStr.startswith href "//" = true ->
  process_tree soup source_url = Ok r ->
  exists a' cs',
    forest_at p (r_body r) = Some (Tag "a" a' cs')
    /\ forall k, k <> "href" -> k <> "data-boundary-url" -> k <> "onclick" ->
       dict_get a' k = dict_get a k.
Proof.
  intros Hb Hat Hh Hs Hp.
  destruct (anchor_through_rewriter soup source_url ks p a cs _ r Hb Hat Hh Hp)
    as [a' [cs' [Hat' Hl]]].
  assert (Hform : exists v1 v2,
             a' = dict_remove (dict_set (dict_set a "data-boundary-url" v1)
                                        "onclick" v2) "href").
  { destruct (PyStr.startswith href "/wiki/") eqn:Ew.
    - rewrite (process_link_wiki source_url a href Hh Ew) in Hl.
      injection Hl as <-. now eexists _, _.
    - simpl in Hs. rewrite (process_link_external source_url a href Hh Hs) in Hl.
      injection Hl as <-. now eexists _, _. }
  destruct Hform as [v1 [v2 ->]].
  eexists _, cs'. split; [exact Hat'|].
  intros k K1 K2 K3.
  rewrite dict_get_remove_other by (apply String.eqb_neq; congruence).
  rewrite dict_get_set_other by (apply String.eqb_neq; congruence).
  apply dict_get_set_other. apply String.eqb_neq. congruence.
Qed.

(** ** Images *)

(** What the loop over the images makes of a source, lines 232-235. *)
Lemma process_img_cases (source_url : string) (a a' : attr_dict) (src : string) :
  dict_get a "src" = Some (AStr src) ->
  process_img source_url a = Ok a' ->
  (PyStr.startswith src "//" = true ->
     a' = dict_set a "src" (AStr ("https:" ++ src)))
  /\ (PyStr.startswith src "//" = false -> PyStr.startswith src "http" = true ->
        a' = a)
  /\ (PyStr.startswith src "//" = false -> PyStr.startswith src "http" = false ->
        exists joined,
          urljoin source_url src = Some joined
          /\ a' = dict_set a "src" (AStr joined)).
Proof.
  intros G. unfold process_img. rewrite G. cbn [bind str_of]. unfold resolve.
  destruct (PyStr.startswith src "//"), (PyStr.startswith src "http");
    cbn [negb]; try destruct (urljoin source_url src) as [joined|]; cbn [bind];
    intros E; try discriminate E; injection E as <-;
    repeat split; intros; try reflexivity; try discriminate.
  now exists joined.
Qed.

(** X4.  An image of the body of a run that returns has its source made
    absolute: a source that begins with [//] gets [https:] in front, one
    that begins with [http] stays, and any other one, a root-relative one
    included, is what [urljoin] returned for it under the source URL.  The
    other attributes stay.  When [urljoin] raises on such a source, the run
    on a tree of the parser raises [ValueError] and returns nothing. *)
Theorem image_source_made_absolute (soup : node) (source_url : string)
  (ks : list node) (p : path) (a : attr_dict) (cs : list node) (src : string) :
  body_before_links soup source_url = Ok ks ->
  forest_at p ks = Some (Tag "img" a cs) ->
  dict_get a "src" = Some (AStr src) ->
  (forall r, process_tree soup source_url = Ok r ->
     exists a' cs',
       forest_at p (r_body r) = Some (Tag "img" a' cs')
       /\ (PyStr.startswith src "//" = true ->
             dict_get a' "src" = Some (AStr ("https:" ++ src)))
       /\ (PyStr.startswith src "//" = false -> PyStr.startswith src "http" = true ->
             a' = a)
       /\ (PyStr.startswith src "//" = false -> PyStr.startswith src "http" = false ->
             exists joined,
               urljoin source_url src = Some joined
               /\ dict_get a' "src" = Some (AStr joined))
       /\ forall k, k <> "src" -> dict_get a' k = dict_get a k)
  /\ (parser_typed soup = true ->
      PyStr.startswith src "//" = false -> PyStr.startswith src "http" = false ->
      urljoin source_url src = None ->
      process_tree soup source_url = Raise ValueError).
Proof.
  intros Hb Hat Hs.
  assert (Hok : forall r, process_tree soup source_url = Ok r ->
            exists a' cs',
              forest_at p (r_body r) = Some (Tag "img" a' cs')
              /\ process_img source_url a = Ok a').
  { intros r Hp.
    destruct (process_tree_inv soup source_url r Hp)
      as [hs [ks0 [ks1 [_ [Hb0 [E1 [E2 _]]]]]]].
    rewrite Hb in Hb0. injection Hb0 as <-.
    destruct (for_each_in_at _ _ _ _ _ _ _ _ E1 Hat) as [a1 [cs1 [Hat1 Hl]]].
    destruct (for_each_in_at _ _ _ _ _ _ _ _ E2 Hat1) as [a2 [cs2 [Hat2 Hi]]].
    unfold on_matching in Hl, Hi. simpl in Hl. injection Hl as <-.
    change (matches (tag "img") (Tag "img" a cs1)) with true in Hi. simpl in Hi.
    now exists a2, cs2. }
  split.
  - intros r Hp. destruct (Hok r Hp) as [a' [cs' [Hat' E]]].
    destruct (process_img_cases source_url a a' src Hs E) as [C1 [C2 C3]].
    exists a', cs'. split; [exact Hat'|].
    split; [intros H; rewrite (C1 H); apply dict_get_set_same|].
    split; [exact C2|].
    split.
    { intros H H'. destruct (C3 H H') as [joined [Ej ->]].
      exists joined. split; [exact Ej | apply dict_get_set_same]. }
    intros k Hk.
    destruct (PyStr.startswith src "//") eqn:E1'.
    + rewrite (C1 eq_refl). apply dict_get_set_other, String.eqb_neq. congruence.
    + destruct (PyStr.startswith src "http") eqn:E2'.
      * now rewrite (C2 eq_refl eq_refl).
      * destruct (C3 eq_refl eq_refl) as [joined [_ ->]].
        apply dict_get_set_other, String.eqb_neq. congruence.
  - intros Ht H1 H2 Hnone. apply process_tree_not_ok; [exact Ht|].
    intros r Hr. destruct (Hok r Hr) as [a' [cs' [_ E]]].
    destruct (process_img_cases source_url a a' src Hs E) as [_ [_ C3]].
    destruct (C3 H1 H2) as [joined [Ej _]]. congruence.
Qed.

(** X5.  The loops over the anchors and the images drop nothing and add
    nothing: the returned body has the elements and the strings the
    cleaned body had, under the same names and in the same places. *)
Theorem links_and_images_keep_elements (soup : node) (source_url : string)
  (ks : list node) (r : rewritten) :
  body_before_links soup source_url = Ok ks ->
  process_tree soup source_url = Ok r ->
  map names (r_body r) = map names ks.
Proof.
  intros Hb Hp.
  destruct (process_tree_inv soup source_url r Hp)
    as [hs [ks0 [ks1 [_ [Hb0 [E1 [E2 _]]]]]]].
  rewrite Hb in Hb0. injection Hb0 as <-.
  assert (Hn : forall m f xs ys, for_each_in m f xs = Ok ys ->
                 map names ys = map names xs).
  { intros m f xs ys H. apply (mapM_names (update_tags (on_matching m f))); [|exact H].
    apply Forall_forall. intros k _. apply names_update_tags. }
  now rewrite (Hn _ _ _ _ E2), (Hn _ _ _ _ E1).
Qed.

End MoreLinks.

(** ** The loops over the head *)

Lemma for_each_at (m : matcher) (f : attr_dict -> result attr_dict)
  (root root' : node) (p : path) (nm : string) (a : attr_dict) (cs : list node) :
  for_each m f root = Ok root' ->
  node_at p root = Some (Tag nm a cs) ->
  exists a' cs', node_at p root' = Some (Tag nm a' cs')
    /\ (p = [] -> a' = a)
    /\ (p <> [] -> on_matching m f (Tag nm a cs) = Ok a').
Proof.
  intros Hf Hat. destruct root as [kd s|nm0 a0 ks].
  - simpl in Hf. injection Hf as <-. destruct p as [|i p]; [discriminate|].
    simpl in Hat. destruct i; discriminate.
  - simpl in Hf. destruct (for_each_in m f ks) as [ks'|e] eqn:E; [|discriminate].
    cbn [bind] in Hf. injection Hf as <-.
    destruct p as [|i p].
    + simpl in Hat. injection Hat as -> -> ->. exists a, ks'.
      split; [reflexivity|]. split; [reflexivity | congruence].
    + change (forest_at (i :: p) ks = Some (Tag nm a cs)) in Hat.
      destruct (for_each_in_at m f ks ks' (i :: p) nm a cs E Hat)
        as [a' [cs' [H1 H2]]].
      exists a', cs'. split; [exact H1|]. split; [discriminate | now intros _].
Qed.

Section Head.

Context {RT : Runtime}.

Lemma make_absolute_root (source_url url : string) :
  PyStr.startswith url "/" = true ->
  make_absolute source_url url = Ok (known_origin ++ url).
Proof. intros H. unfold make_absolute. now rewrite H. Qed.

Lemma make_absolute_http (source_url url : string) :
  PyStr.startswith url "http" = true -> make_absolute source_url url = Ok url.
Proof.
  intros H. unfold make_absolute. rewrite H.
  destruct (startswith_split _ _ H) as [t ->]. reflexivity.
Qed.

Lemma make_absolute_origin (source_url url : string) :
  make_absolute source_url (known_origin ++ url) = Ok (known_origin ++ url).
Proof. now apply make_absolute_http. Qed.

(** The body of a loop over the head gives the attribute [key] a new value
    and leaves the others. *)
Lemma absolutize_on_matching (m : matcher) (source_url key nm : string)
  (a a' : attr_dict) (cs : list node) :
  on_matching m (absolutize_attr source_url key) (Tag nm a cs) = Ok a' ->
  (forall k, k <> key -> dict_get a' k = dict_get a k)
  /\ (a' = a
      \/ exists url url',
           dict_get a key = Some (AStr url)
           /\ matches m (Tag nm a cs) = true
           /\ make_absolute source_url url = Ok url'
           /\ a' = dict_set a key (AStr url')).
Proof.
  unfold on_matching, absolutize_attr. cbn [attrs_of].
  destruct (matches m (Tag nm a cs)); [|intros H; injection H as <-; now split; [|left]].
  destruct (dict_get a key) as [[url|toks]|] eqn:G; cbn [bind str_of]; intros H;
    try discriminate.
  - destruct (make_absolute source_url url) as [url'|e] eqn:E; [|discriminate].
    cbn [bind] in H. injection H as <-. split.
    + intros k Hk. apply dict_get_set_other, String.eqb_neq. congruence.
    + right. now exists url, url'.
  - injection H as <-. split; [reflexivity | now left].
Qed.

Lemma absolutize_on_matching_hit (m : matcher) (source_url key nm : string)
  (a a' : attr_dict) (cs : list node) (url : string) :
  matches m (Tag nm a cs) = true ->
  dict_get a key = Some (AStr url) ->
  on_matching m (absolutize_attr source_url key) (Tag nm a cs) = Ok a' ->
  exists url', make_absolute source_url url = Ok url'
               /\ a' = dict_set a key (AStr url').
Proof.
  intros Hm G. unfold on_matching, absolutize_attr. cbn [attrs_of].
  rewrite Hm, G. cbn [bind str_of].
  destruct (make_absolute source_url url) as [url'|e]; [|discriminate].
  cbn [bind]. intros H. injection H as <-. now exists url'.
Qed.

(** An element of the head through the three loops. *)
Lemma head_passes_at (source_url : string) (head head' : node) (p : path)
  (nm : string) (a : attr_dict) (cs : list node) :
  head_passes source_url head = Ok head' ->
  node_at p head = Some (Tag nm a cs) ->
  exists a1 a2 a3 cs',
    node_at p head' = Some (Tag nm a3 cs')
    /\ (p = [] -> a3 = a)
    /\ (p <> [] ->
        on_matching stylesheet_link (absolutize_attr source_url "href") (Tag nm a cs)
        = Ok a1
        /\ on_matching (tag "link") (absolutize_attr source_url "href") (Tag nm a1 cs)
           = Ok a2
        /\ on_matching (tag "script") (absolutize_attr source_url "src") (Tag nm a2 cs)
           = Ok a3).
Proof.
  unfold head_passes. intros H Hat.
  destruct (for_each stylesheet_link _ head) as [h1|e] eqn:E1; [|discriminate].
  cbn [bind] in H.
  destruct (for_each (tag "link") _ h1) as [h2|e] eqn:E2; [|discriminate].
  cbn [bind] in H.
  destruct (for_each_at _ _ _ _ _ _ _ _ E1 Hat) as [a1 [cs1 [A1 [B1 C1]]]].
  destruct (for_each_at _ _ _ _ _ _ _ _ E2 A1) as [a2 [cs2 [A2 [B2 C2]]]].
  destruct (for_each_at _ _ _ _ _ _ _ _ H A2) as [a3 [cs3 [A3 [B3 C3]]]].
  exists a1, a2, a3, cs3. split; [exact A3|]. split.
  - intros Hp. now rewrite (B3 Hp), (B2 Hp), (B1 Hp).
  - intros Hp. split; [exact (C1 Hp)|]. split; [exact (C2 Hp) | exact (C3 Hp)].
Qed.

(** The head a run of the rewriter returns, when the page has one. *)
Lemma process_tree_head (soup head : node) (source_url : string) (r : rewritten) :
  find (tag "head") soup = Some head ->
  process_tree soup source_url = Ok r ->
  exists head', r_head r = Some head' /\ head_passes source_url head = Ok head'.
Proof.
  intros Hf Hp.
  destruct (process_tree_inv soup source_url r Hp)
    as [hs [ks [ks1 [Hh [_ [_ [_ [Hr _]]]]]]]].
  destruct (find_at _ _ _ Hf) as [p [Hfp Hat]].
  unfold rewrite_head in Hh. rewrite Hfp, Hat in Hh.
  destruct (head_passes source_url head) as [head'|e]; [|discriminate].
  cbn [bind] in Hh. injection Hh as <-. simpl in Hr.
  now exists head'.
Qed.

(** X6.  The loops over the head remove nothing and touch two attributes
    only: the head the rewriter returns has the elements and strings of the
    head of the page, under the same names and in the same places (so no
    script of the head is dropped), and every attribute other than [href]
    and [src] is as it was. *)
Theorem head_keeps_elements_and_other_attributes (soup head : node)
  (source_url : string) (r : rewritten) :
  find (tag "head") soup = Some head ->
  process_tree soup source_url = Ok r ->
  exists head',
    r_head r = Some head'
    /\ names head' = names head
    /\ forall p nm a cs,
         node_at p head = Some (Tag nm a cs) ->
         exists a' cs',
           node_at p head' = Some (Tag nm a' cs')
           /\ forall k, k <> "href" -> k <> "src" -> dict_get a' k = dict_get a k.
Proof.
  intros Hf Hp.
  destruct (process_tree_head soup head source_url r Hf Hp) as [head' [Hr Hh]].
  exists head'. split; [exact Hr|].
  split; [now apply names_head_passes with (source_url := source_url)|].
  intros p nm a cs Hat.
  destruct (head_passes_at _ _ _ _ _ _ _ Hh Hat) as [a1 [a2 [a3 [cs' [A [B C]]]]]].
  exists a3, cs'. split; [exact A|]. intros k K1 K2.
  destruct p as [|i p]; [now rewrite (B eq_refl)|].
  destruct C as [C1 [C2 C3]]; [discriminate|].
  apply absolutize_on_matching in C1, C2, C3.
  rewrite (proj1 C3 k K2), (proj1 C2 k K1). apply (proj1 C1 k K1).
Qed.

(** X7.  A link of the head whose href begins with [/] comes out with the
    known origin in front of it, once, although a stylesheet link goes
    through two loops; a link whose href begins with [http] keeps its
    href. *)
Theorem head_link_resolved_once (soup head : node) (source_url : string)
  (p : path) (a : attr_dict) (cs : list node) (href : string) (r : rewritten) :
  find (tag "head") soup = Some head ->
  p <> [] ->
  node_at p head = Some (Tag "link" a cs) ->
  dict_get a "href" = Some (AStr href) ->
  process_tree soup source_url = Ok r ->
  exists head' a' cs' href',
    r_head r = Some head'
    /\ node_at p head' = Some (Tag "link" a' cs')
    /\ dict_get a' "href" = Some (AStr href')
    /\ (PyStr.startswith href "/" = true -> href' = "https://en.wikipedia.org" ++ href)
    /\ (PyStr.startswith href "http" = true -> href' = href).
Proof.
  intros Hf Hne Hat Hh Hp.
  destruct (process_tree_head soup head source_url r Hf Hp) as [head' [Hr Hp']].
  destruct (head_passes_at _ _ _ _ _ _ _ Hp' Hat) as [a1 [a2 [a3 [cs' [A [_ C]]]]]].
  destruct (C Hne) as [C1 [C2 C3]].
  (* the loop over the scripts leaves a link alone *)
  unfold on_matching in C3. simpl in C3. injection C3 as <-.
  (* the loop over the stylesheet links: the href once or not at all *)
  assert (H1 : exists h1, dict_get a1 "href" = Some (AStr h1)
                 /\ (h1 = href \/ make_absolute source_url href = Ok h1)).
  { apply absolutize_on_matching in C1.
    destruct C1 as [_ [-> | [u [u' [G [_ [E ->]]]]]]].
    - exists href. split; [exact Hh | now left].
    - rewrite Hh in G. injection G as <-. exists u'.
      split; [apply dict_get_set_same | now right]. }
  destruct H1 as [h1 [G1 Hh1]].
  (* the loop over the links: once more *)
  destruct (absolutize_on_matching_hit (tag "link") source_url "href" "link"
              a1 a2 cs h1 eq_refl G1 C2) as [h2 [E2 ->]].
  exists head', (dict_set a1 "href" (AStr h2)), cs', h2.
  split; [exact Hr|]. split; [exact A|]. split; [apply dict_get_set_same|].
  split; intros Hs.
  - change ("https://en.wikipedia.org" ++ href) with (known_origin ++ href).
    destruct Hh1 as [-> | E1].
    + rewrite (make_absolute_root _ _ Hs) in E2. congruence.
    + rewrite (make_absolute_root _ _ Hs) in E1.
      assert (Eh : h1 = known_origin ++ href) by congruence. subst h1.
      rewrite make_absolute_origin in E2. congruence.
  - destruct Hh1 as [-> | E1].
    + rewrite (make_absolute_http _ _ Hs) in E2. congruence.
    + rewrite (make_absolute_http _ _ Hs) in E1.
      assert (Eh : h1 = href) by congruence. subst h1.
      rewrite (make_absolute_http _ _ Hs) in E2. congruence.
Qed.

End Head.

(** ** Where the elements of a result come from *)

Lemma node_at_children (p : path) (nm : string) (a : attr_dict) (ks : list node) :
  p <> [] -> node_at p (Tag nm a ks) = forest_at p ks.
Proof. destruct p; [congruence | reflexivity]. Qed.

Lemma nth_flat_map {A B : Type} (g : A -> list B) (xs : list A) (i : nat) (y : B) :
  nth_error (flat_map g xs) i = Some y ->
  exists j x, nth_error xs j = Some x /\ In y (g x).
Proof.
  intros H. apply nth_error_In in H. apply in_flat_map in H.
  destruct H as [x [Hx Hy]]. apply In_nth_error in Hx. destruct Hx as [j Hj].
  now exists j, x.
Qed.

(** An element left by [decompose_all] was in the forest, with the same
    attributes, and does not pass the filter. *)
Lemma decompose_all_origin (m : matcher) (p : path) :
  forall ks nm a cs',
  forest_at p (decompose_all m ks) = Some (Tag nm a cs') ->
  exists p' cs, forest_at p' ks = Some (Tag nm a cs)
                /\ matches m (Tag nm a cs) = false.
Proof.
  induction p as [|i q IH]; intros ks nm a cs' H; [discriminate|].
  simpl in H. unfold decompose_all in H.
  destruct (nth_error (flat_map _ ks) i) as [k'|] eqn:En; [|discriminate].
  destruct (nth_flat_map _ _ _ _ En) as [j [k [Hj Hin]]].
  destruct (matches m k) eqn:Em; [contradiction|].
  destruct Hin as [<- | []].
  destruct q as [|i2 q2].
  - simpl in H. destruct k as [kd s|nm0 a0 ks0]; [discriminate|].
    simpl in H. injection H as -> -> _.
    exists [j], ks0. split; [simpl; now rewrite Hj | exact Em].
  - destruct k as [kd s|nm0 a0 ks0]; [simpl in H; destruct i2; discriminate|].
    cbn [prune] in H. rewrite node_at_children in H by discriminate.
    destruct (IH (ks0) nm a cs' H) as [p' [cs [Hp' Hm]]].
    exists (j :: p'), cs. split; [|exact Hm].
    simpl. rewrite Hj. destruct p' as [|i3 p3]; [discriminate | exact Hp'].
Qed.

Lemma names_node_at (p : path) :
  forall n n' nm a cs,
  names n = names n' ->
  node_at p n = Some (Tag nm a cs) ->
  exists a' cs', node_at p n' = Some (Tag nm a' cs').
Proof.
  induction p as [|i q IH]; intros n n' nm a cs Hn H.
  - simpl in H. injection H as ->. destruct n' as [kd s|nm' a' cs']; [discriminate|].
    simpl in Hn. injection Hn as -> _. now exists a', cs'.
  - destruct n as [kd s|nm0 a0 ks]; [simpl in H; destruct i; discriminate|].
    destruct n' as [kd s|nm0' a0' ks']; [discriminate|].
    simpl in Hn. injection Hn as _ Hk. simpl in H |- *.
    destruct (nth_error ks i) as [k|] eqn:En; [|discriminate].
    assert (Hk' : nth_error (map names ks') i = Some (names k)).
    { rewrite <- Hk. now apply map_nth_error. }
    rewrite nth_error_map in Hk'. destruct (nth_error ks' i) as [k'|]; [|discriminate].
    simpl in Hk'. injection Hk' as Hk'.
    apply (IH k k' nm a cs); [now symmetry | exact H].
Qed.

(** An element of the result of a loop over [find_all(m)] is the element of
    the same place, with the attributes the body of the loop gave it. *)
Lemma for_each_in_origin (m : matcher) (f : attr_dict -> result attr_dict)
  (ks ks' : list node) (p : path) (nm : string) (a' : attr_dict) (cs' : list node) :
  for_each_in m f ks = Ok ks' ->
  forest_at p ks' = Some (Tag nm a' cs') ->
  exists a cs, forest_at p ks = Some (Tag nm a cs)
               /\ on_matching m f (Tag nm a cs) = Ok a'.
Proof.
  intros Hf H.
  assert (Hn : names (Tag "" [] ks') = names (Tag "" [] ks)).
  { simpl. f_equal. apply (mapM_names (update_tags (on_matching m f))); [|exact Hf].
    apply Forall_forall. intros k _. apply names_update_tags. }
  destruct p as [|i q]; [discriminate|].
  rewrite <- (node_at_children (i :: q) "" []) in H by discriminate.
  destruct (names_node_at _ _ _ _ _ _ Hn H) as [a [cs Hat]].
  rewrite node_at_children in Hat by discriminate.
  destruct (for_each_in_at m f ks ks' (i :: q) nm a cs Hf Hat) as [a2 [cs2 [H1 H2]]].
  rewrite node_at_children in H by discriminate. rewrite H in H1.
  injection H1 as <- _. now exists a, cs.
Qed.

Lemma collectM_nth {A B : Type} (f : A -> result (option B)) (xs : list A) :
  forall ys i y, collectM f xs = Ok ys -> nth_error ys i = Some y ->
  exists j x, nth_error xs j = Some x /\ f x = Ok (Some y).
Proof.
  induction xs as [|x xs IH]; intros ys i y H Hn; simpl in H.
  - injection H as <-. destruct i; discriminate.
  - destruct (f x) as [v|e] eqn:E; [|discriminate]. cbn [bind] in H.
    destruct (collectM f xs) as [ys0|e]; [|discriminate]. cbn [bind] in H.
    injection H as <-.
    assert (Hrest : forall i, nth_error ys0 i = Some y ->
              exists j x', nth_error (x :: xs) j = Some x' /\ f x' = Ok (Some y)).
    { intros i0 H0. destruct (IH ys0 i0 y eq_refl H0) as [j [x' [Hj Hx']]].
      now exists (S j), x'. }
    destruct v as [b|]; [|now apply (Hrest i)].
    destruct i as [|i]; [|now apply (Hrest i)].
    simpl in Hn. injection Hn as ->. now exists 0, x.
Qed.

Section ScriptsOrigin.

Context {RT : Runtime}.

(** An element left by the loop over the scripts was in the forest; a
    script has the attributes the loop gave it when it kept it, any other
    element the attributes it had. *)
Lemma scripts_origin (source_url : string) (p : path) :
  forall ks ks' nm a' cs',
  collectM (scripts_pass source_url) ks = Ok ks' ->
  forest_at p ks' = Some (Tag nm a' cs') ->
  exists p0 a cs,
    forest_at p0 ks = Some (Tag nm a cs)
    /\ (if matches (tag "script") (Tag nm a cs)
        then process_script source_url (Tag nm a cs)
        else Ok (Some a)) = Ok (Some a').
Proof.
  induction p as [|i q IH]; intros ks ks' nm a' cs' Hc H; [discriminate|].
  simpl in H. destruct (nth_error ks' i) as [k'|] eqn:En; [|discriminate].
  destruct (collectM_nth _ _ _ _ _ Hc En) as [j [k [Hj Hk]]].
  destruct k as [kd s|nm0 a0 ks0].
  - simpl in Hk. injection Hk as <-. destruct q as [|i2 q2]; [discriminate|].
    simpl in H. destruct i2; discriminate.
  - cbn [scripts_pass] in Hk.
    destruct (if matches (tag "script") (Tag nm0 a0 ks0)
              then process_script source_url (Tag nm0 a0 ks0)
              else Ok (Some a0)) as [[a0'|]|e] eqn:Ev; try discriminate.
    cbn [bind] in Hk.
    destruct (collectM (scripts_pass source_url) ks0) as [ks0'|e] eqn:Ec;
      [|discriminate].
    cbn [bind] in Hk. injection Hk as <-.
    destruct q as [|i2 q2].
    + simpl in H. injection H as -> -> _.
      exists [j], a0, ks0. split; [simpl; now rewrite Hj | exact Ev].
    + rewrite node_at_children in H by discriminate.
      destruct (IH ks0 ks0' nm a' cs' Ec H) as [p0 [a [cs [Hp0 Hv]]]].
      exists (j :: p0), a, cs. split; [|exact Hv].
      simpl. rewrite Hj. destruct p0; [discriminate | exact Hp0].
Qed.

End ScriptsOrigin.

(** ** What the clean-up leaves in the body *)

Lemma matches_name (m : matcher) (nm : string) (a : attr_dict) (cs : list node) :
  matches m (Tag nm a cs) = true -> nm = m_name m.
Proof.
  simpl. intros H. apply andb_true_iff in H. now apply String.eqb_eq.
Qed.

Lemma on_matching_other_name (m : matcher) (f : attr_dict -> result attr_dict)
  (nm : string) (a : attr_dict) (cs : list node) :
  String.eqb nm (m_name m) = false -> on_matching m f (Tag nm a cs) = Ok a.
Proof. intros H. unfold on_matching. simpl. now rewrite H. Qed.

Section CleanBody.

Context {RT : Runtime}.

(** The stages of a run of the rewriter on the body. *)
Lemma process_tree_stages (soup : node) (source_url : string) (r : rewritten) :
  process_tree soup source_url = Ok r ->
  exists hs ks1 ks2 ks5 ks6,
    rewrite_head soup source_url = Ok hs
    /\ body_before_scripts soup source_url = Ok ks1
    /\ collectM (scripts_pass source_url) ks1 = Ok ks2
    /\ ks5 = decompose_all edit_bracket
               (decompose_all navigation_div
                  (decompose_all unwanted_div (decompose_all edit_section ks2)))
    /\ rewrite_links source_url ks5 = Ok ks6
    /\ rewrite_images source_url ks6 = Ok (r_body r).
Proof.
  intros Hp.
  destruct (process_tree_inv soup source_url r Hp)
    as [hs [ks [ks6 [Hh [Hb [Hl [Hi _]]]]]]].
  unfold body_before_links in Hb. rewrite Hh in Hb. cbn [bind] in Hb.
  unfold clean_body in Hb.
  destruct (collectM (scripts_pass source_url) _) as [ks2|e] eqn:Ec; [|discriminate].
  cbn [bind] in Hb. injection Hb as <-.
  eexists hs, _, ks2, _, ks6. split; [exact Hh|].
  split; [unfold body_before_scripts; rewrite Hh; reflexivity|].
  split; [exact Ec|]. split; [reflexivity|]. split; [exact Hl | exact Hi].
Qed.

(** An element of the returned body that is neither an anchor nor an image
    was in the cleaned body with the same attributes. *)
Lemma body_origin (source_url : string) (ks5 ks6 ks7 : list node) (p : path)
  (nm : string) (a : attr_dict) (cs : list node) :
  rewrite_links source_url ks5 = Ok ks6 ->
  rewrite_images source_url ks6 = Ok ks7 ->
  forest_at p ks7 = Some (Tag nm a cs) ->
  String.eqb nm "a" = false -> String.eqb nm "img" = false ->
  exists cs5, forest_at p ks5 = Some (Tag nm a cs5).
Proof.
  intros Hl Hi H Na Ni.
  destruct (for_each_in_origin _ _ _ _ _ _ _ _ Hi H) as [a6 [cs6 [H6 E6]]].
  rewrite on_matching_other_name in E6 by exact Ni. injection E6 as ->.
  destruct (for_each_in_origin _ _ _ _ _ _ _ _ Hl H6) as [a5 [cs5 [H5 E5]]].
  rewrite on_matching_other_name in E5 by exact Na. injection E5 as ->.
  now exists cs5.
Qed.

(** An element of the cleaned body was in the body after the loop over the
    scripts, and passes none of the four filters of lines 190-203. *)
Lemma cleaned_origin (ks2 : list node) (p : path) (nm : string) (a : attr_dict)
  (cs : list node) :
  forest_at p (decompose_all edit_bracket
                 (decompose_all navigation_div
                    (decompose_all unwanted_div (decompose_all edit_section ks2))))
  = Some (Tag nm a cs) ->
  exists p2 cs2,
    forest_at p2 ks2 = Some (Tag nm a cs2)
    /\ forall cs0, matches edit_section (Tag nm a cs0) = false
                   /\ matches unwanted_div (Tag nm a cs0) = false
                   /\ matches navigation_div (Tag nm a cs0) = false
                   /\ matches edit_bracket (Tag nm a cs0) = false.
Proof.
  intros H.
  destruct (decompose_all_origin _ _ _ _ _ _ H) as [p4 [cs4 [H4 M4]]].
  destruct (decompose_all_origin _ _ _ _ _ _ H4) as [p3 [cs3 [H3 M3]]].
  destruct (decompose_all_origin _ _ _ _ _ _ H3) as [p2' [cs2' [H2 M2]]].
  destruct (decompose_all_origin _ _ _ _ _ _ H2) as [p2 [cs2 [H1 M1]]].
  exists p2, cs2. split; [exact H1|]. intros cs0. now repeat split.
Qed.

(** X8.  None of the elements the clean-up removes is in the body the
    rewriter returns: no [noscript] element, no [span] of class
    [mw-editsection] or [mw-editsection-bracket], no [div] of class
    [navbox], [printfooter], [mw-authority-control] or [noprint], no [div]
    whose role is [navigation]. *)
Theorem removed_elements_absent (soup : node) (source_url : string)
  (r : rewritten) :
  process_tree soup source_url = Ok r ->
  forall p nm a cs,
    forest_at p (r_body r) = Some (Tag nm a cs) ->
    matches (tag "noscript") (Tag nm a cs) = false
    /\ matches edit_section (Tag nm a cs) = false
    /\ matches unwanted_div (Tag nm a cs) = false
    /\ matches navigation_div (Tag nm a cs) = false
    /\ matches edit_bracket (Tag nm a cs) = false.
Proof.
  intros Hp.
  destruct (process_tree_stages soup source_url r Hp)
    as [hs [ks1 [ks2 [ks5 [ks6 [Hh [H1 [Hc [E5 [Hl Hi]]]]]]]]]].
  intros p nm a cs H.
  (* a filter that passes names the element noscript, span or div *)
  assert (Hgo : forall m, In (m_name m) ["noscript"; "span"; "div"] ->
             matches m (Tag nm a cs) = true ->
             exists p2 cs2,
               forest_at p2 ks2 = Some (Tag nm a cs2)
               /\ nm = m_name m
               /\ forall cs0, matches edit_section (Tag nm a cs0) = false
                   /\ matches unwanted_div (Tag nm a cs0) = false
                   /\ matches navigation_div (Tag nm a cs0) = false
                   /\ matches edit_bracket (Tag nm a cs0) = false).
  { intros m Hin Hm. pose proof (matches_name _ _ _ _ Hm) as Hn.
    assert (Hna : String.eqb nm "a" = false /\ String.eqb nm "img" = false).
    { rewrite Hn. simpl in Hin. destruct Hin as [<- | [<- | [<- | []]]]; now split. }
    destruct (body_origin _ _ _ _ _ _ _ _ Hl Hi H (proj1 Hna) (proj2 Hna)) as [cs5 H5].
    rewrite E5 in H5. destruct (cleaned_origin _ _ _ _ _ H5) as [p2 [cs2 [H2 Hm2]]].
    now exists p2, cs2. }
  assert (Hno : forall m, In (m_name m) ["span"; "div"] ->
             (forall cs0, matches edit_section (Tag nm a cs0) = false
                   /\ matches unwanted_div (Tag nm a cs0) = false
                   /\ matches navigation_div (Tag nm a cs0) = false
                   /\ matches edit_bracket (Tag nm a cs0) = false ->
                   matches m (Tag nm a cs0) = false) ->
             matches m (Tag nm a cs) = false).
  { intros m Hin Hsel. destruct (matches m (Tag nm a cs)) eqn:Em; [|reflexivity].
    destruct (Hgo m) as [p2 [cs2 [_ [_ Hall]]]]; [simpl in *; tauto | exact Em|].
    rewrite (Hsel cs (Hall cs)) in Em. discriminate. }
  split.
  - destruct (matches (tag "noscript") (Tag nm a cs)) eqn:Em; [|reflexivity].
    destruct (Hgo (tag "noscript")) as [p2 [cs2 [H2 [Hn _]]]];
      [simpl; tauto | exact Em|].
    simpl in Hn. subst nm.
    destruct (scripts_origin _ _ _ _ _ _ _ Hc H2) as [p1 [a1 [cs1 [Hat1 Hv]]]].
    simpl in Hv. injection Hv as ->.
    unfold body_before_scripts in H1. rewrite Hh in H1. cbn [bind] in H1.
    injection H1 as <-.
    destruct (decompose_all_origin _ _ _ _ _ _ Hat1) as [p0 [cs0 [_ M0]]].
    discriminate M0.
  - repeat split; apply Hno; try (simpl; tauto); intros cs0 Hall; apply Hall.
Qed.

(** What the loop over the scripts asks of a script it keeps. *)
Lemma process_script_kept (source_url : string) (n : node) (a' : attr_dict) :
  process_script source_url n = Ok (Some a') ->
  exists src,
    (dict_get (attrs_of n) "src" = Some (AStr src)
     \/ (dict_get (attrs_of n) "src" = None /\ src = EmptyString))
    /\ PyStr.contains "analytics" (lower src) = false
    /\ PyStr.contains "tracker" (lower src) = false
    /\ PyStr.contains "google" (lower src) = false
    /\ inline_tracking (tag_string n) = false
    /\ (PyStr.truthy src = true ->
        exists src', make_absolute source_url src = Ok src'
                     /\ a' = dict_set (attrs_of n) "src" (AStr src'))
    /\ (PyStr.truthy src = false -> a' = attrs_of n).
Proof.
  unfold process_script. intros H.
  assert (Hsrc : exists src,
             match dict_get (attrs_of n) "src" with
             | Some v => str_of v
             | None => Ok EmptyString
             end = Ok src
             /\ (dict_get (attrs_of n) "src" = Some (AStr src)
                 \/ (dict_get (attrs_of n) "src" = None /\ src = EmptyString))).
  { destruct (dict_get (attrs_of n) "src") as [[s|l]|].
    - exists s. now split; [|left].
    - discriminate H.
    - exists EmptyString. split; [reflexivity | now right]. }
  destruct Hsrc as [src [E Hs]]. rewrite E in H. cbn [bind] in H.
  exists src. split; [exact Hs|].
  destruct (PyStr.contains "analytics" (lower src)); [discriminate|].
  destruct (PyStr.contains "tracker" (lower src)); [discriminate|].
  destruct (PyStr.contains "google" (lower src)); [discriminate|].
  cbn [orb] in H.
  destruct (inline_tracking (tag_string n)); [discriminate|].
  split; [reflexivity|]. split; [reflexivity|]. split; [reflexivity|].
  split; [reflexivity|].
  destruct (PyStr.truthy src).
  - destruct (make_absolute source_url src) as [src'|e]; [|discriminate].
    cbn [bind] in H. injection H as <-.
    split; [intros _; now exists src' | discriminate].
  - injection H as <-. split; [discriminate | reflexivity].
Qed.

(** X9.  A script element of the body the rewriter returns is a script the
    loop over the scripts found and kept: its source then, the empty
    string when it had none, has none of [analytics], [tracker] and [google]
    in its lower-case form, its inline text has neither [analytics] nor
    [tracker], and its source now is the absolute form of that source. *)
Theorem surviving_scripts_pass_the_block_list (soup : node) (source_url : string)
  (r : rewritten) :
  process_tree soup source_url = Ok r ->
  exists ks1,
    body_before_scripts soup source_url = Ok ks1
    /\ forall p a' cs',
         forest_at p (r_body r) = Some (Tag "script" a' cs') ->
         exists p1 a cs src,
           forest_at p1 ks1 = Some (Tag "script" a cs)
           /\ (dict_get a "src" = Some (AStr src)
               \/ (dict_get a "src" = None /\ src = EmptyString))
           /\ PyStr.contains "analytics" (lower src) = false
           /\ PyStr.contains "tracker" (lower src) = false
           /\ PyStr.contains "google" (lower src) = false
           /\ inline_tracking (tag_string (Tag "script" a cs)) = false
           /\ (PyStr.truthy src = true ->
               exists src', make_absolute source_url src = Ok src'
                            /\ a' = dict_set a "src" (AStr src'))
           /\ (PyStr.truthy src = false -> a' = a).
Proof.
  intros Hp.
  destruct (process_tree_stages soup source_url r Hp)
    as [hs [ks1 [ks2 [ks5 [ks6 [Hh [H1 [Hc [E5 [Hl Hi]]]]]]]]]].
  exists ks1. split; [exact H1|]. intros p a' cs' H.
  destruct (body_origin _ _ _ _ _ _ _ _ Hl Hi H eq_refl eq_refl) as [cs5 H5].
  rewrite E5 in H5. destruct (cleaned_origin _ _ _ _ _ H5) as [p2 [cs2 [H2 _]]].
  destruct (scripts_origin _ _ _ _ _ _ _ Hc H2) as [p1 [a [cs [Hat1 Hv]]]].
  change (matches (tag "script") (Tag "script" a cs)) with true in Hv.
  cbv iota in Hv.
  destruct (process_script_kept _ _ _ Hv) as [src Hk].
  now exists p1, a, cs, src.
Qed.

End CleanBody.

(** * Further properties of the assembly *)

Lemma replace_from_absent (old new s : string) :
  PyStr.contains old s = false -> PyStr.replace_from old new 0 s = s.
Proof.
  induction s as [|c s IH]; intros H; [reflexivity|].
  cbn [PyStr.contains] in H. apply orb_false_iff in H. destruct H as [H1 H2].
  cbn [PyStr.replace_from]. rewrite H1. now rewrite (IH H2).
Qed.

(** X10.  Every assembled document ends with the body fragment as it was
    given, then the modal markup, then the interception script, then the
    closing tags; so the modal and the script are in every document. *)
Theorem document_ends_with_body_modal_script (d : page_data) :
  exists before,
    generate_html d
    = before ++ body_content d ++ modal_markup ++ interception_script
      ++ "</body>" ++ nl ++ "</html>" ++ nl
    /\ PyStr.contains modal_markup (generate_html d) = true
    /\ PyStr.contains interception_script (generate_html d) = true.
Proof.
  exists ("<!DOCTYPE html>" ++ nl ++ "<html lang=" ++ dq ++ "en" ++ dq ++ ">" ++ nl
          ++ head_with_css d ++ nl ++ "<body>" ++ nl).
  split; [|exact (modal_and_script_present d)].
  unfold generate_html, boundary_modal.
  rewrite !append_assoc. reflexivity.
Qed.

(** X11.  When the head fragment has a closing head tag, the style sheet
    stands in the assembled document right before a closing head tag. *)
Theorem stylesheet_injected_before_head_close (d : page_data) :
  PyStr.contains "</head>" (head_content d) = true ->
  PyStr.contains (boundary_css ++ "</head>") (generate_html d) = true.
Proof.
  intros H. unfold generate_html, head_with_css.
  do 8 apply contains_app. apply contains_app_l.
  apply replace_from_contains; [exact H | discriminate].
Qed.

(** X12.  When the head fragment has no closing head tag (the empty
    fragment of a page without head, or any other), it goes into the
    document as it is: the style sheet is put in nowhere. *)
Theorem head_without_close_tag_unchanged (d : page_data) :
  PyStr.contains "</head>" (head_content d) = false ->
  head_with_css d = head_content d
  /\ generate_html d
     = "<!DOCTYPE html>" ++ nl ++ "<html lang=" ++ dq ++ "en" ++ dq ++ ">" ++ nl
       ++ head_content d ++ nl ++ "<body>" ++ nl
       ++ body_content d ++ boundary_modal ++ "</body>" ++ nl ++ "</html>" ++ nl.
Proof.
  intros H.
  assert (E : head_with_css d = head_content d).
  { unfold head_with_css. now apply replace_from_absent. }
  split; [exact E|]. unfold generate_html. now rewrite E.
Qed.

(** * Further properties of the embedder *)

(** ** The font URLs the pattern finds *)

Lemma findall_from_suffix (r : Re.regex) (s : string) :
  forall skip g, In g (Re.findall_from r skip s) ->
  exists before s0 n, s = before ++ s0 /\ Re.match_here r s0 = Some (g, n).
Proof.
  induction s as [|c s IH]; intros skip g H; simpl in H; [contradiction|].
  assert (Hrest : forall k, In g (Re.findall_from r k s) ->
            exists before s0 n, String c s = before ++ s0
                                /\ Re.match_here r s0 = Some (g, n)).
  { intros k Hk. destruct (IH k g Hk) as [b [s0 [n [-> Hm]]]].
    now exists (String c b), s0, n. }
  destruct skip as [|k]; [|now apply (Hrest k)].
  destruct (Re.match_here r (String c s)) as [[g0 n]|] eqn:E.
  - destruct H as [<- | H]; [|now apply (Hrest (n - 1))].
    now exists EmptyString, (String c s), n.
  - now apply (Hrest 0).
Qed.

Lemma is_quote_string (c : ascii) :
  is_quote c = true -> quote_or_nothing (String c EmptyString).
Proof.
  unfold is_quote, quote_or_nothing. rewrite orb_true_iff, !Ascii.eqb_eq.
  intros [-> | ->]; [right; now left | right; now right].
Qed.

(** The text a match of the pattern covers. *)
Lemma font_url_sem_text (t : string) (cap : option string) :
  Re.sem font_url_re t None cap ->
  exists q1 g q2,
    t = "url(" ++ q1 ++ g ++ q2 ++ ")" /\ cap = Some g
    /\ quote_or_nothing q1 /\ quote_or_nothing q2.
Proof.
  unfold font_url_re. intros H. open_sem.
  all: match goal with
       | |- exists _ _ _, "url(" ++ ?q1 ++ ?g ++ ?q2 ++ ")" = _ /\ _ =>
           exists q1, g, q2
       end; (split; [reflexivity|]); (split; [reflexivity|]).
  all: split;
    first [ now left
          | match goal with
            | Hq : is_quote ?c = true |- quote_or_nothing (String ?c _) =>
                exact (is_quote_string c Hq)
            end ].
Qed.

(** X13.  A URL the pattern finds in a style sheet is written there, after
    [url(] and at most one quote and before at most one quote and [)]. *)
Theorem found_font_url_is_in_the_text (css url : string) :
  In url (Re.findall font_url_re css) ->
  exists q1 q2,
    PyStr.contains ("url(" ++ q1 ++ url ++ q2 ++ ")") css = true
    /\ quote_or_nothing q1 /\ quote_or_nothing q2.
Proof.
  intros H. destruct (findall_from_suffix _ _ _ _ H) as [b [s0 [n [-> Hm]]]].
  unfold Re.match_here in Hm.
  destruct (rmatch_sound _ _ _ _ _ Hm) as [t [s' [cap [-> [Hs Hk]]]]].
  destruct (font_url_sem_text t cap Hs) as [q1 [g [q2 [-> [-> [Q1 Q2]]]]]].
  injection Hk as <- _. exists q1, q2. split; [|now split].
  apply contains_app. apply contains_prefix.
Qed.

(** X14.  No URL the pattern finds has one of the four font extensions the
    embedder tells apart, so every font it embeds gets the default media
    type [font/woff]. *)
Theorem found_font_never_has_font_extension (css url : string) :
  In url (Re.findall font_url_re css) ->
  PyStr.endswith url ".woff2" = false /\ PyStr.endswith url ".woff" = false
  /\ PyStr.endswith url ".ttf" = false /\ PyStr.endswith url ".otf" = false
  /\ font_media_type url = "font/woff".
Proof.
  intros H. destruct (font_files_never_found css url H) as [H1 [H2 [H3 H4]]].
  repeat split; try assumption. exact (found_fonts_get_default_type css url H).
Qed.

(** ** Images, unusable style sheets, and what the embedder keeps *)

Section EmbedderMore.

Context {RT : Runtime}.

(** Lines 60-69: the media type by the extension of the source. *)
Lemma image_media_type_cases (src : string) :
  (PyStr.endswith src ".jpg" || PyStr.endswith src ".jpeg" = true ->
     image_media_type src = "image/jpeg")
  /\ (PyStr.endswith src ".jpg" || PyStr.endswith src ".jpeg" = false ->
      PyStr.endswith src ".png" = true -> image_media_type src = "image/png")
  /\ (PyStr.endswith src ".jpg" || PyStr.endswith src ".jpeg" = false ->
      PyStr.endswith src ".png" = false -> PyStr.endswith src ".gif" = true ->
      image_media_type src = "image/gif")
  /\ (PyStr.endswith src ".jpg" || PyStr.endswith src ".jpeg" = false ->
      PyStr.endswith src ".png" = false -> PyStr.endswith src ".gif" = false ->
      PyStr.endswith src ".svg" = true -> image_media_type src = "image/svg+xml")
  /\ (PyStr.endswith src ".jpg" || PyStr.endswith src ".jpeg" = false ->
      PyStr.endswith src ".png" = false -> PyStr.endswith src ".gif" = false ->
      PyStr.endswith src ".svg" = false -> image_media_type src = "image/jpeg").
Proof.
  unfold image_media_type.
  destruct (PyStr.endswith src ".jpg" || PyStr.endswith src ".jpeg"),
    (PyStr.endswith src ".png"), (PyStr.endswith src ".gif"),
    (PyStr.endswith src ".svg");
    repeat split; intros; try reflexivity; discriminate.
Qed.

(** X15.  An image of the body of a run of the embedder that returns:
    when its fetch fails or gives nothing it keeps its attributes; when it
    gives data, its source is the data URI of that data and its other
    attributes stay.  The media type of the URI is [image/jpeg] for a
    source that ends in [.jpg] or [.jpeg], [image/png] for [.png],
    [image/gif] for [.gif], [image/svg+xml] for [.svg], and [image/jpeg] for
    any other source. *)
Theorem image_embedded_or_left_alone (soup body_soup soup' body' : node)
  (w w' : world) (p : path) (a : attr_dict) (cs : list node) (src : string) :
  p <> [] ->
  node_at p body_soup = Some (Tag "img" a cs) ->
  dict_get a "src" = Some (AStr src) ->
  embed_trees soup body_soup w = (Ok (soup', body'), w') ->
  exists wq a' cs' media_type,
    node_at p body' = Some (Tag "img" a' cs')
    /\ (downloaded (fst (download_resource src wq)) = None -> a' = a)
    /\ (forall data,
          downloaded (fst (download_resource src wq)) = Some data ->
          a' = dict_set a "src"
                 (AStr ("data:" ++ media_type ++ ";base64," ++ data)))
    /\ (PyStr.endswith src ".jpg" || PyStr.endswith src ".jpeg" = true ->
          media_type = "image/jpeg")
    /\ (PyStr.endswith src ".jpg" || PyStr.endswith src ".jpeg" = false ->
        PyStr.endswith src ".png" = true -> media_type = "image/png")
    /\ (PyStr.endswith src ".jpg" || PyStr.endswith src ".jpeg" = false ->
        PyStr.endswith src ".png" = false -> PyStr.endswith src ".gif" = true ->
        media_type = "image/gif")
    /\ (PyStr.endswith src ".jpg" || PyStr.endswith src ".jpeg" = false ->
        PyStr.endswith src ".png" = false -> PyStr.endswith src ".gif" = false ->
        PyStr.endswith src ".svg" = true -> media_type = "image/svg+xml")
    /\ (PyStr.endswith src ".jpg" || PyStr.endswith src ".jpeg" = false ->
        PyStr.endswith src ".png" = false -> PyStr.endswith src ".gif" = false ->
        PyStr.endswith src ".svg" = false -> media_type = "image/jpeg").
Proof.
  intros Hne Hat Hs Hrun.
  destruct (embed_trees_inv _ _ _ _ _ _ Hrun) as [w1 [w2 [-> _]]].
  rewrite (forest_at_children p _ Hne) in Hat.
  destruct (images_at_img a cs src p _ w1 Hat Hs) as [wq [cs' Himg]].
  exists wq. eexists _, cs', (image_media_type src).
  split; [rewrite (forest_at_children p _ Hne), below_contents; exact Himg|].
  split; [now intros ->|]. split; [now intros data ->|].
  apply image_media_type_cases.
Qed.

Lemma mapS_names {S : Type} (f : node -> S -> node * S) (ks : list node) :
  Forall (fun k => forall w, names (fst (f k w)) = names k) ks ->
  forall w, map names (fst (mapS f ks w)) = map names ks.
Proof.
  induction 1 as [|k ks Hk _ IH]; intros w; [reflexivity|].
  simpl. specialize (Hk w). destruct (f k w) as [k' w1].
  specialize (IH w1). destruct (mapS f ks w1) as [ks' w2].
  simpl in *. now rewrite Hk, IH.
Qed.

Lemma names_embed_images (n : node) :
  forall w, names (fst (embed_images n w)) = names n.
Proof.
  induction n as [kd s|nm a ks IH] using node_induction; intros w; [reflexivity|].
  cbn [embed_images].
  destruct (if matches (tag "img") (Tag nm a ks) then _ else _) as [a' w1].
  pose proof (mapS_names embed_images ks IH w1) as Hk.
  destruct (mapS embed_images ks w1) as [ks' w2]. simpl in *. now rewrite Hk.
Qed.

(** X16.  The embedder adds no element to the body and removes none: the
    body it returns has the elements and strings of the body it was given,
    under the same names and in the same places. *)
Theorem embedder_keeps_body_elements (soup body_soup soup' body' : node)
  (w w' : world) :
  embed_trees soup body_soup w = (Ok (soup', body'), w') ->
  names body' = names body_soup.
Proof.
  intros Hrun. destruct (embed_trees_inv _ _ _ _ _ _ Hrun) as [w1 [w2 [-> _]]].
  destruct body_soup as [kd s|nm a ks]; [reflexivity|]. unfold below.
  pose proof (mapS_names embed_images ks
                (proj2 (Forall_forall _ _) (fun k _ => names_embed_images k)) w1)
    as Hk.
  destruct (mapS embed_images ks w1) as [ks' w3]. simpl in *. now rewrite Hk.
Qed.

(** X17.  A stylesheet link is in the head of every run of the embedder
    that returns, at its place and as it was, not only when its fetch fails
    but also when the response is empty or does not decode as UTF-8 text,
    in the state of the network the request is made in. *)
Theorem unusable_stylesheet_left_alone (html_content body_content head' body' : string)
  (w w0 w' : world) (p : path) (a : attr_dict) (href : string) :
  parser_typed (parse html_content) = true ->
  node_at p (parse html_content) = Some (Tag "link" a []) ->
  matches stylesheet_link (Tag "link" a []) = true ->
  dict_get a "href" = Some (AStr href) ->
  stylesheet_request_state p (contents_of (parse html_content)) w = Some w0 ->
  unusable_stylesheet (fst (download_resource href w0)) ->
  embed_offline_resources html_content body_content w = (Ok (head', body'), w') ->
  exists soup',
    head' = py_str soup' /\ node_at p soup' = Some (Tag "link" a []).
Proof.
  intros Ht Hat Hm Hh Hst Hbad Hrun.
  assert (Hr : forallb raw_shape (contents_of (parse html_content)) = true).
  { apply raw_shape_contents. unfold parser_typed in Ht.
    now apply andb_true_iff in Ht. }
  destruct (embed_offline_resources_inv _ _ _ _ _ _ Hrun)
    as [soup' [bsoup' [Et [-> _]]]].
  destruct (embed_trees_inv _ _ _ _ _ _ Et) as [w1 [w2 [_ Hf]]].
  exists soup'. split; [reflexivity|].
  pose proof (request_state_nonempty _ _ _ _ Hst) as Hne.
  rewrite (forest_at_children p _ Hne) in Hat.
  rewrite (forest_at_children p _ Hne).
  apply (fonts_at_link a p _ _ _ _ (raw_shape_mapS_stylesheets _ w Hr) Hf).
  rewrite (stylesheets_at_link a href p Hm Hh _ w w0 Hr Hat Hst).
  unfold unusable_stylesheet in Hbad.
  destruct (downloaded (fst (download_resource href w0))) as [data|]; [|reflexivity].
  now rewrite Hbad.
Qed.

End EmbedderMore.

(** ** A network that answers nothing *)




Section DeadNetwork.

Context {RT : Runtime}.

Hypothesis no_answer : forall url w, fst (requests_get url w) = None.











End DeadNetwork.


(** * The command line *)

Section MainRun.

Context {RT : Runtime} {SH : Shell RT}.

(** A run that writes a document writes it to the file of line 490, and the
    document is the one [generate_html] assembles from a record of the
    rewriter. *)
Lemma main_created (argv : list string) (w w' : world) (file html : string) :
  main argv w = (Created file html, w') ->
  file = output_file argv /\ exists d, html = generate_html d.
Proof.
  unfold main. destruct argv as [|prog [|input_source rest]]; try discriminate.
  destruct (load input_source w) as [[[html_content source_url]| |] w1];
    try discriminate.
  destruct (process_wikipedia_html html_content source_url _ w1) as [[d|e] w2];
    try discriminate.
  destruct (write_file _ _ w2) as [[|] w3]; try discriminate.
  intros H. injection H as <- <- _. split; [reflexivity | now exists d].
Qed.

End MainRun.

(** X19.  The second argument names the output file whatever it is: when
    the offline flag stands in its place, the run embeds the resources and
    any document it writes goes to a file named [--offline]. *)
Theorem offline_flag_in_second_place_names_the_output {RT : Runtime}
  {SH : Shell RT} (argv : list string) (w : world) :
  nth_error argv 2 = Some "--offline" ->
  offline_requested argv = true
  /\ output_file argv = "--offline"
  /\ forall file html w',
       main argv w = (Created file html, w') -> file = "--offline".
Proof.
  intros H.
  assert (Ho : output_file argv = "--offline") by (unfold output_file; now rewrite H).
  split; [|split; [exact Ho|]].
  - unfold offline_requested. apply existsb_exists. exists "--offline".
    split; [eapply nth_error_In; exact H | reflexivity].
  - intros file html w' Hm. destruct (main_created argv w w' file html Hm) as [-> _].
    exact Ho.
Qed.

(** X20.  A run without the offline flag whose input loads, on a tree of
    the parser whose URLs are in a set closed under the source URL, and
    whose write goes through, ends with the document in the output file:
    the document [generate_html] assembles from the record of the
    rewriter, holding the modal and the interception script. *)
Theorem main_writes_the_document {RT : Runtime} {SH : Shell RT}
  (U : string -> bool) (prog input_source : string) (rest : list string)
  (w w1 : world) (html_content source_url : string) :
  load input_source w = (Got (html_content, source_url), w1) ->
  parser_typed (parse html_content) = true ->
  urls_in U (parse html_content) = true ->
  closed_under U source_url ->
  offline_requested (prog :: input_source :: rest) = false ->
  (forall html,
     fst (write_file (output_file (prog :: input_source :: rest)) html w1) = true) ->
  exists d,
    process_wikipedia_html html_content source_url false w1 = (Ok d, w1)
    /\ fst (main (prog :: input_source :: rest) w)
       = Created (output_file (prog :: input_source :: rest)) (generate_html d)
    /\ PyStr.contains modal_markup (generate_html d) = true
    /\ PyStr.contains interception_script (generate_html d) = true.
Proof.
  intros Hl Ht Hu Hc Ho Hw.
  destruct (process_tree_total U (parse html_content) source_url
              (parser_typed_str _ Ht) Hu Hc) as [r Hr].
  pose proof (process_wikipedia_html_online html_content source_url w1 r Hr) as Hd.
  eexists. split; [exact Hd|].
  split; [|exact (modal_and_script_present _)].
  unfold main. rewrite Hl, Ho, Hd.
  match goal with |- context [write_file ?f ?h w1] => specialize (Hw h) end.
  destruct (write_file _ _ w1) as [written w3]. simpl in Hw. now subst written.
Qed.

(** * The theorems on the sample pages *)

(** ** The sample resolver and serializer *)

(** Under a base that begins with [http] the sample resolver accepts every
    URL without a bracketed host, and what it returns begins with [http]. *)
Lemma bracket_free_closed {RT : Runtime} (base : string) :
  urljoin = Sample.urljoin ->
  PyStr.startswith base "http" = true ->
  closed_under Sample.bracket_free base.
Proof.
  intros Hj Hb url Hu. exists (base ++ url). rewrite Hj. split.
  - unfold Sample.urljoin. unfold Sample.bracket_free in Hu.
    apply negb_true_iff in Hu. now rewrite Hu.
  - unfold url_ok. unfold PyStr.startswith in *.
    rewrite (prefix_app_l "http" base url Hb). apply orb_true_r.
Qed.




(** ** The rewriter on the sample pages *)

Lemma wiki_link_intercepted_witness :
  exists a' cs',
    forest_at [1; 0] (r_body Sample.page_rewritten) = Some (Tag "a" a' cs')
    /\ dict_get a' "href" = None
    /\ dict_get a' "data-boundary-url"
       = Some (AStr ("https://en.wikipedia.org" ++ "/wiki/Test"))
    /\ dict_get a' "onclick"
       = Some (AStr ("showBoundaryWarning('" ++ "https://en.wikipedia.org"
                     ++ "/wiki/Test" ++ "', 'wikipedia'); return false;")).
Proof.
  apply (@wiki_link_intercepted Sample.runtime Sample.page Sample.source_url
           Sample.cleaned [1; 0]
           [("href", AStr "/wiki/Test"); ("title", AStr "Test")]
           [Str Text "internal"] "/wiki/Test" Sample.page_rewritten); reflexivity.
Defined.

Lemma external_link_intercepted_witness :
  exists a' cs' dest,
    forest_at [1; 2] (r_body Sample.page_rewritten) = Some (Tag "a" a' cs')
    /\ dict_get a' "href" = None
    /\ dict_get a' "data-boundary-url" = Some (AStr dest)
    /\ dict_get a' "onclick"
       = Some (AStr ("showBoundaryWarning('" ++ dest
                     ++ "', 'external'); return false;"))
    /\ (PyStr.startswith "//cdn.example/x" "//" = true
        -> dest = "https:" ++ "//cdn.example/x")
    /\ (PyStr.startswith "//cdn.example/x" "//" = false -> dest = "//cdn.example/x")
    /\ PyStr.startswith dest "http://" || PyStr.startswith dest "https://" = true.
Proof.
  apply (@external_link_intercepted Sample.runtime Sample.page Sample.source_url
           Sample.cleaned [1; 2] [("href", AStr "//cdn.example/x")]
           [Str Text "scheme-relative"] "//cdn.example/x" Sample.page_rewritten);
    reflexivity.
Defined.

Lemma http_prefixed_link_unchanged_witness :
  exists cs',
    forest_at [1; 3] (r_body Sample.page_rewritten)
    = Some (Tag "a" [("href", AStr "httpfoo.html")] cs').
Proof.
  apply (@http_prefixed_link_unchanged Sample.runtime Sample.page Sample.source_url
           Sample.cleaned [1; 3] [("href", AStr "httpfoo.html")]
           [Str Text "odd"] "httpfoo.html" Sample.page_rewritten); reflexivity.
Defined.





(** ** The embedder on the sample pages *)



Lemma image_embedded_or_left_alone_witness :
  exists a' cs',
    node_at [0; 0] (snd Cases.picture_embedded) = Some (Tag "img" a' cs')
    /\ a' = [("src", AStr "data:image/png;base64,iVBORw0KGgo="); ("alt", AStr "a")].
Proof.
  destruct (@image_embedded_or_left_alone Cases.runtime Cases.binary_head
              Cases.picture_body (fst Cases.picture_embedded)
              (snd Cases.picture_embedded) []
              (snd (@embed_trees Cases.runtime Cases.binary_head Cases.picture_body []))
              [0; 0]
              [("src", AStr "https://upload.wikimedia.org/a.png"); ("alt", AStr "a")]
              [] "https://upload.wikimedia.org/a.png")
    as [wq [a' [cs' [media_type [Hat _]]]]]; try reflexivity.
  - discriminate.
  - exists a', cs'. split; [exact Hat|].
    assert (E : node_at [0; 0] (snd Cases.picture_embedded)
                = Some (Tag "img"
                          [("src", AStr "data:image/png;base64,iVBORw0KGgo=");
                           ("alt", AStr "a")] [])) by reflexivity.
    rewrite E in Hat. now injection Hat as <- _.
Defined.

Lemma embedder_keeps_body_elements_witness :
  names (snd Cases.picture_embedded) = names Cases.picture_body.
Proof.
  apply (@embedder_keeps_body_elements Cases.runtime Cases.binary_head
           Cases.picture_body (fst Cases.picture_embedded)
           (snd Cases.picture_embedded) []
           (snd (@embed_trees Cases.runtime Cases.binary_head Cases.picture_body []))).
  reflexivity.
Defined.

(** The response to the request for [binary.css] does not decode. *)
Lemma unusable_stylesheet_left_alone_witness :
  exists soup',
    Sample.py_str (fst Cases.picture_embedded) = Sample.py_str soup'
    /\ node_at [0; 0] soup'
       = Some (Tag "link" [("rel", AList ["stylesheet"]);
                           ("href", AStr "https://en.wikipedia.org/w/binary.css")] []).
Proof.
  apply (@unusable_stylesheet_left_alone Cases.runtime "binary" "picture"
           (Sample.py_str (fst Cases.picture_embedded))
           (Sample.py_str (snd Cases.picture_embedded)) [] []
           (snd (@embed_offline_resources Cases.runtime "binary" "picture" []))
           [0; 0]
           [("rel", AList ["stylesheet"]);
            ("href", AStr "https://en.wikipedia.org/w/binary.css")]
           "https://en.wikipedia.org/w/binary.css"); reflexivity.
Defined.


(** ** More of the rewriter on the sample pages *)

Lemma fragment_link_unchanged_witness :
  exists cs',
    forest_at [1; 4] (r_body Sample.page_rewritten)
    = Some (Tag "a" [("href", AStr "#top")] cs').
Proof.
  apply (@fragment_link_unchanged Sample.runtime Sample.page Sample.source_url
           Sample.cleaned [1; 4] [("href", AStr "#top")] [Str Text "top"] "#top"
           Sample.page_rewritten); reflexivity.
Defined.

(** The relative anchor of [Cases.notes_page] is resolved, and the rewriter
    raises on the anchor of [Sample.unjoinable_link_page]. *)
Lemma relative_link_resolved_witness :
  (exists joined a' cs',
     Sample.urljoin Sample.source_url "notes.html" = Some joined
     /\ forest_at [0; 0] (r_body Cases.notes_rewritten) = Some (Tag "a" a' cs')
     /\ dict_get a' "href" = Some (AStr joined)
     /\ forall k, k <> "href" ->
          dict_get a' k
          = dict_get [("href", AStr "notes.html"); ("class", AList ["ref"])] k)
  /\ @process_tree Sample.runtime Sample.unjoinable_link_page Sample.source_url
     = Raise ValueError.
Proof.
  split.
  - refine (proj1 (@relative_link_resolved Sample.runtime Cases.notes_page
                     Sample.source_url Cases.notes_cleaned [0; 0]
                     [("href", AStr "notes.html"); ("class", AList ["ref"])]
                     [Str Text "notes"] "notes.html" _ _ _ _ _ _ _)
              Cases.notes_rewritten _); reflexivity.
  - refine (proj2 (@relative_link_resolved Sample.runtime
                     Sample.unjoinable_link_page Sample.source_url
                     [Tag "p" [] [Tag "a" [("href", AStr "x://[")] [Str Text "k"]]]
                     [0; 0] [("href", AStr "x://[")] [Str Text "k"] "x://["
                     _ _ _ _ _ _ _) _ _); reflexivity.
Defined.

Lemma interception_keeps_other_attributes_witness :
  exists a' cs',
    forest_at [1; 0] (r_body Sample.page_rewritten) = Some (Tag "a" a' cs')
    /\ forall k, k <> "href" -> k <> "data-boundary-url" -> k <> "onclick" ->
         dict_get a' k
         = dict_get [("href", AStr "/wiki/Test"); ("title", AStr "Test")] k.
Proof.
  apply (@interception_keeps_other_attributes Sample.runtime Sample.page
           Sample.source_url Sample.cleaned [1; 0]
           [("href", AStr "/wiki/Test"); ("title", AStr "Test")]
           [Str Text "internal"] "/wiki/Test" Sample.page_rewritten); reflexivity.
Defined.

(** The scheme-relative image of [Sample.page] gets [https:], and the
    rewriter raises on the image of [Sample.unjoinable_image_page]. *)
Lemma image_source_made_absolute_witness :
  (exists a' cs',
     forest_at [1; 5] (r_body Sample.page_rewritten) = Some (Tag "img" a' cs')
     /\ dict_get a' "src" = Some (AStr ("https:" ++ "//upload.wikimedia.org/a.png")))
  /\ @process_tree Sample.runtime Sample.unjoinable_image_page Sample.source_url
     = Raise ValueError.
Proof.
  split.
  - destruct (proj1 (@image_source_made_absolute Sample.runtime Sample.page
                       Sample.source_url Sample.cleaned [1; 5]
                       [("src", AStr "//upload.wikimedia.org/a.png")] []
                       "//upload.wikimedia.org/a.png" eq_refl eq_refl eq_refl)
                Sample.page_rewritten eq_refl)
      as [a' [cs' [Hat [Hs _]]]].
    exists a', cs'. split; [exact Hat | exact (Hs eq_refl)].
  - refine (proj2 (@image_source_made_absolute Sample.runtime
                     Sample.unjoinable_image_page Sample.source_url
                     [Tag "img" [("src", AStr "x://[")] []]
                     [0] [("src", AStr "x://[")] [] "x://[" _ _ _) _ _ _ _);
      reflexivity.
Defined.

Lemma links_and_images_keep_elements_witness :
  map names (r_body Sample.page_rewritten) = map names Sample.cleaned.
Proof.
  apply (@links_and_images_keep_elements Sample.runtime Sample.page
           Sample.source_url Sample.cleaned Sample.page_rewritten); reflexivity.
Defined.

Lemma head_keeps_elements_and_other_attributes_witness :
  exists head',
    r_head Sample.page_rewritten = Some head'
    /\ names head' = names Cases.page_head
    /\ forall p nm a cs,
         node_at p Cases.page_head = Some (Tag nm a cs) ->
         exists a' cs',
           node_at p head' = Some (Tag nm a' cs')
           /\ forall k, k <> "href" -> k <> "src" -> dict_get a' k = dict_get a k.
Proof.
  apply (@head_keeps_elements_and_other_attributes Sample.runtime Sample.page
           Cases.page_head Sample.source_url Sample.page_rewritten); reflexivity.
Defined.

Lemma head_link_resolved_once_witness :
  exists head' a' cs' href',
    r_head Sample.page_rewritten = Some head'
    /\ node_at [1] head' = Some (Tag "link" a' cs')
    /\ dict_get a' "href" = Some (AStr href')
    /\ (PyStr.startswith "/w/load.css" "/" = true ->
          href' = "https://en.wikipedia.org" ++ "/w/load.css")
    /\ (PyStr.startswith "/w/load.css" "http" = true -> href' = "/w/load.css").
Proof.
  apply (@head_link_resolved_once Sample.runtime Sample.page Cases.page_head
           Sample.source_url [1]
           [("rel", AList ["stylesheet"]); ("href", AStr "/w/load.css")] []
           "/w/load.css" Sample.page_rewritten); try reflexivity.
  discriminate.
Defined.

(** Of the four children of the body of [Sample.page] two are left: the
    tracking script and the navigation box are gone. *)
Lemma removed_elements_absent_witness :
  length (r_body Sample.page_rewritten) = 2
  /\ forall p nm a cs,
       forest_at p (r_body Sample.page_rewritten) = Some (Tag nm a cs) ->
       matches (tag "noscript") (Tag nm a cs) = false
       /\ matches edit_section (Tag nm a cs) = false
       /\ matches unwanted_div (Tag nm a cs) = false
       /\ matches navigation_div (Tag nm a cs) = false
       /\ matches edit_bracket (Tag nm a cs) = false.
Proof.
  split; [reflexivity|].
  apply (@removed_elements_absent Sample.runtime Sample.page Sample.source_url
           Sample.page_rewritten).
  reflexivity.
Defined.

Lemma process_wikipedia_html_raises_witness :
  exists e,
    @process_wikipedia_html Sample.runtime "<p><a href='x://['>k</a></p>"
      Sample.source_url true [] = (Raise e, [])
    /\ e = ValueError.
Proof.
  exists ValueError. split; [reflexivity|].
  apply (@process_wikipedia_html_raises Sample.runtime
           "<p><a href='x://['>k</a></p>" Sample.source_url true [] [] ValueError);
    reflexivity.
Defined.

Lemma surviving_scripts_pass_the_block_list_witness :
  exists ks1,
    @body_before_scripts Sample.runtime Cases.notes_page Sample.source_url = Ok ks1
    /\ forall p a' cs',
         forest_at p (r_body Cases.notes_rewritten) = Some (Tag "script" a' cs') ->
         exists p1 a cs src,
           forest_at p1 ks1 = Some (Tag "script" a cs)
           /\ (dict_get a "src" = Some (AStr src)
               \/ (dict_get a "src" = None /\ src = EmptyString))
           /\ PyStr.contains "analytics" (Sample.lower src) = false
           /\ PyStr.contains "tracker" (Sample.lower src) = false
           /\ PyStr.contains "google" (Sample.lower src) = false
           /\ @inline_tracking Sample.runtime (tag_string (Tag "script" a cs)) = false
           /\ (PyStr.truthy src = true ->
               exists src',
                 @make_absolute Sample.runtime Sample.source_url src = Ok src'
                 /\ a' = dict_set a "src" (AStr src'))
           /\ (PyStr.truthy src = false -> a' = a).
Proof.
  apply (@surviving_scripts_pass_the_block_list Sample.runtime Cases.notes_page
           Sample.source_url Cases.notes_rewritten).
  reflexivity.
Defined.

(** ** The assembly and the font pattern on examples *)

Lemma stylesheet_injected_before_head_close_witness :
  PyStr.contains (boundary_css ++ "</head>")
    (generate_html (PageData "Test" "<head></head>" "<p>hi</p>" false)) = true.
Proof.
  apply (stylesheet_injected_before_head_close
           (PageData "Test" "<head></head>" "<p>hi</p>" false)).
  reflexivity.
Defined.

Lemma head_without_close_tag_unchanged_witness :
  head_with_css Sample.headless_record = head_content Sample.headless_record
  /\ generate_html Sample.headless_record
     = "<!DOCTYPE html>" ++ nl ++ "<html lang=" ++ dq ++ "en" ++ dq ++ ">" ++ nl
       ++ head_content Sample.headless_record ++ nl ++ "<body>" ++ nl
       ++ body_content Sample.headless_record ++ boundary_modal
       ++ "</body>" ++ nl ++ "</html>" ++ nl.
Proof.
  apply (head_without_close_tag_unchanged Sample.headless_record).
  reflexivity.
Defined.

Lemma found_font_url_is_in_the_text_witness :
  exists q1 q2,
    PyStr.contains ("url(" ++ q1 ++ "fonts/r.tff" ++ q2 ++ ")")
      "src: url('fonts/r.tff');" = true
    /\ quote_or_nothing q1 /\ quote_or_nothing q2.
Proof.
  apply (found_font_url_is_in_the_text "src: url('fonts/r.tff');" "fonts/r.tff").
  vm_compute. left. reflexivity.
Defined.

Lemma found_font_never_has_font_extension_witness :
  PyStr.endswith "fonts/q.off" ".woff2" = false
  /\ PyStr.endswith "fonts/q.off" ".woff" = false
  /\ PyStr.endswith "fonts/q.off" ".ttf" = false
  /\ PyStr.endswith "fonts/q.off" ".otf" = false
  /\ font_media_type "fonts/q.off" = "font/woff".
Proof.
  apply (found_font_never_has_font_extension "src: url(fonts/q.off);" "fonts/q.off").
  vm_compute. left. reflexivity.
Defined.

(** ** The command line on examples *)

Lemma offline_flag_in_second_place_names_the_output_witness :
  offline_requested ["wiki_converter.py"; "saved.html"; "--offline"] = true
  /\ output_file ["wiki_converter.py"; "saved.html"; "--offline"] = "--offline"
  /\ forall file html w',
       @main Sample.runtime Cases.shell
         ["wiki_converter.py"; "saved.html"; "--offline"] [] = (Created file html, w') ->
       file = "--offline".
Proof.
  apply (@offline_flag_in_second_place_names_the_output Sample.runtime Cases.shell
           ["wiki_converter.py"; "saved.html"; "--offline"] []).
  reflexivity.
Defined.

Lemma main_writes_the_document_witness :
  exists d,
    @process_wikipedia_html Sample.runtime "page" "https://en.wikipedia.org/wiki/Test"
      false ["https://en.wikipedia.org/wiki/Test"]
    = (Ok d, ["https://en.wikipedia.org/wiki/Test"])
    /\ fst (@main Sample.runtime Cases.shell
              ["wiki_converter.py"; "https://en.wikipedia.org/wiki/Test"; "out.html"] [])
       = Created "out.html" (generate_html d)
    /\ PyStr.contains modal_markup (generate_html d) = true
    /\ PyStr.contains interception_script (generate_html d) = true.
Proof.
  apply (@main_writes_the_document Sample.runtime Cases.shell Sample.bracket_free
           "wiki_converter.py" "https://en.wikipedia.org/wiki/Test" ["out.html"]
           [] ["https://en.wikipedia.org/wiki/Test"] "page"
           "https://en.wikipedia.org/wiki/Test").
  - reflexivity.
  - reflexivity.
  - reflexivity.
  - apply bracket_free_closed; reflexivity.
  - reflexivity.
  - intros html. reflexivity.
Defined.
